(** * RCC driver for the STM32F446RE: a shallow embedding and its properties

    The driver (Src/RCC_prog.c) is a handful of read-modify-write operations
    on the memory-mapped register block [RCC_RegDef_t] (STM32F446xx.h), some
    of them followed by a busy-wait on a status bit that the hardware owns.

    Registers are 32-bit words, kept as [Z] with the truncation of every
    store written out.  The statements of the C functions are embedded in a
    small monad that threads the register block, lets a statement [return]
    early, and runs every [while] loop on fuel: [None] means that the fuel
    ran out, so "the call never returns" is "[None] for every fuel". *)

From Stdlib Require Import ZArith List Bool Lia.
Import ListNotations.

Local Open Scope Z_scope.

(** ** Machine words *)

(** Conversion to [uint32_t]: what a store into a 32-bit register keeps. *)
Definition uint32_t (z : Z) : Z := z mod 2 ^ 32.

(** ** The register block *)

(** The members of [RCC_RegDef_t], in declaration order (reserved words are
    not registers and are left out). *)
Inductive reg : Type :=
| RCC_CR | RCC_PLLCFGR | RCC_CFGR | RCC_CIR
| RCC_AHB1RSTR | RCC_AHB2RSTR | RCC_AHB3RSTR
| RCC_APB1RSTR | RCC_APB2RSTR
| RCC_AHB1ENR | RCC_AHB2ENR | RCC_AHB3ENR
| RCC_APB1ENR | RCC_APB2ENR
| RCC_AHB1LPENR | RCC_AHB2LPENR | RCC_AHB3LPENR
| RCC_APB1LPENR | RCC_APB2LPENR
| RCC_BDCR | RCC_CSR | RCC_SSCGR
| RCC_PLLI2SCFGR | RCC_PLLSAICFGR | RCC_DCKCFGR | RCC_CKGATENR | RCC_DCKCFGR2.

Record RCC_RegDef_t : Type := mkRCC {
  CR : Z; PLLCFGR : Z; CFGR : Z; CIR : Z;
  AHB1RSTR : Z; AHB2RSTR : Z; AHB3RSTR : Z;
  APB1RSTR : Z; APB2RSTR : Z;
  AHB1ENR : Z; AHB2ENR : Z; AHB3ENR : Z;
  APB1ENR : Z; APB2ENR : Z;
  AHB1LPENR : Z; AHB2LPENR : Z; AHB3LPENR : Z;
  APB1LPENR : Z; APB2LPENR : Z;
  BDCR : Z; CSR : Z; SSCGR : Z;
  PLLI2SCFGR : Z; PLLSAICFGR : Z; DCKCFGR : Z; CKGATENR : Z; DCKCFGR2 : Z
}.

Definition reg_eqb (a b : reg) : bool :=
  match a, b with
  | RCC_CR, RCC_CR | RCC_PLLCFGR, RCC_PLLCFGR | RCC_CFGR, RCC_CFGR
  | RCC_CIR, RCC_CIR
  | RCC_AHB1RSTR, RCC_AHB1RSTR | RCC_AHB2RSTR, RCC_AHB2RSTR
  | RCC_AHB3RSTR, RCC_AHB3RSTR
  | RCC_APB1RSTR, RCC_APB1RSTR | RCC_APB2RSTR, RCC_APB2RSTR
  | RCC_AHB1ENR, RCC_AHB1ENR | RCC_AHB2ENR, RCC_AHB2ENR
  | RCC_AHB3ENR, RCC_AHB3ENR
  | RCC_APB1ENR, RCC_APB1ENR | RCC_APB2ENR, RCC_APB2ENR
  | RCC_AHB1LPENR, RCC_AHB1LPENR | RCC_AHB2LPENR, RCC_AHB2LPENR
  | RCC_AHB3LPENR, RCC_AHB3LPENR
  | RCC_APB1LPENR, RCC_APB1LPENR | RCC_APB2LPENR, RCC_APB2LPENR
  | RCC_BDCR, RCC_BDCR | RCC_CSR, RCC_CSR | RCC_SSCGR, RCC_SSCGR
  | RCC_PLLI2SCFGR, RCC_PLLI2SCFGR | RCC_PLLSAICFGR, RCC_PLLSAICFGR
  | RCC_DCKCFGR, RCC_DCKCFGR | RCC_CKGATENR, RCC_CKGATENR
  | RCC_DCKCFGR2, RCC_DCKCFGR2 => true
  | _, _ => false
  end.

(** [RCC->r] read as a value. *)
Definition get (r : reg) (s : RCC_RegDef_t) : Z :=
  match r with
  | RCC_CR => CR s | RCC_PLLCFGR => PLLCFGR s | RCC_CFGR => CFGR s
  | RCC_CIR => CIR s
  | RCC_AHB1RSTR => AHB1RSTR s | RCC_AHB2RSTR => AHB2RSTR s
  | RCC_AHB3RSTR => AHB3RSTR s
  | RCC_APB1RSTR => APB1RSTR s | RCC_APB2RSTR => APB2RSTR s
  | RCC_AHB1ENR => AHB1ENR s | RCC_AHB2ENR => AHB2ENR s
  | RCC_AHB3ENR => AHB3ENR s
  | RCC_APB1ENR => APB1ENR s | RCC_APB2ENR => APB2ENR s
  | RCC_AHB1LPENR => AHB1LPENR s | RCC_AHB2LPENR => AHB2LPENR s
  | RCC_AHB3LPENR => AHB3LPENR s
  | RCC_APB1LPENR => APB1LPENR s | RCC_APB2LPENR => APB2LPENR s
  | RCC_BDCR => BDCR s | RCC_CSR => CSR s | RCC_SSCGR => SSCGR s
  | RCC_PLLI2SCFGR => PLLI2SCFGR s | RCC_PLLSAICFGR => PLLSAICFGR s
  | RCC_DCKCFGR => DCKCFGR s | RCC_CKGATENR => CKGATENR s
  | RCC_DCKCFGR2 => DCKCFGR2 s
  end.

(** The block whose member [r] holds [f r]. *)
Definition tabulate (f : reg -> Z) : RCC_RegDef_t :=
  mkRCC (f RCC_CR) (f RCC_PLLCFGR) (f RCC_CFGR) (f RCC_CIR)
        (f RCC_AHB1RSTR) (f RCC_AHB2RSTR) (f RCC_AHB3RSTR)
        (f RCC_APB1RSTR) (f RCC_APB2RSTR)
        (f RCC_AHB1ENR) (f RCC_AHB2ENR) (f RCC_AHB3ENR)
        (f RCC_APB1ENR) (f RCC_APB2ENR)
        (f RCC_AHB1LPENR) (f RCC_AHB2LPENR) (f RCC_AHB3LPENR)
        (f RCC_APB1LPENR) (f RCC_APB2LPENR)
        (f RCC_BDCR) (f RCC_CSR) (f RCC_SSCGR)
        (f RCC_PLLI2SCFGR) (f RCC_PLLSAICFGR) (f RCC_DCKCFGR)
        (f RCC_CKGATENR) (f RCC_DCKCFGR2).

(** [RCC->r = v]: member [r] replaced, every other member kept. *)
Definition set (r : reg) (v : Z) (s : RCC_RegDef_t) : RCC_RegDef_t :=
  tabulate (fun r' => if reg_eqb r' r then v else get r' s).

(** ** The machine: registers and the log of the driver's stores *)

(** One store of the driver: the register, what it held, what was stored. *)
Record write_t : Type := mkWrite { w_reg : reg; w_old : Z; w_new : Z }.

(** The register block together with the stores made so far, newest first.
    The log is ghost state: it lets "the driver wrote nothing" and "the
    driver changed only these bits" be said apart from what the hardware
    does to its own status bits. *)
Record machine : Type := mkMachine {
  rcc : RCC_RegDef_t;
  wlog : list write_t
}.

(** ** Statements *)

(** A statement either falls through with a value or executes [return v]. *)
Inductive outcome (A : Type) : Type :=
| Normal (a : A)
| Returned (v : Z).
Arguments Normal {A} a.
Arguments Returned {A} v.

(** [None]: a busy-wait ran out of fuel. *)
Definition stmt (A : Type) : Type := machine -> option (outcome A * machine).

Definition skip : stmt unit := fun m => Some (Normal tt, m).

Definition Return {A : Type} (v : Z) : stmt A := fun m => Some (Returned v, m).

Definition bind {A B : Type} (c : stmt A) (k : A -> stmt B) : stmt B :=
  fun m =>
    match c m with
    | None => None
    | Some (Normal a, m') => k a m'
    | Some (Returned v, m') => Some (Returned v, m')
    end.

Notation "x <- c ;; k" := (bind c (fun x => k))
  (at level 61, c at next level, right associativity).
Notation "c ;; k" := (bind c (fun _ => k))
  (at level 61, right associativity).

(** Volatile read of [RCC->r]. *)
Definition read (r : reg) : stmt Z :=
  fun m => Some (Normal (get r (rcc m)), m).

(** Store into [RCC->r]: the value is truncated to 32 bits and logged. *)
Definition write (r : reg) (v : Z) : stmt unit :=
  fun m =>
    Some (Normal tt,
          mkMachine (set r (uint32_t v) (rcc m))
                    (mkWrite r (get r (rcc m)) (uint32_t v) :: wlog m)).

(** [RCC->r |= x] and [RCC->r &= x]. *)
Definition or_assign (r : reg) (x : Z) : stmt unit :=
  v <- read r ;; write r (Z.lor v x).

Definition and_assign (r : reg) (x : Z) : stmt unit :=
  v <- read r ;; write r (Z.land v x).

(** A function body can only leave through [return]: its fall-through type
    is empty. *)
Definition call (body : stmt Empty_set) (m : machine) : option (Z * machine) :=
  match body m with
  | None => None
  | Some (Returned v, m') => Some (v, m')
  | Some (Normal e, _) => match e with end
  end.

(** ** Busy-waiting on the hardware *)

Section Hardware.

(** What the hardware does to the register block between two consecutive
    polls of a busy-wait loop.  Nothing is assumed of it here; the
    theorems say what they need. *)
Variable hw : RCC_RegDef_t -> RCC_RegDef_t.

Definition tick (m : machine) : machine :=
  mkMachine (hw (rcc m)) (wlog m).

(** [while (cond(RCC)) ;] *)
Fixpoint while_poll (cond : RCC_RegDef_t -> bool) (fuel : nat) : stmt unit :=
  fun m =>
    match fuel with
    | O => None
    | S fuel' =>
        if cond (rcc m) then while_poll cond fuel' (tick m)
        else Some (Normal tt, m)
    end.

End Hardware.

(** ** Constants of RCC_private.h *)

(** Modelled from the spec: RCC_private.h is not among the sources.  A clock
    source of [CLK_t] is the position of its enable bit in the control
    register: bit 0 for the internal oscillator, bit 16 for the external
    one, bit 24 for the PLL. *)
Definition HSI : Z := 0.
Definition HSE : Z := 16.
Definition PLL : Z := 24.

(** Modelled from the spec: RCC_private.h is not among the sources.
    [SYSPLLP] is the last system-clock option, the four options being the
    values 0 to 3 of the two-bit selector. *)
Definition SYSPLLP : Z := 3.

(** Modelled from the spec: RCC_private.h is not among the sources.
    [STATUS_t] is the desired status, ON or OFF; the driver tests for ON
    and treats the other as OFF. *)
Inductive STATUS_t : Type := ON | OFF.

(** ** The driver (Src/RCC_prog.c) *)

Section Driver.

Variable hw : RCC_RegDef_t -> RCC_RegDef_t.

Definition RCC_SetClkStatus (fuel : nat) (Clk_Type : Z) (Status : STATUS_t)
  : machine -> option (Z * machine) :=
  call (
    match Status with
    | ON => or_assign RCC_CR (Z.shiftl 1 Clk_Type)
    | OFF => and_assign RCC_CR (Z.lnot (Z.shiftl 1 Clk_Type))
    end ;;
    while_poll hw
      (fun RCC => Z.land (Z.shiftr (CR RCC) (Clk_Type + 1)) 1 =? 0) fuel ;;
    Return 0).

Definition RCC_SetSysClk (fuel : nat) (SYSClkType : Z)
  : machine -> option (Z * machine) :=
  call (
    (if SYSPLLP <? SYSClkType then Return 1 else skip) ;;
    and_assign RCC_CFGR (Z.lnot (Z.shiftl 3 0)) ;;
    or_assign RCC_CFGR (Z.shiftl SYSClkType 0) ;;
    while_poll hw
      (fun RCC => negb (Z.land (Z.shiftr (CFGR RCC) 2) 3 =? SYSClkType))
      fuel ;;
    Return 0).

Definition RCC_PLL_Config (fuel : nat)
    (PLL_Multiplexer : Z) (PLL_Division : Z) (Src : Z)
  : machine -> option (Z * machine) :=
  call (
    and_assign RCC_CR (Z.lnot (Z.shiftl 1 24)) ;;
    while_poll hw
      (fun RCC => negb (Z.land (Z.shiftr (CR RCC) 25) 1 =? 0)) fuel ;;
    (if Src =? HSI then and_assign RCC_PLLCFGR (Z.lnot (Z.shiftl 1 22))
     else if Src =? HSE then or_assign RCC_PLLCFGR (Z.shiftl 1 22)
     else Return 1) ;;
    (if (PLL_Multiplexer <? 50) || (432 <? PLL_Multiplexer)
     then Return 1 else skip) ;;
    (if (PLL_Division <? 2) || (63 <? PLL_Division)
     then Return 1 else skip) ;;
    and_assign RCC_PLLCFGR (Z.lnot (Z.shiftl 0x3F 0)) ;;
    and_assign RCC_PLLCFGR (Z.lnot (Z.shiftl 0x1FF 6)) ;;
    or_assign RCC_PLLCFGR (Z.shiftl PLL_Division 0) ;;
    or_assign RCC_PLLCFGR (uint32_t (Z.shiftl PLL_Multiplexer 6)) ;;
    (if PLL_Division =? 2 then
       and_assign RCC_PLLCFGR (Z.lnot (Z.shiftl 0x3 16))
     else if PLL_Division =? 4 then
       v <- read RCC_PLLCFGR ;;
       write RCC_PLLCFGR
         (Z.lor (Z.land v (Z.lnot (Z.shiftl 0x3 16))) (Z.shiftl 1 16))
     else if PLL_Division =? 6 then
       v <- read RCC_PLLCFGR ;;
       write RCC_PLLCFGR
         (Z.lor (Z.land v (Z.lnot (Z.shiftl 0x3 16))) (Z.shiftl 2 16))
     else if PLL_Division =? 8 then
       v <- read RCC_PLLCFGR ;;
       write RCC_PLLCFGR
         (Z.lor (Z.land v (Z.lnot (Z.shiftl 0x3 16))) (Z.shiftl 3 16))
     else Return 1) ;;
    or_assign RCC_CR (Z.shiftl 1 24) ;;
    while_poll hw
      (fun RCC => Z.land (Z.shiftr (CR RCC) 25) 1 =? 0) fuel ;;
    Return 0).

End Driver.

Section HSE_Mode.

(** The two enumerators of [HSE_t] (RCC_private.h, not among the sources):
    their values are left open. *)
Variables BYPASSED NOT_BYPASSED : Z.

Definition RCC_HSE_Mode (HSE_MODE : Z) : machine -> option (Z * machine) :=
  call (
    if HSE_MODE =? BYPASSED then
      or_assign RCC_CR (Z.shiftl 1 18) ;; Return 0
    else if HSE_MODE =? NOT_BYPASSED then
      and_assign RCC_CR (Z.lnot (Z.shiftl 1 18)) ;; Return 0
    else Return 1).

End HSE_Mode.

Definition RCC_AHB1_EnableClk (PeripheralName : Z) : machine -> option (Z * machine) :=
  call (
    (if 31 <? PeripheralName then Return 1 else skip) ;;
    or_assign RCC_AHB1ENR (Z.shiftl 1 PeripheralName) ;;
    Return 0).

Definition RCC_AHB1_DisableClk (PeripheralName : Z) : machine -> option (Z * machine) :=
  call (
    (if 31 <? PeripheralName then Return 1 else skip) ;;
    and_assign RCC_AHB1ENR (Z.lnot (Z.shiftl 1 PeripheralName)) ;;
    Return 0).

Definition RCC_AHB2_EnableClk (PeripheralName : Z) : machine -> option (Z * machine) :=
  call (
    (if 31 <? PeripheralName then Return 1 else skip) ;;
    or_assign RCC_AHB2ENR (Z.shiftl 1 PeripheralName) ;;
    Return 0).

Definition RCC_AHB2_DisableClk (PeripheralName : Z) : machine -> option (Z * machine) :=
  call (
    (if 31 <? PeripheralName then Return 1 else skip) ;;
    and_assign RCC_AHB2ENR (Z.lnot (Z.shiftl 1 PeripheralName)) ;;
    Return 0).

Definition RCC_AHB3_EnableClk (PeripheralName : Z) : machine -> option (Z * machine) :=
  call (
    (if 31 <? PeripheralName then Return 1 else skip) ;;
    or_assign RCC_AHB3ENR (Z.shiftl 1 PeripheralName) ;;
    Return 0).

Definition RCC_AHB3_DisableClk (PeripheralName : Z) : machine -> option (Z * machine) :=
  call (
    (if 31 <? PeripheralName then Return 1 else skip) ;;
    and_assign RCC_AHB3ENR (Z.lnot (Z.shiftl 1 PeripheralName)) ;;
    Return 0).

Definition RCC_APB1_EnableClk (PeripheralName : Z) : machine -> option (Z * machine) :=
  call (
    (if 31 <? PeripheralName then Return 1 else skip) ;;
    or_assign RCC_APB1ENR (Z.shiftl 1 PeripheralName) ;;
    Return 0).

Definition RCC_APB1_DisableClk (PeripheralName : Z) : machine -> option (Z * machine) :=
  call (
    (if 31 <? PeripheralName then Return 1 else skip) ;;
    and_assign RCC_APB1ENR (Z.lnot (Z.shiftl 1 PeripheralName)) ;;
    Return 0).

Definition RCC_APB2_EnableClk (PeripheralName : Z) : machine -> option (Z * machine) :=
  call (
    (if 31 <? PeripheralName then Return 1 else skip) ;;
    or_assign RCC_APB2ENR (Z.shiftl 1 PeripheralName) ;;
    Return 0).

Definition RCC_APB2_DisableClk (PeripheralName : Z) : machine -> option (Z * machine) :=
  call (
    (if 31 <? PeripheralName then Return 1 else skip) ;;
    and_assign RCC_APB2ENR (Z.lnot (Z.shiftl 1 PeripheralName)) ;;
    Return 0).


(** ** The five bus domains *)

Inductive bus : Type := AHB1 | AHB2 | AHB3 | APB1 | APB2.

(** The enable register of a bus domain. *)
Definition ENR (b : bus) : reg :=
  match b with
  | AHB1 => RCC_AHB1ENR | AHB2 => RCC_AHB2ENR | AHB3 => RCC_AHB3ENR
  | APB1 => RCC_APB1ENR | APB2 => RCC_APB2ENR
  end.

Definition RCC_EnableClk (b : bus) : Z -> machine -> option (Z * machine) :=
  match b with
  | AHB1 => RCC_AHB1_EnableClk | AHB2 => RCC_AHB2_EnableClk
  | AHB3 => RCC_AHB3_EnableClk
  | APB1 => RCC_APB1_EnableClk | APB2 => RCC_APB2_EnableClk
  end.

Definition RCC_DisableClk (b : bus) : Z -> machine -> option (Z * machine) :=
  match b with
  | AHB1 => RCC_AHB1_DisableClk | AHB2 => RCC_AHB2_DisableClk
  | AHB3 => RCC_AHB3_DisableClk
  | APB1 => RCC_APB1_DisableClk | APB2 => RCC_APB2_DisableClk
  end.

(** ** Vocabulary of the theorems *)

(** The [width]-bit field of [v] that starts at bit [lo]. *)
Definition field (v lo width : Z) : Z := Z.land (Z.shiftr v lo) (Z.ones width).

(** The store [w] went to register [r] and left every bit outside [mask]
    as it found it. *)
Definition touches_only (r : reg) (mask : Z -> bool) (w : write_t) : Prop :=
  w_reg w = r /\
  forall i, 0 <= i < 32 -> mask i = false ->
            Z.testbit (w_new w) i = Z.testbit (w_old w) i.

(** The stores made between machine [m] and machine [m'], newest first. *)
Definition stores_since (m m' : machine) (ws : list write_t) : Prop :=
  wlog m' = ws ++ wlog m.

(** The hardware never alters bit [i] of register [r]. *)
Definition keeps (hw : RCC_RegDef_t -> RCC_RegDef_t) (r : reg) (i : Z) : Prop :=
  forall x, Z.testbit (get r (hw x)) i = Z.testbit (get r x) i.

(** The hardware never leaves the set of register contents [P]: a status
    bit that [P] pins to a value never gets to another one. *)
Definition invariant (hw : RCC_RegDef_t -> RCC_RegDef_t)
    (P : RCC_RegDef_t -> Prop) : Prop :=
  forall x, P x -> P (hw x).

(** The hardware answers: whatever the bit [en] of the control register
    holds, bit [rdy] comes to hold the same after some number of ticks. *)
Definition responds (hw : RCC_RegDef_t -> RCC_RegDef_t) (en rdy : Z) : Prop :=
  forall x, exists n,
    Z.testbit (CR (Nat.iter n hw x)) rdy = Z.testbit (CR x) en.

(** The hardware switches the system clock: the confirmation field (bits
    3:2 of the configuration register) comes to hold the selector (bits
    1:0) after some number of ticks. *)
Definition switches (hw : RCC_RegDef_t -> RCC_RegDef_t) : Prop :=
  forall x, exists n,
    field (CFGR (Nat.iter n hw x)) 2 2 = field (CFGR x) 0 2.

(** The table from the division factor to the two-bit output-divider code
    (component design, step 6). *)
Definition PLLP_table : list (Z * Z) := [(2, 0); (4, 1); (6, 2); (8, 3)].

(** Bit [i] lies in the [w]-bit field that starts at bit [lo]. *)
Definition in_field (lo w i : Z) : bool := (lo <=? i) && (i <? lo + w).

(** The bits [RCC_PLL_Config] is entitled to change: in the control
    register the PLL enable bit 24; in the PLL configuration register the
    fields M (5:0), N (14:6), P (17:16) and the source bit 22. *)
Definition PLL_footprint (r : reg) (i : Z) : bool :=
  match r with
  | RCC_CR => i =? 24
  | RCC_PLLCFGR =>
      in_field 0 6 i || in_field 6 9 i || in_field 16 2 i || (i =? 22)
  | _ => false
  end.

(** Between [m] and [m'] the driver made one store, to register [r]; bit
    [p] of [r] now holds [b], the other bits of [r] and all other registers
    hold what they held. *)
Definition bit_written (r : reg) (p : Z) (b : bool) (m m' : machine) : Prop :=
  Z.testbit (get r (rcc m')) p = b /\
  (forall i, 0 <= i < 32 -> i <> p ->
             Z.testbit (get r (rcc m')) i = Z.testbit (get r (rcc m)) i) /\
  (forall r', r' <> r -> get r' (rcc m') = get r' (rcc m)) /\
  exists w, stores_since m m' [w] /\ touches_only r (fun i => i =? p) w.

(** Between [m] and [m'] the driver stored to register [r] only, and only
    within the bits of [mask]: the other bits of [r] and all other
    registers hold what they held. *)
Definition modifies (r : reg) (mask : Z -> bool) (m m' : machine) : Prop :=
  (forall i, 0 <= i < 32 -> mask i = false ->
             Z.testbit (get r (rcc m')) i = Z.testbit (get r (rcc m)) i) /\
  (forall r', r' <> r -> get r' (rcc m') = get r' (rcc m)) /\
  exists ws, stores_since m m' ws /\ Forall (touches_only r mask) ws.

(** As [modifies], for the [w]-bit field at [lo], which now holds [x]. *)
Definition field_written (r : reg) (lo w x : Z) (m m' : machine) : Prop :=
  field (get r (rcc m')) lo w = x /\ modifies r (in_field lo w) m m'.

(** The store [w] left every bit outside the footprint [fp] as it found
    it, and went to one of the two registers [RCC_PLL_Config] works on. *)
Definition within (fp : reg -> Z -> bool) (w : write_t) : Prop :=
  (w_reg w = RCC_CR \/ w_reg w = RCC_PLLCFGR) /\
  forall i, 0 <= i < 32 -> fp (w_reg w) i = false ->
            Z.testbit (w_new w) i = Z.testbit (w_old w) i.

(** What a request makes of the enable bit. *)
Definition enable_value (Status : STATUS_t) : bool :=
  match Status with ON => true | OFF => false end.

(** ** Hardware models and states used as concrete inputs *)

(** Bit [rdy] of [v] made equal to bit [en] of [v]. *)
Definition follow (en rdy : Z) (v : Z) : Z :=
  if Z.testbit v en then Z.lor v (Z.shiftl 1 rdy)
  else Z.land v (Z.lnot (Z.shiftl 1 rdy)).

(** A hardware that answers within one tick: each ready bit of the control
    register takes the value of its enable bit, and the confirmation field
    of the configuration register takes the value of the selector. *)
Definition hw_prompt (s : RCC_RegDef_t) : RCC_RegDef_t :=
  set RCC_CFGR
      (Z.lor (Z.land (CFGR s) (Z.lnot (Z.shiftl 3 2)))
             (Z.shiftl (Z.land (CFGR s) 3) 2))
      (set RCC_CR (follow 24 25 (follow 16 17 (follow 0 1 (CR s)))) s).

(** A hardware that never answers: no oscillator starts, no status bit
    moves. *)
Definition hw_dead (s : RCC_RegDef_t) : RCC_RegDef_t := s.

(** All registers zero except the control register and the PLL
    configuration register. *)
Definition regs_with (cr pllcfgr : Z) : RCC_RegDef_t :=
  tabulate (fun r => match r with
                     | RCC_CR => cr
                     | RCC_PLLCFGR => pllcfgr
                     | _ => 0
                     end).

(** The internal oscillator on and ready, the PLL off, the PLL
    configuration register at 0x24003010. *)
Definition boot_regs : RCC_RegDef_t := regs_with 0x83 0x24003010.

Definition boot : machine := mkMachine boot_regs [].

(** As [boot], with the PLL enabled and locked. *)
Definition pll_locked : machine :=
  mkMachine (regs_with 0x3000083 0x24003010) [].

(** Everything off. *)
Definition all_off : machine := mkMachine (regs_with 0 0) [].

(** ** Vocabulary of the further properties *)

(** Gating by a flag: the enable function of the bus domain for [true],
    its disable function for [false]. *)
Definition RCC_GateClk (on : bool)
  : bus -> Z -> machine -> option (Z * machine) :=
  if on then RCC_EnableClk else RCC_DisableClk.

(** The ready bit of the clock source at bit [k] tracks its enable bit:
    after each tick it shows what the enable bit held before the tick. *)
Definition tracks (hw : RCC_RegDef_t -> RCC_RegDef_t) (k : Z) : Prop :=
  forall x, Z.testbit (CR (hw x)) (k + 1) = Z.testbit (CR x) k.

(** * Properties *)

(** ** The register block *)

Lemma reg_eqb_eq (a b : reg) : reg_eqb a b = true <-> a = b.
Proof.
  split.
  - destruct a, b; simpl; intro H; try reflexivity; discriminate H.
  - intros ->. destruct b; reflexivity.
Qed.

Lemma reg_eqb_refl (a : reg) : reg_eqb a a = true.
Proof. apply reg_eqb_eq. reflexivity. Qed.

Lemma reg_eqb_neq (a b : reg) : a <> b -> reg_eqb a b = false.
Proof.
  intro H. destruct (reg_eqb a b) eqn:E; [|reflexivity].
  apply reg_eqb_eq in E. contradiction.
Qed.

Lemma get_tabulate (f : reg -> Z) (r : reg) : get r (tabulate f) = f r.
Proof. destruct r; reflexivity. Qed.

Lemma get_set (r r' : reg) (v : Z) (s : RCC_RegDef_t) :
  get r' (set r v s) = if reg_eqb r' r then v else get r' s.
Proof. unfold set. apply get_tabulate. Qed.

Lemma get_set_same (r : reg) (v : Z) (s : RCC_RegDef_t) :
  get r (set r v s) = v.
Proof. rewrite get_set, reg_eqb_refl. reflexivity. Qed.

Lemma get_set_other (r r' : reg) (v : Z) (s : RCC_RegDef_t) :
  r' <> r -> get r' (set r v s) = get r' s.
Proof. intro H. rewrite get_set, reg_eqb_neq by assumption. reflexivity. Qed.

Lemma tabulate_get (s : RCC_RegDef_t) : tabulate (fun r => get r s) = s.
Proof. destruct s; reflexivity. Qed.

(** Two blocks with the same members are the same block. *)
Lemma regs_ext (a b : RCC_RegDef_t) :
  (forall r, get r a = get r b) -> a = b.
Proof.
  intro H. rewrite <- (tabulate_get a), <- (tabulate_get b).
  unfold tabulate. rewrite !H. reflexivity.
Qed.

(** Storing what a register already holds changes nothing. *)
Lemma set_same_value (r : reg) (s : RCC_RegDef_t) : set r (get r s) s = s.
Proof.
  apply regs_ext. intro r'. rewrite get_set.
  destruct (reg_eqb r' r) eqn:E; [|reflexivity].
  apply reg_eqb_eq in E. subst. reflexivity.
Qed.

Lemma CR_get (s : RCC_RegDef_t) : CR s = get RCC_CR s.
Proof. reflexivity. Qed.

Lemma PLLCFGR_get (s : RCC_RegDef_t) : PLLCFGR s = get RCC_PLLCFGR s.
Proof. reflexivity. Qed.

Lemma CFGR_get (s : RCC_RegDef_t) : CFGR s = get RCC_CFGR s.
Proof. reflexivity. Qed.

(** Writes the record projections of the three registers the driver polls
    or configures as [get], the form the frame lemmas speak. *)
Ltac to_get :=
  repeat match goal with
         | |- context [CR ?s] => change (CR s) with (get RCC_CR s)
         | |- context [PLLCFGR ?s] =>
             change (PLLCFGR s) with (get RCC_PLLCFGR s)
         | |- context [CFGR ?s] => change (CFGR s) with (get RCC_CFGR s)
         end.

(** ** Bits of 32-bit words *)

Lemma uint32_range (z : Z) : 0 <= uint32_t z < 2 ^ 32.
Proof. unfold uint32_t. apply Z.mod_pos_bound. lia. Qed.

Lemma uint32_small (z : Z) : 0 <= z < 2 ^ 32 -> uint32_t z = z.
Proof. intro H. unfold uint32_t. apply Z.mod_small. exact H. Qed.

Lemma testbit_uint32 (z i : Z) :
  0 <= i < 32 -> Z.testbit (uint32_t z) i = Z.testbit z i.
Proof. intro H. unfold uint32_t. apply Z.mod_pow2_bits_low. lia. Qed.

Lemma testbit_bit (k i : Z) :
  0 <= k -> Z.testbit (Z.shiftl 1 k) i = (i =? k).
Proof.
  intro Hk. rewrite Z.shiftl_1_l, Z.pow2_bits_eqb by assumption.
  apply Z.eqb_sym.
Qed.

(** A value below [2 ^ w] has no bit at or above [w]. *)
Lemma testbit_bounded (x w i : Z) :
  0 <= w -> 0 <= x < 2 ^ w -> w <= i -> Z.testbit x i = false.
Proof.
  intros Hw Hx Hi. rewrite <- (Z.mod_small x (2 ^ w)) by assumption.
  apply Z.mod_pow2_bits_high. lia.
Qed.

(** A non-negative word whose 32 low bits are those of [b] and which fits
    32 bits is determined by them. *)
Lemma bits32_inj (a b : Z) :
  0 <= a < 2 ^ 32 -> 0 <= b < 2 ^ 32 ->
  (forall i, 0 <= i < 32 -> Z.testbit a i = Z.testbit b i) -> a = b.
Proof.
  intros Ha Hb H. apply Z.bits_inj'. intros i Hi.
  destruct (Z.lt_ge_cases i 32) as [Hlt|Hge].
  - apply H. lia.
  - rewrite (testbit_bounded a 32 i), (testbit_bounded b 32 i) by lia.
    reflexivity.
Qed.

(** [r |= 1 << k] on one bit. *)
Lemma set_bit_spec (v k i : Z) :
  0 <= k -> 0 <= i < 32 ->
  Z.testbit (uint32_t (Z.lor v (Z.shiftl 1 k))) i = (i =? k) || Z.testbit v i.
Proof.
  intros Hk Hi.
  rewrite testbit_uint32, Z.lor_spec, testbit_bit by assumption.
  apply orb_comm.
Qed.

(** [r &= ~(1 << k)] on one bit. *)
Lemma clear_bit_spec (v k i : Z) :
  0 <= k -> 0 <= i < 32 ->
  Z.testbit (uint32_t (Z.land v (Z.lnot (Z.shiftl 1 k)))) i
  = negb (i =? k) && Z.testbit v i.
Proof.
  intros Hk Hi.
  rewrite testbit_uint32, Z.land_spec, Z.lnot_spec, testbit_bit by lia.
  apply andb_comm.
Qed.

(** Setting a bit that is set stores the word that was there. *)
Lemma set_bit_idem (v k : Z) :
  0 <= k <= 31 -> 0 <= v < 2 ^ 32 -> Z.testbit v k = true ->
  uint32_t (Z.lor v (Z.shiftl 1 k)) = v.
Proof.
  intros Hk Hv Hb. apply bits32_inj; [apply uint32_range|exact Hv|].
  intros i Hi. rewrite set_bit_spec by lia.
  destruct (Z.eqb_spec i k) as [->|_]; [rewrite Hb|]; reflexivity.
Qed.

(** The test [(v >> k) & 1 == 0] reads bit [k]. *)
Lemma bit_test (v k : Z) :
  0 <= k -> (Z.land (Z.shiftr v k) 1 =? 0) = negb (Z.testbit v k).
Proof.
  intro Hk.
  change 1 with (Z.ones 1). rewrite Z.land_ones by lia.
  rewrite Z.shiftr_div_pow2 by assumption.
  change (2 ^ 1) with 2.
  rewrite <- Z.testbit_spec' by assumption.
  destruct (Z.testbit v k); reflexivity.
Qed.

(** ** Multi-bit fields *)

(** Bits of a field. *)
Lemma field_spec (v lo w i : Z) :
  0 <= lo -> 0 <= w -> 0 <= i ->
  Z.testbit (field v lo w) i = Z.testbit v (i + lo) && (i <? w).
Proof.
  intros Hlo Hw Hi. unfold field.
  rewrite Z.land_spec, Z.shiftr_spec, Z.testbit_ones_nonneg by assumption.
  reflexivity.
Qed.

(** A field is known once its bits are. *)
Lemma field_eq (v lo w x : Z) :
  0 <= lo -> 0 <= w -> 0 <= x < 2 ^ w ->
  (forall i, 0 <= i < w -> Z.testbit v (i + lo) = Z.testbit x i) ->
  field v lo w = x.
Proof.
  intros Hlo Hw Hx H. apply Z.bits_inj'. intros i Hi.
  rewrite field_spec by assumption.
  destruct (Z.ltb_spec i w) as [Hlt|Hge].
  - rewrite andb_true_r. apply H. lia.
  - rewrite andb_false_r. symmetry. apply (testbit_bounded x w); lia.
Qed.

(** A field depends on its own bits only. *)
Lemma field_ext (a b lo w : Z) :
  0 <= lo -> 0 <= w ->
  (forall i, lo <= i < lo + w -> Z.testbit a i = Z.testbit b i) ->
  field a lo w = field b lo w.
Proof.
  intros Hlo Hw H. apply Z.bits_inj'. intros i Hi.
  rewrite !field_spec by assumption.
  destruct (Z.ltb_spec i w); [|rewrite !andb_false_r; reflexivity].
  rewrite H by lia. reflexivity.
Qed.

Lemma in_field_true (lo w i : Z) :
  in_field lo w i = true <-> lo <= i < lo + w.
Proof.
  unfold in_field.
  destruct (Z.leb_spec lo i), (Z.ltb_spec i (lo + w)); cbn [andb];
    split; intro; try discriminate; try reflexivity; lia.
Qed.

Lemma in_field_false (lo w i : Z) :
  in_field lo w i = false <-> i < lo \/ lo + w <= i.
Proof.
  unfold in_field.
  destruct (Z.leb_spec lo i), (Z.ltb_spec i (lo + w)); cbn [andb];
    split; intro; try discriminate; try reflexivity; lia.
Qed.

(** Decides on which side of each field a bit lies, from the arithmetic
    facts at hand. *)
Ltac fields :=
  repeat match goal with
         | |- context [in_field ?lo ?w ?i] =>
             let H := fresh "F" in
             destruct (in_field lo w i) eqn:H;
             [apply in_field_true in H | apply in_field_false in H];
             try lia
         end;
  cbn [andb orb negb].

Lemma testbit_ones_shifted (lo w i : Z) :
  0 <= lo -> 0 <= w -> 0 <= i ->
  Z.testbit (Z.shiftl (Z.ones w) lo) i = in_field lo w i.
Proof.
  intros Hlo Hw Hi. unfold in_field. rewrite Z.shiftl_spec by assumption.
  destruct (Z.leb_spec lo i) as [H|H].
  - rewrite Z.testbit_ones_nonneg by lia. cbn [andb].
    destruct (Z.ltb_spec (i - lo) w), (Z.ltb_spec i (lo + w)); lia || reflexivity.
  - rewrite Z.testbit_neg_r by lia. reflexivity.
Qed.

(** [r &= ~(mask << lo)] for a mask of [w] ones. *)
Lemma clear_field_spec (v lo w i : Z) :
  0 <= lo -> 0 <= w -> 0 <= i < 32 ->
  Z.testbit (uint32_t (Z.land v (Z.lnot (Z.shiftl (Z.ones w) lo)))) i
  = negb (in_field lo w i) && Z.testbit v i.
Proof.
  intros Hlo Hw Hi.
  rewrite testbit_uint32, Z.land_spec, Z.lnot_spec, testbit_ones_shifted by lia.
  apply andb_comm.
Qed.

(** [r &= ~(mask << lo)] followed by nothing, for any spelling of the mask. *)
Lemma clear_mask_spec (v mask lo w i : Z) :
  mask = Z.ones w -> 0 <= lo -> 0 <= w -> 0 <= i < 32 ->
  Z.testbit (uint32_t (Z.land v (Z.lnot (Z.shiftl mask lo)))) i
  = negb (in_field lo w i) && Z.testbit v i.
Proof. intros ->. apply clear_field_spec. Qed.

(** [r |= x << lo] for a value [x] of at most [w] bits. *)
Lemma or_field_spec (v x lo w i : Z) :
  0 <= lo -> 0 <= w -> 0 <= x < 2 ^ w -> 0 <= i < 32 ->
  Z.testbit (uint32_t (Z.lor v (Z.shiftl x lo))) i
  = Z.testbit v i || (in_field lo w i && Z.testbit x (i - lo)).
Proof.
  intros Hlo Hw Hx Hi. unfold in_field.
  rewrite testbit_uint32, Z.lor_spec, Z.shiftl_spec by lia. f_equal.
  destruct (Z.leb_spec lo i) as [H|H]; cbn [andb].
  - destruct (Z.ltb_spec i (lo + w)) as [H'|H']; cbn [andb]; [reflexivity|].
    apply (testbit_bounded x w); lia.
  - apply Z.testbit_neg_r. lia.
Qed.

(** Clearing a field and or-ing a value into it leaves the value there and
    the rest as it was. *)
Lemma rewrite_field_spec (v x lo w i : Z) :
  0 <= lo -> 0 <= w -> 0 <= x < 2 ^ w -> 0 <= i < 32 ->
  Z.testbit
    (uint32_t (Z.lor (uint32_t (Z.land v (Z.lnot (Z.shiftl (Z.ones w) lo))))
                     (Z.shiftl x lo))) i
  = if in_field lo w i then Z.testbit x (i - lo) else Z.testbit v i.
Proof.
  intros Hlo Hw Hx Hi.
  rewrite (or_field_spec _ x lo w), clear_field_spec by assumption.
  destruct (in_field lo w i); cbn [negb andb orb].
  - reflexivity.
  - apply orb_false_r.
Qed.

(** [r = (r & ~(mask << lo)) | (x << lo)]. *)
Lemma set_field_spec (v x mask lo w i : Z) :
  mask = Z.ones w -> 0 <= lo -> 0 <= w -> 0 <= x < 2 ^ w -> 0 <= i < 32 ->
  Z.testbit
    (uint32_t (Z.lor (Z.land v (Z.lnot (Z.shiftl mask lo))) (Z.shiftl x lo))) i
  = if in_field lo w i then Z.testbit x (i - lo) else Z.testbit v i.
Proof.
  intros -> Hlo Hw Hx Hi.
  rewrite (or_field_spec _ x lo w) by assumption.
  rewrite Z.land_spec, Z.lnot_spec, testbit_ones_shifted by lia.
  destruct (in_field lo w i); cbn [negb andb orb].
  - rewrite andb_false_r. reflexivity.
  - rewrite andb_true_r. apply orb_false_r.
Qed.

Lemma range_test (x lo hi : Z) :
  ((x <? lo) || (hi <? x) = true <-> x < lo \/ hi < x) /\
  ((x <? lo) || (hi <? x) = false <-> lo <= x <= hi).
Proof.
  destruct (Z.ltb_spec x lo), (Z.ltb_spec hi x); cbn [orb];
    repeat split; intro; try congruence; try reflexivity; lia.
Qed.

(** ** Statements *)

Lemma bind_normal {A B : Type} (c : stmt A) (k : A -> stmt B)
    (m : machine) (a : A) (m1 : machine) :
  c m = Some (Normal a, m1) -> bind c k m = k a m1.
Proof. intro E. unfold bind. rewrite E. reflexivity. Qed.

(** [return v] ends the function; [skip] goes on. *)
Lemma Return_then (v : Z) (B : Type) (k : stmt B) (m : machine) :
  (@Return unit v ;; k) m = Some (Returned v, m).
Proof. reflexivity. Qed.

Lemma skip_then (B : Type) (k : stmt B) (m : machine) :
  (skip ;; k) m = k m.
Proof. reflexivity. Qed.

(** A range test that fails returns 1; one that passes falls through. *)
Lemma check_reject (b : bool) (B : Type) (k : stmt B) (m : machine) :
  b = true ->
  ((if b then Return 1 else skip) ;; k) m = Some (Returned 1, m).
Proof. intros ->. reflexivity. Qed.

Lemma check_pass (b : bool) (B : Type) (k : stmt B) (m : machine) :
  b = false -> ((if b then Return 1 else skip) ;; k) m = k m.
Proof. intros ->. reflexivity. Qed.

(** ** Busy-wait loops *)

Section Polling.

Variable hw : RCC_RegDef_t -> RCC_RegDef_t.
Variable cond : RCC_RegDef_t -> bool.

(** A loop that is left was left by its test: the condition is false in
    the state it leaves, which is the state it found after some ticks of
    the hardware, and the loop stores nothing. *)
Lemma while_poll_inv (fuel : nat) (m : machine) (o : outcome unit) (m' : machine) :
  while_poll hw cond fuel m = Some (o, m') ->
  o = Normal tt /\ wlog m' = wlog m /\ cond (rcc m') = false /\
  exists n, (n < fuel)%nat /\ rcc m' = Nat.iter n hw (rcc m).
Proof.
  revert m. induction fuel as [|fuel IH]; intros m H; simpl in H.
  - discriminate H.
  - destruct (cond (rcc m)) eqn:E.
    + apply IH in H. destruct H as (Ho & Hl & Hc & n & Hn & Hr).
      repeat split; try assumption.
      exists (S n). split; [lia|].
      rewrite Hr. unfold tick. cbn [rcc]. rewrite Nat.iter_succ_r.
      reflexivity.
    + inversion H; subst. repeat split; try assumption.
      exists 0%nat. split; [lia|reflexivity].
Qed.

(** A condition that the hardware never falsifies keeps the loop spinning
    whatever the fuel. *)
Lemma while_poll_stuck (m : machine) :
  (forall n, cond (Nat.iter n hw (rcc m)) = true) ->
  forall fuel, while_poll hw cond fuel m = None.
Proof.
  intros H fuel. revert m H.
  induction fuel as [|fuel IH]; intros m H; simpl.
  - reflexivity.
  - pose proof (H 0%nat) as H0. simpl in H0. rewrite H0.
    apply IH. intro n.
    unfold tick. cbn [rcc]. rewrite <- Nat.iter_succ_r. apply H.
Qed.

(** A condition that is false after [n] ticks lets the loop end, after at
    most [n] ticks, for every fuel above [n]. *)
Lemma while_poll_done (n : nat) (m : machine) :
  cond (Nat.iter n hw (rcc m)) = false ->
  exists k, (k <= n)%nat /\
    cond (Nat.iter k hw (rcc m)) = false /\
    forall fuel, (n < fuel)%nat ->
      while_poll hw cond fuel m
      = Some (Normal tt, mkMachine (Nat.iter k hw (rcc m)) (wlog m)).
Proof.
  revert m. induction n as [|n IH]; intros m H.
  - exists 0%nat. split; [lia|]. split; [exact H|].
    intros fuel Hf. destruct fuel as [|fuel]; [lia|].
    simpl in *. rewrite H. destruct m; reflexivity.
  - destruct (cond (rcc m)) eqn:E.
    + rewrite Nat.iter_succ_r in H.
      destruct (IH (tick hw m) H) as (k & Hk & Hc & Hrun).
      exists (S k). split; [lia|]. split.
      * rewrite Nat.iter_succ_r. exact Hc.
      * intros fuel Hf. destruct fuel as [|fuel]; [lia|].
        simpl. rewrite E. rewrite Hrun by lia.
        change (hw (Nat.iter k hw (rcc m))) with (Nat.iter (S k) hw (rcc m)).
        rewrite Nat.iter_succ_r. reflexivity.
    + exists 0%nat. split; [lia|]. split; [exact E|].
      intros fuel Hf. destruct fuel as [|fuel]; [lia|].
      simpl. rewrite E. destruct m; reflexivity.
Qed.

(** A bit that the hardware keeps is kept through any number of ticks. *)
Lemma iter_keeps (r : reg) (i : Z) (n : nat) (x : RCC_RegDef_t) :
  keeps hw r i ->
  Z.testbit (get r (Nat.iter n hw x)) i = Z.testbit (get r x) i.
Proof.
  intro K. induction n as [|n IH]; simpl.
  - reflexivity.
  - rewrite K. exact IH.
Qed.

(** What the hardware never leaves, it has not left after any number of
    ticks. *)
Lemma iter_invariant (P : RCC_RegDef_t -> Prop) (n : nat) (x : RCC_RegDef_t) :
  invariant hw P -> P x -> P (Nat.iter n hw x).
Proof.
  intros K H. induction n as [|n IH]; simpl.
  - exact H.
  - apply K. exact IH.
Qed.

(** A state that the hardware leaves alone is left alone for ever. *)
Lemma iter_fixed (n : nat) (x : RCC_RegDef_t) :
  hw x = x -> Nat.iter n hw x = x.
Proof.
  intro H. induction n as [|n IH]; simpl.
  - reflexivity.
  - rewrite IH. exact H.
Qed.

End Polling.

(** ** Frames *)

(** A store of one bit, seen as a store within a mask. *)
Lemma bit_written_modifies (r : reg) (p : Z) (b : bool) (m m' : machine) :
  bit_written r p b m m' -> modifies r (fun i => i =? p) m m'.
Proof.
  intros (_ & Hbits & Hregs & w & Hs & Hw). repeat split.
  - intros i Hi Hne. apply Hbits; [exact Hi|]. apply Z.eqb_neq. exact Hne.
  - exact Hregs.
  - exists [w]. split; [exact Hs|]. constructor; [exact Hw|constructor].
Qed.

(** Stores within a mask leave alone every bit of another register, and
    every bit of the same register outside the mask. *)
Lemma modifies_frame (r0 : reg) (mask : Z -> bool) (m m' : machine)
    (r : reg) (i : Z) :
  modifies r0 mask m m' -> 0 <= i < 32 ->
  (r = r0 -> mask i = false) ->
  Z.testbit (get r (rcc m')) i = Z.testbit (get r (rcc m)) i.
Proof.
  intros (Hbits & Hregs & _) Hi Hout.
  destruct (reg_eqb r r0) eqn:E.
  - apply reg_eqb_eq in E. subst r0. apply Hbits; auto.
  - rewrite Hregs; [reflexivity|]. intro Heq. subst r0.
    rewrite reg_eqb_refl in E. discriminate E.
Qed.

(** The same, through ticks of a hardware that keeps the bit. *)
Lemma ticks_frame (hw : RCC_RegDef_t -> RCC_RegDef_t) (m m' : machine)
    (n : nat) (r : reg) (i : Z) :
  rcc m' = Nat.iter n hw (rcc m) -> keeps hw r i ->
  Z.testbit (get r (rcc m')) i = Z.testbit (get r (rcc m)) i.
Proof. intros -> K. apply iter_keeps. exact K. Qed.

(** Stores within a mask that lies in the footprint are within the
    footprint. *)
Lemma touches_within (fp : reg -> Z -> bool) (r : reg) (mask : Z -> bool)
    (ws : list write_t) :
  r = RCC_CR \/ r = RCC_PLLCFGR ->
  (forall i, 0 <= i < 32 -> fp r i = false -> mask i = false) ->
  Forall (touches_only r mask) ws -> Forall (within fp) ws.
Proof.
  intros Hr Hsub H. induction H as [|w ws (Hw & Hb) _ IH]; constructor.
  - split; [rewrite Hw; exact Hr|]. rewrite Hw. intros i Hi Hfp.
    apply Hb; auto.
  - exact IH.
Qed.

(** ** Single-bit stores *)

(** [RCC->r |= 1 << p] writes bit [p] and nothing else. *)
Lemma or_assign_bit (r : reg) (p : Z) (m : machine) :
  0 <= p <= 31 ->
  exists m', or_assign r (Z.shiftl 1 p) m = Some (Normal tt, m') /\
             bit_written r p true m m'.
Proof.
  intro Hp. eexists. split; [reflexivity|].
  unfold bit_written, stores_since, touches_only. cbn [rcc wlog w_reg w_new w_old].
  rewrite get_set_same. repeat split.
  - rewrite set_bit_spec, Z.eqb_refl by lia. reflexivity.
  - intros i Hi Hne. rewrite set_bit_spec by lia.
    destruct (Z.eqb_spec i p); [contradiction|reflexivity].
  - intros r' Hr. apply get_set_other. exact Hr.
  - eexists. split; [reflexivity|]. cbn [w_reg w_new w_old]. split; [reflexivity|].
    intros i Hi Hne. rewrite set_bit_spec, Hne by lia. reflexivity.
Qed.

(** [RCC->r &= ~(1 << p)] clears bit [p] and nothing else. *)
Lemma and_assign_bit (r : reg) (p : Z) (m : machine) :
  0 <= p <= 31 ->
  exists m', and_assign r (Z.lnot (Z.shiftl 1 p)) m = Some (Normal tt, m') /\
             bit_written r p false m m'.
Proof.
  intro Hp. eexists. split; [reflexivity|].
  unfold bit_written, stores_since, touches_only. cbn [rcc wlog w_reg w_new w_old].
  rewrite get_set_same. repeat split.
  - rewrite clear_bit_spec, Z.eqb_refl by lia. reflexivity.
  - intros i Hi Hne. rewrite clear_bit_spec by lia.
    destruct (Z.eqb_spec i p); [contradiction|reflexivity].
  - intros r' Hr. apply get_set_other. exact Hr.
  - eexists. split; [reflexivity|]. cbn [w_reg w_new w_old]. split; [reflexivity|].
    intros i Hi Hne. rewrite clear_bit_spec, Hne by lia. reflexivity.
Qed.

(** [RCC->r |= 1 << p ; k] and [RCC->r &= ~(1 << p) ; k]. *)
Lemma or_assign_bit_then (r : reg) (p : Z) (m : machine) :
  0 <= p <= 31 ->
  exists m', bit_written r p true m m' /\
    forall (B : Type) (k : stmt B), (or_assign r (Z.shiftl 1 p) ;; k) m = k m'.
Proof.
  intro Hp. destruct (or_assign_bit r p m Hp) as (m' & E & W).
  exists m'. split; [exact W|]. intros B k.
  apply (bind_normal _ (fun _ => k) _ _ _ E).
Qed.

Lemma and_assign_bit_then (r : reg) (p : Z) (m : machine) :
  0 <= p <= 31 ->
  exists m', bit_written r p false m m' /\
    forall (B : Type) (k : stmt B),
      (and_assign r (Z.lnot (Z.shiftl 1 p)) ;; k) m = k m'.
Proof.
  intro Hp. destruct (and_assign_bit r p m Hp) as (m' & E & W).
  exists m'. split; [exact W|]. intros B k.
  apply (bind_normal _ (fun _ => k) _ _ _ E).
Qed.

(** [RCC->r |= 1 << k] on a register whose bit [k] is set: the store is
    logged, the register block is not changed. *)
Lemma or_assign_set_bit (r : reg) (k : Z) (m : machine) :
  0 <= k <= 31 -> 0 <= get r (rcc m) < 2 ^ 32 ->
  Z.testbit (get r (rcc m)) k = true ->
  or_assign r (Z.shiftl 1 k) m
  = Some (Normal tt,
          mkMachine (rcc m)
                    (mkWrite r (get r (rcc m)) (get r (rcc m)) :: wlog m)).
Proof.
  intros Hk Hv Hb. unfold or_assign, bind, read, write.
  rewrite set_bit_idem, set_same_value by assumption. reflexivity.
Qed.

(** ** Field stores *)

(** [RCC->r &= ~(mask << lo)]: the field is zero, the rest is kept. *)
Lemma clear_field_written (r : reg) (mask lo w : Z) (m : machine) :
  mask = Z.ones w -> 0 <= lo -> 0 <= w ->
  exists m', field_written r lo w 0 m m' /\
    forall (B : Type) (k : stmt B),
      (and_assign r (Z.lnot (Z.shiftl mask lo)) ;; k) m = k m'.
Proof.
  intros Hmask Hlo Hw. eexists. split; cycle 1.
  { intros B k. reflexivity. }
  unfold field_written, modifies, stores_since. cbn [rcc wlog].
  rewrite !get_set_same.
  assert (Hb : forall i, 0 <= i < 32 ->
            Z.testbit (uint32_t (Z.land (get r (rcc m))
                                        (Z.lnot (Z.shiftl mask lo)))) i
            = negb (in_field lo w i) && Z.testbit (get r (rcc m)) i).
  { intros i Hi. apply clear_mask_spec; assumption. }
  repeat split.
  - apply Z.bits_inj'. intros i Hi. rewrite field_spec, Z.bits_0 by lia.
    destruct (Z.ltb_spec i w) as [Hlt|Hge]; [|apply andb_false_r].
    rewrite andb_true_r.
    destruct (Z.lt_ge_cases (i + lo) 32) as [H32|H32].
    + rewrite Hb by lia. fields; try reflexivity.
    + apply (testbit_bounded _ 32); [lia|apply uint32_range|exact H32].
  - intros i Hi Hout. rewrite Hb, Hout by lia. reflexivity.
  - intros r' Hr. apply get_set_other. exact Hr.
  - match goal with
    | |- exists ws, ?a :: wlog m = _ /\ _ => exists [a]
    end.
    split; [reflexivity|]. repeat constructor; cbn [w_new w_old].
    intros i Hi Hout. rewrite Hb, Hout by lia. reflexivity.
Qed.

(** [RCC->r = (RCC->r & ~(mask << lo)) | (x << lo)]: the field is [x], the
    rest is kept. *)
Lemma set_field_written (r : reg) (x mask lo w : Z) (m : machine) :
  mask = Z.ones w -> 0 <= lo -> 0 <= w -> lo + w <= 32 -> 0 <= x < 2 ^ w ->
  exists m', field_written r lo w x m m' /\
    forall (B : Type) (k : stmt B),
      ((v <- read r ;;
        write r (Z.lor (Z.land v (Z.lnot (Z.shiftl mask lo))) (Z.shiftl x lo))) ;;
       k) m = k m'.
Proof.
  intros Hmask Hlo Hw Hfit Hx. eexists. split; cycle 1.
  { intros B k. reflexivity. }
  unfold field_written, modifies, stores_since. cbn [rcc wlog].
  rewrite !get_set_same.
  assert (Hb : forall i, 0 <= i < 32 ->
            Z.testbit
              (uint32_t (Z.lor (Z.land (get r (rcc m))
                                       (Z.lnot (Z.shiftl mask lo)))
                               (Z.shiftl x lo))) i
            = if in_field lo w i then Z.testbit x (i - lo)
              else Z.testbit (get r (rcc m)) i).
  { intros i Hi. apply set_field_spec; assumption. }
  repeat split.
  - apply field_eq; try assumption. intros i Hi.
    rewrite Hb by lia. fields; try (f_equal; lia).
  - intros i Hi Hout. rewrite Hb, Hout by lia. reflexivity.
  - intros r' Hr. apply get_set_other. exact Hr.
  - match goal with
    | |- exists ws, ?a :: wlog m = _ /\ _ => exists [a]
    end.
    split; [reflexivity|]. repeat constructor; cbn [w_new w_old].
    intros i Hi Hout. rewrite Hb, Hout by lia. reflexivity.
Qed.

(** ** The two hardware models *)

Lemma follow_spec (en rdy v i : Z) :
  0 <= rdy -> 0 <= i ->
  Z.testbit (follow en rdy v) i
  = if i =? rdy then Z.testbit v en else Z.testbit v i.
Proof.
  intros Hr Hi. unfold follow. destruct (Z.testbit v en) eqn:E.
  - rewrite Z.lor_spec, testbit_bit by assumption.
    destruct (i =? rdy); [apply orb_true_r|apply orb_false_r].
  - rewrite Z.land_spec, Z.lnot_spec, testbit_bit by assumption.
    destruct (i =? rdy); [apply andb_false_r|apply andb_true_r].
Qed.

Lemma hw_prompt_CR (s : RCC_RegDef_t) :
  CR (hw_prompt s) = follow 24 25 (follow 16 17 (follow 0 1 (CR s))).
Proof.
  unfold hw_prompt. rewrite CR_get, get_set_other, get_set_same by discriminate.
  reflexivity.
Qed.

Lemma hw_prompt_CFGR (s : RCC_RegDef_t) :
  CFGR (hw_prompt s)
  = Z.lor (Z.land (CFGR s) (Z.lnot (Z.shiftl 3 2)))
          (Z.shiftl (Z.land (CFGR s) 3) 2).
Proof. unfold hw_prompt. rewrite CFGR_get, get_set_same. reflexivity. Qed.

Lemma hw_prompt_other (r : reg) (s : RCC_RegDef_t) :
  r <> RCC_CR -> r <> RCC_CFGR -> get r (hw_prompt s) = get r s.
Proof.
  intros H1 H2. unfold hw_prompt. rewrite !get_set_other by assumption.
  reflexivity.
Qed.

(** The prompt hardware alters the ready bits 1, 17 and 25 of the control
    register and nothing else there. *)
Lemma hw_prompt_keeps_CR (i : Z) :
  0 <= i -> i <> 1 -> i <> 17 -> i <> 25 -> keeps hw_prompt RCC_CR i.
Proof.
  intros Hi H1 H17 H25 x. cbn [get]. rewrite hw_prompt_CR.
  rewrite !follow_spec by lia.
  destruct (Z.eqb_spec i 25); [lia|].
  destruct (Z.eqb_spec i 17); [lia|].
  destruct (Z.eqb_spec i 1); [lia|]. reflexivity.
Qed.

(** It alters the confirmation bits 2 and 3 of the configuration register
    and nothing else there. *)
Lemma hw_prompt_keeps_CFGR (i : Z) :
  0 <= i -> i <> 2 -> i <> 3 -> keeps hw_prompt RCC_CFGR i.
Proof.
  intros Hi H2 H3 x. cbn [get]. rewrite hw_prompt_CFGR.
  change 3 with (Z.ones 2).
  rewrite Z.lor_spec, Z.land_spec, Z.lnot_spec, testbit_ones_shifted by lia.
  rewrite Z.shiftl_spec, Z.land_spec by lia.
  assert (Hout : in_field 2 2 i = false).
  { unfold in_field. destruct (Z.leb_spec 2 i), (Z.ltb_spec i (2 + 2));
      cbn [andb]; lia || reflexivity. }
  rewrite Hout. cbn [negb]. rewrite andb_true_r.
  assert (Hz : Z.testbit (Z.ones 2) (i - 2) = false).
  { destruct (Z.lt_ge_cases i 2).
    - apply Z.testbit_neg_r. lia.
    - rewrite Z.testbit_ones_nonneg by lia. apply Z.ltb_ge. lia. }
  rewrite Hz, andb_false_r. apply orb_false_r.
Qed.

(** It alters no other register. *)
Lemma hw_prompt_keeps_other (r : reg) (i : Z) :
  r <> RCC_CR -> r <> RCC_CFGR -> keeps hw_prompt r i.
Proof. intros H1 H2 x. rewrite hw_prompt_other by assumption. reflexivity. Qed.

(** Each ready bit shows its enable bit after one tick. *)
Lemma hw_prompt_responds (en : Z) :
  en = HSI \/ en = HSE \/ en = PLL -> responds hw_prompt en (en + 1).
Proof.
  intros H x. exists 1%nat. cbn [Nat.iter nat_rect]. simpl Nat.iter.
  rewrite hw_prompt_CR.
  unfold HSI, HSE, PLL in H. destruct H as [H | [H | H]]; subst en;
    rewrite !follow_spec by lia; cbn [Z.add Z.eqb Pos.add Pos.eqb Pos.succ];
    try reflexivity.
Qed.

(** The confirmation field shows the selector after one tick. *)
Lemma hw_prompt_switches : switches hw_prompt.
Proof.
  intro x. exists 1%nat. simpl Nat.iter. rewrite hw_prompt_CFGR.
  apply Z.bits_inj'. intros i Hi. rewrite !field_spec by lia.
  destruct (Z.ltb_spec i 2) as [Hlt|Hge]; [|rewrite !andb_false_r; reflexivity].
  rewrite !andb_true_r. change 3 with (Z.ones 2).
  rewrite Z.lor_spec, Z.land_spec, Z.lnot_spec, testbit_ones_shifted by lia.
  rewrite Z.shiftl_spec, Z.land_spec, Z.testbit_ones_nonneg by lia.
  replace (i + 2 - 2) with i by lia. rewrite Z.add_0_r.
  assert (Hin : in_field 2 2 (i + 2) = true).
  { unfold in_field. destruct (Z.leb_spec 2 (i + 2)), (Z.ltb_spec (i + 2) (2 + 2));
      cbn [andb]; lia || reflexivity. }
  rewrite Hin. cbn [negb]. rewrite andb_false_r. cbn [orb].
  destruct (Z.ltb_spec i 2); [apply andb_true_r|lia].
Qed.

Lemma hw_dead_invariant (P : RCC_RegDef_t -> Prop) : invariant hw_dead P.
Proof. intros x H. exact H. Qed.

(** ** Peripheral clock gating *)

(** The shape shared by the five enable functions. *)
Lemma RCC_EnableClk_unfold (b : bus) (p : Z) (m : machine) :
  RCC_EnableClk b p m
  = call ((if 31 <? p then Return 1 else skip) ;;
          or_assign (ENR b) (Z.shiftl 1 p) ;; Return 0) m.
Proof. destruct b; reflexivity. Qed.

(** The shape shared by the five disable functions. *)
Lemma RCC_DisableClk_unfold (b : bus) (p : Z) (m : machine) :
  RCC_DisableClk b p m
  = call ((if 31 <? p then Return 1 else skip) ;;
          and_assign (ENR b) (Z.lnot (Z.shiftl 1 p)) ;; Return 0) m.
Proof. destruct b; reflexivity. Qed.

(** An enable function run twice: the second run finds its bit set. *)
Lemma RCC_EnableClk_result (b : bus) (p : Z) (m : machine) :
  0 <= p <= 31 ->
  RCC_EnableClk b p m
  = Some (0, mkMachine
               (set (ENR b)
                    (uint32_t (Z.lor (get (ENR b) (rcc m)) (Z.shiftl 1 p)))
                    (rcc m))
               (mkWrite (ENR b) (get (ENR b) (rcc m))
                        (uint32_t (Z.lor (get (ENR b) (rcc m)) (Z.shiftl 1 p)))
                  :: wlog m)).
Proof.
  intro Hp. rewrite RCC_EnableClk_unfold. unfold call.
  rewrite check_pass by (apply Z.ltb_ge; lia). reflexivity.
Qed.

(** Enabling a peripheral whose bit is set changes no register. *)
Lemma RCC_EnableClk_again (b : bus) (p : Z) (m : machine) :
  0 <= p <= 31 -> 0 <= get (ENR b) (rcc m) < 2 ^ 32 ->
  Z.testbit (get (ENR b) (rcc m)) p = true ->
  exists m', RCC_EnableClk b p m = Some (0, m') /\ rcc m' = rcc m.
Proof.
  intros Hp Hv Hb. rewrite RCC_EnableClk_result by exact Hp.
  eexists. split; [reflexivity|]. cbn [rcc].
  rewrite set_bit_idem, set_same_value by assumption. reflexivity.
Qed.

(** C6.  In each bus domain (AHB1, AHB2, AHB3, APB1, APB2) and for every
    bit position 0 to 31, enabling sets exactly that bit of the domain's
    enable register and disabling clears exactly that bit: the other 31
    bits and all other registers are unchanged, one store is made, and the
    call returns 0.  For every position above 31 the call returns 1 and the
    machine, log of stores included, is left as it was. *)
Theorem peripheral_gating (b : bus) (p : Z) (m : machine) :
  (0 <= p <= 31 ->
   (exists m', RCC_EnableClk b p m = Some (0, m') /\
               bit_written (ENR b) p true m m') /\
   (exists m', RCC_DisableClk b p m = Some (0, m') /\
               bit_written (ENR b) p false m m')) /\
  (31 < p ->
   RCC_EnableClk b p m = Some (1, m) /\ RCC_DisableClk b p m = Some (1, m)).
Proof.
  rewrite RCC_EnableClk_unfold, RCC_DisableClk_unfold.
  unfold call, bind at 1 3. split.
  - intro Hp. destruct (Z.ltb_spec 31 p) as [H|_]; [lia|]. cbn [skip].
    unfold bind.
    destruct (or_assign_bit (ENR b) p m Hp) as (m1 & E1 & W1).
    destruct (and_assign_bit (ENR b) p m Hp) as (m2 & E2 & W2).
    rewrite E1, E2. cbn [Return]. split; eexists; split; eauto.
  - intro Hp. destruct (Z.ltb_spec 31 p) as [_|H]; [|lia].
    split; reflexivity.
Qed.

(** The theorem at work: GPIOA (bit 0 of AHB1) is switched on from the boot
    state, and position 32 is refused on APB2. *)
Lemma peripheral_gating_witness :
  (exists m', RCC_EnableClk AHB1 0 boot = Some (0, m') /\
              bit_written (ENR AHB1) 0 true boot m') /\
  RCC_EnableClk APB2 32 boot = Some (1, boot).
Proof.
  split.
  - apply (peripheral_gating AHB1 0 boot). lia.
  - apply (peripheral_gating APB2 32 boot). lia.
Defined.

(** ** External oscillator bypass *)

(** C8.  Whatever values the two enumerators of [HSE_t] have, provided
    they differ: a mode that is neither of them makes [RCC_HSE_Mode] return
    1 with the machine, log of stores included, left as it was; [BYPASSED]
    sets exactly bit 18 of the control register and [NOT_BYPASSED] clears
    exactly that bit, each with one store and return value 0. *)
Theorem HSE_mode_bypass_bit (BYPASSED NOT_BYPASSED HSE_MODE : Z) (m : machine) :
  BYPASSED <> NOT_BYPASSED ->
  (HSE_MODE <> BYPASSED -> HSE_MODE <> NOT_BYPASSED ->
   RCC_HSE_Mode BYPASSED NOT_BYPASSED HSE_MODE m = Some (1, m)) /\
  (exists m', RCC_HSE_Mode BYPASSED NOT_BYPASSED BYPASSED m = Some (0, m') /\
              bit_written RCC_CR 18 true m m') /\
  (exists m', RCC_HSE_Mode BYPASSED NOT_BYPASSED NOT_BYPASSED m = Some (0, m') /\
              bit_written RCC_CR 18 false m m').
Proof.
  intro Hd. unfold RCC_HSE_Mode, call. repeat split.
  - intros H1 H2.
    destruct (Z.eqb_spec HSE_MODE BYPASSED); [contradiction|].
    destruct (Z.eqb_spec HSE_MODE NOT_BYPASSED); [contradiction|].
    reflexivity.
  - rewrite Z.eqb_refl. unfold bind.
    destruct (or_assign_bit RCC_CR 18 m) as (m1 & E1 & W1); [lia|].
    rewrite E1. cbn [Return]. eauto.
  - destruct (Z.eqb_spec NOT_BYPASSED BYPASSED) as [E|_];
      [symmetry in E; contradiction|].
    rewrite Z.eqb_refl. unfold bind.
    destruct (and_assign_bit RCC_CR 18 m) as (m1 & E1 & W1); [lia|].
    rewrite E1. cbn [Return]. eauto.
Qed.

(** The theorem at work with the enumerators numbered 0 and 1: mode 7 is
    refused, and bypass is switched on from the boot state. *)
Lemma HSE_mode_bypass_bit_witness :
  RCC_HSE_Mode 0 1 7 boot = Some (1, boot) /\
  exists m', RCC_HSE_Mode 0 1 0 boot = Some (0, m') /\
             bit_written RCC_CR 18 true boot m'.
Proof.
  destruct (HSE_mode_bypass_bit 0 1 7 boot) as (H1 & H2 & _); [lia|].
  split.
  - apply H1; lia.
  - exact H2.
Defined.

(** ** Clock source enable and disable *)

Section SetClkStatus.

Variable hw : RCC_RegDef_t -> RCC_RegDef_t.

(** The first statement of [RCC_SetClkStatus] writes the enable bit. *)
Lemma SetClkStatus_store (k : Z) (st : STATUS_t) (m : machine) :
  0 <= k <= 30 ->
  exists m1,
    match st with
    | ON => or_assign RCC_CR (Z.shiftl 1 k)
    | OFF => and_assign RCC_CR (Z.lnot (Z.shiftl 1 k))
    end m = Some (Normal tt, m1) /\
    bit_written RCC_CR k (enable_value st) m m1.
Proof.
  intro Hk. destruct st; cbn [enable_value].
  - apply or_assign_bit. lia.
  - apply and_assign_bit. lia.
Qed.

(** Whatever the request, a call that returns has stored the enable bit,
    then let the hardware tick until the ready bit read as set, and
    returns 0. *)
Lemma SetClkStatus_inv (fuel : nat) (k : Z) (st : STATUS_t)
    (m : machine) (r : Z) (m' : machine) :
  0 <= k <= 30 ->
  RCC_SetClkStatus hw fuel k st m = Some (r, m') ->
  r = 0 /\ Z.testbit (CR (rcc m')) (k + 1) = true /\
  exists m1 n,
    bit_written RCC_CR k (enable_value st) m m1 /\
    rcc m' = Nat.iter n hw (rcc m1) /\ wlog m' = wlog m1.
Proof.
  intros Hk H. unfold RCC_SetClkStatus, call in H. unfold bind at 1 in H.
  destruct (SetClkStatus_store k st m Hk) as (m1 & E1 & W1).
  rewrite E1 in H. unfold bind in H.
  destruct (while_poll _ _ fuel m1) as [[o m2]|] eqn:W; [|discriminate H].
  apply while_poll_inv in W. destruct W as (-> & Hl & Hc & n & _ & Hr).
  cbn [Return] in H. inversion H; subst. split; [reflexivity|]. split.
  - rewrite bit_test in Hc by lia. destruct (Z.testbit _ _); [reflexivity|].
    discriminate Hc.
  - exists m1, n. auto.
Qed.

(** If the ready bit never comes up, the call returns for no fuel. *)
Lemma SetClkStatus_hangs (k : Z) (st : STATUS_t) (m : machine) :
  0 <= k <= 30 ->
  Z.testbit (CR (rcc m)) (k + 1) = false ->
  invariant hw (fun x => Z.testbit (CR x) (k + 1) = false) ->
  forall fuel, RCC_SetClkStatus hw fuel k st m = None.
Proof.
  intros Hk H0 Hinv fuel. unfold RCC_SetClkStatus, call. unfold bind at 1.
  destruct (SetClkStatus_store k st m Hk) as (m1 & E1 & W1).
  rewrite E1. unfold bind. rewrite while_poll_stuck; [reflexivity|].
  intro n. rewrite bit_test by lia.
  rewrite (iter_invariant hw (fun x => Z.testbit (CR x) (k + 1) = false));
    [reflexivity|exact Hinv|].
  destruct W1 as (_ & Hother & _). rewrite CR_get, Hother by lia. exact H0.
Qed.

(** If the ready bit reads as set after [n] ticks from the state the store
    leaves, every fuel above [n] lets the call return 0. *)
Lemma SetClkStatus_returns (k : Z) (st : STATUS_t) (m m1 : machine) (n : nat) :
  0 <= k <= 30 ->
  match st with
  | ON => or_assign RCC_CR (Z.shiftl 1 k)
  | OFF => and_assign RCC_CR (Z.lnot (Z.shiftl 1 k))
  end m = Some (Normal tt, m1) ->
  Z.testbit (CR (Nat.iter n hw (rcc m1))) (k + 1) = true ->
  exists j, (j <= n)%nat /\
    forall fuel, (n < fuel)%nat ->
      RCC_SetClkStatus hw fuel k st m
      = Some (0, mkMachine (Nat.iter j hw (rcc m1)) (wlog m1)).
Proof.
  intros Hk E1 Hn.
  destruct (while_poll_done hw
              (fun RCC => Z.land (Z.shiftr (CR RCC) (k + 1)) 1 =? 0) n m1)
    as (j & Hj & _ & Hrun).
  { rewrite bit_test, Hn by lia. reflexivity. }
  exists j. split; [exact Hj|]. intros fuel Hf.
  unfold RCC_SetClkStatus, call. unfold bind at 1. rewrite E1.
  unfold bind. rewrite Hrun by exact Hf. reflexivity.
Qed.

End SetClkStatus.

(** The body of [RCC_SetClkStatus] past its store. *)
Lemma SetClkStatus_after_store (hw : RCC_RegDef_t -> RCC_RegDef_t)
    (fuel : nat) (k : Z) (st : STATUS_t) (m m1 : machine) :
  match st with
  | ON => or_assign RCC_CR (Z.shiftl 1 k)
  | OFF => and_assign RCC_CR (Z.lnot (Z.shiftl 1 k))
  end m = Some (Normal tt, m1) ->
  RCC_SetClkStatus hw fuel k st m
  = match while_poll hw
            (fun RCC => Z.land (Z.shiftr (CR RCC) (k + 1)) 1 =? 0) fuel m1 with
    | Some (_, m') => Some (0, m')
    | None => None
    end.
Proof.
  intro E. unfold RCC_SetClkStatus, call. unfold bind at 1. rewrite E.
  unfold bind.
  destruct (while_poll _ _ fuel m1) as [[o m2]|] eqn:P; [|reflexivity].
  apply while_poll_inv in P. destruct P as (-> & _). reflexivity.
Qed.

(** Enabling a clock source whose enable bit is set: the driver's store
    changes nothing, so the register block on return is what the hardware
    made of the one at the call. *)
Lemma SetClkStatus_ON_again (hw : RCC_RegDef_t -> RCC_RegDef_t)
    (k : Z) (m : machine) :
  0 <= k <= 30 -> 0 <= CR (rcc m) < 2 ^ 32 ->
  Z.testbit (CR (rcc m)) k = true ->
  (forall fuel r m',
      RCC_SetClkStatus hw fuel k ON m = Some (r, m') ->
      r = 0 /\
      wlog m' = mkWrite RCC_CR (CR (rcc m)) (CR (rcc m)) :: wlog m /\
      exists n, rcc m' = Nat.iter n hw (rcc m)) /\
  (Z.testbit (CR (rcc m)) (k + 1) = true ->
   forall fuel, exists m',
     RCC_SetClkStatus hw (S fuel) k ON m = Some (0, m') /\ rcc m' = rcc m) /\
  (forall n, Z.testbit (CR (Nat.iter n hw (rcc m))) (k + 1) = true ->
   exists fuel m', RCC_SetClkStatus hw fuel k ON m = Some (0, m')).
Proof.
  intros Hk Hv Hb.
  assert (E : or_assign RCC_CR (Z.shiftl 1 k) m
              = Some (Normal tt,
                      mkMachine (rcc m)
                        (mkWrite RCC_CR (CR (rcc m)) (CR (rcc m)) :: wlog m)))
    by (apply (or_assign_set_bit RCC_CR k m); [lia|exact Hv|exact Hb]).
  split; [|split].
  - intros fuel r m' H.
    rewrite (SetClkStatus_after_store hw fuel k ON m _ E) in H.
    destruct (while_poll _ _ fuel _) as [[o m2]|] eqn:P; [|discriminate H].
    apply while_poll_inv in P. destruct P as (_ & Hl & _ & n & _ & Hr).
    inversion H; subst. split; [reflexivity|]. split; [exact Hl|].
    exists n. exact Hr.
  - intros Hrdy fuel. eexists.
    rewrite (SetClkStatus_after_store hw (S fuel) k ON m _ E).
    cbn [while_poll rcc]. rewrite bit_test, Hrdy by lia. cbn [negb].
    split; reflexivity.
  - intros n Hn.
    destruct (SetClkStatus_returns hw k ON m _ n Hk E Hn) as (j & _ & Hrun).
    exists (S n). eexists. apply Hrun. lia.
Qed.

(** C1 (the code departs from it).  After an OFF request the loop of
    [RCC_SetClkStatus] is the same as after an ON request: it waits for the
    ready bit at position [Clk_Type + 1] to be set.  So a call with status
    OFF that returns does so with the ready bit set, not cleared. *)
Theorem SetClkStatus_OFF_awaits_ready_set
    (hw : RCC_RegDef_t -> RCC_RegDef_t) (fuel : nat) (Clk_Type : Z)
    (m : machine) (r : Z) (m' : machine) :
  0 <= Clk_Type <= 30 ->
  RCC_SetClkStatus hw fuel Clk_Type OFF m = Some (r, m') ->
  Z.testbit (CR (rcc m')) (Clk_Type + 1) = true.
Proof.
  intros Hk H. apply (SetClkStatus_inv hw fuel Clk_Type OFF m r m' Hk H).
Qed.

(** Switching the internal oscillator off from the boot state (control
    register 0x83: on and ready): the call returns at once, with the
    oscillator's ready bit (bit 1) still set. *)
Lemma SetClkStatus_OFF_awaits_ready_set_witness :
  RCC_SetClkStatus hw_prompt 1 HSI OFF boot
  = Some (0, mkMachine (regs_with 0x82 0x24003010)
                       [mkWrite RCC_CR 0x83 0x82]) /\
  Z.testbit (CR (regs_with 0x82 0x24003010)) (HSI + 1) = true.
Proof.
  split.
  - vm_compute. reflexivity.
  - apply (SetClkStatus_OFF_awaits_ready_set hw_prompt 1 HSI boot 0
             (mkMachine (regs_with 0x82 0x24003010)
                        [mkWrite RCC_CR 0x83 0x82])).
    + unfold HSI. lia.
    + vm_compute. reflexivity.
Defined.

(** Switching the internal oscillator off when it is off already, on a
    hardware whose ready bits follow the enable bits: the ready bit stays
    clear, which is what an OFF request is after, and the call never
    returns. *)
Lemma SetClkStatus_OFF_hangs_when_off (fuel : nat) :
  RCC_SetClkStatus hw_prompt fuel HSI OFF all_off = None.
Proof.
  unfold RCC_SetClkStatus, call. unfold bind at 1.
  destruct (SetClkStatus_store HSI OFF all_off) as (m1 & E1 & _);
    [unfold HSI; lia|].
  rewrite E1. unfold bind.
  assert (Hm1 : rcc m1 = regs_with 0 0).
  { vm_compute in E1. inversion E1. reflexivity. }
  rewrite while_poll_stuck; [reflexivity|].
  intro n. rewrite Hm1, iter_fixed by reflexivity. reflexivity.
Qed.

(** ** System clock selection *)

Section SetSysClk.

Variable hw : RCC_RegDef_t -> RCC_RegDef_t.

(** The two stores of [RCC_SetSysClk] put [v] into the selector field. *)
Lemma SetSysClk_stores (v : Z) (m : machine) :
  0 <= v <= 3 ->
  exists m2,
    (and_assign RCC_CFGR (Z.lnot (Z.shiftl 3 0)) ;;
     or_assign RCC_CFGR (Z.shiftl v 0)) m = Some (Normal tt, m2) /\
    field_written RCC_CFGR 0 2 v m m2.
Proof.
  intro Hv. eexists. split; [reflexivity|].
  unfold field_written, modifies, stores_since. cbn [rcc wlog].
  rewrite !get_set_same. change 3 with (Z.ones 2).
  assert (Hx : 0 <= v < 2 ^ 2) by (change (2 ^ 2) with 4; lia).
  assert (Hbit : forall i, 0 <= i < 32 ->
            Z.testbit
              (uint32_t
                 (Z.lor (uint32_t (Z.land (get RCC_CFGR (rcc m))
                                          (Z.lnot (Z.shiftl (Z.ones 2) 0))))
                        (Z.shiftl v 0))) i
            = if in_field 0 2 i then Z.testbit v i
              else Z.testbit (get RCC_CFGR (rcc m)) i).
  { intros i Hi. rewrite rewrite_field_spec by lia.
    rewrite Z.sub_0_r. reflexivity. }
  repeat split.
  - apply field_eq; try lia. intros i Hi. rewrite Hbit by lia.
    unfold in_field.
    destruct (Z.leb_spec 0 (i + 0)); [|lia].
    destruct (Z.ltb_spec (i + 0) (0 + 2)); [|lia].
    cbn [andb]. rewrite Z.add_0_r. reflexivity.
  - intros i Hi Hout. rewrite Hbit, Hout by lia. reflexivity.
  - intros r' Hr. rewrite !get_set_other by exact Hr. reflexivity.
  - match goal with
    | |- exists ws, ?a :: ?b :: wlog m = _ /\ _ => exists [a; b]
    end.
    split; [reflexivity|]. repeat constructor; cbn [w_new w_old].
    + intros i Hi Hout. rewrite (or_field_spec _ v 0 2), Hout by lia.
      apply orb_false_r.
    + intros i Hi Hout. rewrite clear_field_spec, Hout by lia. reflexivity.
Qed.

(** A request above the last option is refused before anything is done. *)
Lemma SetSysClk_reject (fuel : nat) (v : Z) (m : machine) :
  3 < v -> RCC_SetSysClk hw fuel v m = Some (1, m).
Proof.
  intro Hv. unfold RCC_SetSysClk, call, SYSPLLP. unfold bind at 1.
  destruct (Z.ltb_spec 3 v); [reflexivity|lia].
Qed.

(** The body of [RCC_SetSysClk] past its range test: the two stores, then
    the wait. *)
Lemma SetSysClk_accept (fuel : nat) (v : Z) (m m2 : machine) :
  0 <= v <= 3 ->
  (and_assign RCC_CFGR (Z.lnot (Z.shiftl 3 0)) ;;
   or_assign RCC_CFGR (Z.shiftl v 0)) m = Some (Normal tt, m2) ->
  RCC_SetSysClk hw fuel v m
  = match while_poll hw
            (fun RCC => negb (Z.land (Z.shiftr (CFGR RCC) 2) 3 =? v))
            fuel m2 with
    | Some (_, m') => Some (0, m')
    | None => None
    end.
Proof.
  intros Hv E.
  unfold RCC_SetSysClk, call, SYSPLLP. unfold bind at 1.
  destruct (Z.ltb_spec 3 v); [lia|]. cbn [skip].
  unfold bind at 1 2. unfold bind at 1 in E.
  destruct (and_assign RCC_CFGR _ m) as [[[|] m1]|]; try discriminate E.
  rewrite E. unfold bind.
  destruct (while_poll _ _ fuel m2) as [[o m3]|] eqn:P; [|reflexivity].
  apply while_poll_inv in P. destruct P as (-> & _). reflexivity.
Qed.

(** A call that returns has put the request into the selector field, then
    let the hardware tick until the confirmation field read the same, and
    returns 0. *)
Lemma SetSysClk_inv (fuel : nat) (v : Z) (m : machine) (r : Z) (m' : machine) :
  0 <= v <= 3 ->
  RCC_SetSysClk hw fuel v m = Some (r, m') ->
  r = 0 /\ field (CFGR (rcc m')) 2 2 = v /\
  exists m2 n,
    field_written RCC_CFGR 0 2 v m m2 /\
    rcc m' = Nat.iter n hw (rcc m2) /\ wlog m' = wlog m2.
Proof.
  intros Hv H. destruct (SetSysClk_stores v m Hv) as (m2 & E & W).
  rewrite (SetSysClk_accept fuel v m m2 Hv E) in H.
  destruct (while_poll _ _ fuel m2) as [[o m3]|] eqn:P; [|discriminate H].
  apply while_poll_inv in P. destruct P as (_ & Hl & Hc & n & _ & Hr).
  inversion H; subst. split; [reflexivity|]. split.
  - apply negb_false_iff, Z.eqb_eq in Hc. exact Hc.
  - exists m2, n. auto.
Qed.

(** The stores of [RCC_SetSysClk] leave the confirmation field alone. *)
Lemma field_written_SWS (v : Z) (m m2 : machine) :
  field_written RCC_CFGR 0 2 v m m2 ->
  field (CFGR (rcc m2)) 2 2 = field (CFGR (rcc m)) 2 2.
Proof.
  intros (_ & Hother & _).
  apply Z.bits_inj'. intros i Hi. rewrite !field_spec by lia.
  destruct (Z.ltb_spec i 2) as [Hlt|Hge]; [|rewrite !andb_false_r; reflexivity].
  rewrite !CFGR_get, Hother; [reflexivity|lia|].
  unfold in_field. destruct (Z.ltb_spec (i + 2) (0 + 2)); [lia|].
  apply andb_false_r.
Qed.

(** If the confirmation field never comes to hold the request, the call
    returns for no fuel. *)
Lemma SetSysClk_hangs (v : Z) (m : machine) :
  0 <= v <= 3 ->
  field (CFGR (rcc m)) 2 2 <> v ->
  invariant hw (fun x => field (CFGR x) 2 2 <> v) ->
  forall fuel, RCC_SetSysClk hw fuel v m = None.
Proof.
  intros Hv H0 Hinv fuel.
  destruct (SetSysClk_stores v m Hv) as (m2 & E & W).
  rewrite (SetSysClk_accept fuel v m m2 Hv E).
  rewrite while_poll_stuck; [reflexivity|].
  intro n. apply negb_true_iff, Z.eqb_neq.
  apply (iter_invariant hw (fun x => field (CFGR x) 2 2 <> v)); [exact Hinv|].
  rewrite (field_written_SWS v m m2 W). exact H0.
Qed.

(** If the hardware switches the clock, some fuel lets the call return 0. *)
Lemma SetSysClk_returns (v : Z) (m : machine) :
  0 <= v <= 3 -> switches hw ->
  exists fuel m', RCC_SetSysClk hw fuel v m = Some (0, m').
Proof.
  intros Hv Hsw. destruct (SetSysClk_stores v m Hv) as (m2 & E & W).
  destruct (Hsw (rcc m2)) as (n & Hn).
  destruct W as (Hf & _). rewrite <- CFGR_get in Hf. rewrite Hf in Hn.
  destruct (while_poll_done hw
              (fun RCC => negb (Z.land (Z.shiftr (CFGR RCC) 2) 3 =? v)) n m2)
    as (j & _ & _ & Hrun).
  { apply negb_false_iff, Z.eqb_eq. exact Hn. }
  exists (S n). eexists.
  rewrite (SetSysClk_accept (S n) v m m2 Hv E).
  rewrite Hrun by lia. reflexivity.
Qed.

End SetSysClk.

(** C5.  A request above 3 makes [RCC_SetSysClk] return 1 with the
    machine, log of stores included, left as it was.  For a request [v]
    from 0 to 3 (3 included): a call that returns returns 0, with the
    confirmation field (bits 3:2 of the configuration register) equal to
    [v]; what it did is to store [v] into the selector field (bits 1:0),
    every store leaving all other bits of that register and all other
    registers as they were, and then to let the hardware tick; so the
    selector field holds [v] on return if the hardware keeps bits 0 and 1,
    and every other bit that the hardware keeps holds what it held.  The
    call does return, for some fuel, on a hardware that switches. *)
Theorem SetSysClk_selects
    (hw : RCC_RegDef_t -> RCC_RegDef_t) (fuel : nat) (v : Z) (m : machine) :
  (3 < v -> RCC_SetSysClk hw fuel v m = Some (1, m)) /\
  (0 <= v <= 3 ->
   (forall r m', RCC_SetSysClk hw fuel v m = Some (r, m') ->
      r = 0 /\ field (CFGR (rcc m')) 2 2 = v /\
      (exists m2 n,
          field_written RCC_CFGR 0 2 v m m2 /\
          rcc m' = Nat.iter n hw (rcc m2) /\ wlog m' = wlog m2) /\
      (keeps hw RCC_CFGR 0 -> keeps hw RCC_CFGR 1 ->
       field (CFGR (rcc m')) 0 2 = v) /\
      (forall i, 2 <= i < 32 -> keeps hw RCC_CFGR i ->
                 Z.testbit (CFGR (rcc m')) i = Z.testbit (CFGR (rcc m)) i)) /\
   (switches hw -> exists fuel' m', RCC_SetSysClk hw fuel' v m = Some (0, m'))).
Proof.
  split; [apply SetSysClk_reject|]. intro Hv. split.
  - intros r m' H.
    destruct (SetSysClk_inv hw fuel v m r m' Hv H)
      as (Hr & Hsws & m2 & n & W & Hregs & Hlog).
    split; [exact Hr|]. split; [exact Hsws|].
    split; [exists m2, n; auto|].
    destruct W as (Hf & Hother & _). split.
    + intros K0 K1. rewrite <- Hf. rewrite Hregs.
      apply Z.bits_inj'. intros i Hi. rewrite !field_spec by lia.
      destruct (Z.ltb_spec i 2) as [Hlt|Hge];
        [|rewrite !andb_false_r; reflexivity].
      rewrite !andb_true_r, Z.add_0_r, CFGR_get.
      assert (Hi' : i = 0 \/ i = 1) by lia.
      destruct Hi' as [-> | ->]; apply iter_keeps; assumption.
    + intros i Hi K. rewrite Hregs, CFGR_get, iter_keeps by exact K.
      apply Hother; [lia|]. unfold in_field.
      destruct (Z.ltb_spec i (0 + 2)); [lia|]. apply andb_false_r.
  - apply SetSysClk_returns. exact Hv.
Qed.

(** From the boot state on the prompt hardware: option 4 is refused,
    option 1 (the external oscillator) is selected and confirmed, and
    option 3 is selected and confirmed for some fuel. *)
Lemma SetSysClk_selects_witness :
  RCC_SetSysClk hw_prompt 2 4 boot = Some (1, boot) /\
  (exists m', RCC_SetSysClk hw_prompt 2 1 boot = Some (0, m') /\
              field (CFGR (rcc m')) 2 2 = 1 /\ field (CFGR (rcc m')) 0 2 = 1) /\
  (exists fuel m', RCC_SetSysClk hw_prompt fuel 3 boot = Some (0, m')).
Proof.
  split; [|split].
  - apply (SetSysClk_selects hw_prompt 2 4 boot). lia.
  - destruct (SetSysClk_selects hw_prompt 2 1 boot) as [_ H].
    destruct H as [H _]; [lia|].
    eexists. split; [vm_compute; reflexivity|].
    match goal with
    | |- context [rcc ?X] => specialize (H 0 X)
    end.
    destruct H as (_ & H1 & _ & H2 & _); [vm_compute; reflexivity|].
    split; [exact H1|].
    apply H2; apply hw_prompt_keeps_CFGR; lia.
  - destruct (SetSysClk_selects hw_prompt 0 3 boot) as [_ H].
    destruct H as [_ H]; [lia|].
    apply H. exact hw_prompt_switches.
Defined.

(** ** PLL configuration: the stores *)

(** The source selection of [RCC_PLL_Config]: one store to bit 22 for the
    two oscillators, [return 1] for anything else. *)
Lemma PLL_src_store (Src : Z) (m : machine) :
  Src = HSI \/ Src = HSE ->
  exists m',
    bit_written RCC_PLLCFGR 22 (Src =? HSE) m m' /\
    forall (B : Type) (k : stmt B),
      ((if Src =? HSI then and_assign RCC_PLLCFGR (Z.lnot (Z.shiftl 1 22))
        else if Src =? HSE then or_assign RCC_PLLCFGR (Z.shiftl 1 22)
        else Return 1) ;; k) m = k m'.
Proof.
  intros [H | H]; subst Src; cbn [HSI HSE Z.eqb Pos.eqb].
  - apply and_assign_bit_then. lia.
  - apply or_assign_bit_then. lia.
Qed.

Lemma PLL_src_reject (Src : Z) (m : machine) (B : Type) (k : stmt B) :
  Src <> HSI -> Src <> HSE ->
  ((if Src =? HSI then and_assign RCC_PLLCFGR (Z.lnot (Z.shiftl 1 22))
    else if Src =? HSE then or_assign RCC_PLLCFGR (Z.shiftl 1 22)
    else Return 1) ;; k) m = Some (Returned 1, m).
Proof.
  intros H1 H2.
  destruct (Z.eqb_spec Src HSI); [contradiction|].
  destruct (Z.eqb_spec Src HSE); [contradiction|]. reflexivity.
Qed.

(** The four stores that rewrite the M and N fields. *)
Lemma PLL_MN_stores (N M : Z) (m : machine) :
  50 <= N <= 432 -> 2 <= M <= 63 ->
  exists m',
    (field (PLLCFGR (rcc m')) 0 6 = M /\ field (PLLCFGR (rcc m')) 6 9 = N /\
     modifies RCC_PLLCFGR (in_field 0 15) m m') /\
    forall (B : Type) (k : stmt B),
      (and_assign RCC_PLLCFGR (Z.lnot (Z.shiftl 0x3F 0)) ;;
       and_assign RCC_PLLCFGR (Z.lnot (Z.shiftl 0x1FF 6)) ;;
       or_assign RCC_PLLCFGR (Z.shiftl M 0) ;;
       or_assign RCC_PLLCFGR (uint32_t (Z.shiftl N 6)) ;; k) m = k m'.
Proof.
  intros HN HM. eexists. split; cycle 1.
  { intros B k. reflexivity. }
  unfold modifies, stores_since. cbn [rcc wlog].
  rewrite !PLLCFGR_get, !get_set_same.
  assert (HNs : uint32_t (Z.shiftl N 6) = Z.shiftl N 6).
  { apply uint32_small. rewrite Z.shiftl_mul_pow2 by lia.
    change (2 ^ 6) with 64. change (2 ^ 32) with 4294967296. lia. }
  rewrite HNs.
  assert (HN9 : 0 <= N < 2 ^ 9) by (change (2 ^ 9) with 512; lia).
  assert (HM6 : 0 <= M < 2 ^ 6) by (change (2 ^ 6) with 64; lia).
  set (p0 := get RCC_PLLCFGR (rcc m)).
  set (p1 := uint32_t (Z.land p0 (Z.lnot (Z.shiftl 63 0)))).
  set (p2 := uint32_t (Z.land p1 (Z.lnot (Z.shiftl 511 6)))).
  set (p3 := uint32_t (Z.lor p2 (Z.shiftl M 0))).
  set (p4 := uint32_t (Z.lor p3 (Z.shiftl N 6))).
  assert (H1 : forall i, 0 <= i < 32 ->
            Z.testbit p1 i = negb (in_field 0 6 i) && Z.testbit p0 i).
  { intros i Hi. apply clear_mask_spec; reflexivity || lia. }
  assert (H2 : forall i, 0 <= i < 32 ->
            Z.testbit p2 i = negb (in_field 6 9 i) && Z.testbit p1 i).
  { intros i Hi. apply clear_mask_spec; reflexivity || lia. }
  assert (H3 : forall i, 0 <= i < 32 ->
            Z.testbit p3 i
            = Z.testbit p2 i || (in_field 0 6 i && Z.testbit M (i - 0))).
  { intros i Hi. apply or_field_spec; lia. }
  assert (H4 : forall i, 0 <= i < 32 ->
            Z.testbit p4 i
            = Z.testbit p3 i || (in_field 6 9 i && Z.testbit N (i - 6))).
  { intros i Hi. apply or_field_spec; lia. }
  repeat split.
  - apply field_eq; try lia. intros i Hi.
    rewrite H4, H3, H2, H1 by lia. fields.
    replace (i + 0 - 0) with i by lia. apply orb_false_r.
  - apply field_eq; try lia. intros i Hi.
    rewrite H4, H3, H2, H1 by lia. fields.
    replace (i + 6 - 6) with i by lia. reflexivity.
  - intros i Hi Hout. apply in_field_false in Hout.
    rewrite H4, H3, H2, H1 by lia. fields.
    rewrite !orb_false_r. reflexivity.
  - intros r' Hr. rewrite !get_set_other by exact Hr. reflexivity.
  - match goal with
    | |- exists ws, ?a :: ?b :: ?c :: ?d :: wlog m = _ /\ _ =>
        exists [a; b; c; d]
    end.
    split; [reflexivity|].
    repeat constructor; cbn [w_new w_old]; intros i Hi Hout;
      apply in_field_false in Hout.
    + rewrite H4 by lia. fields. apply orb_false_r.
    + rewrite H3 by lia. fields. apply orb_false_r.
    + rewrite H2 by lia. fields. reflexivity.
    + rewrite H1 by lia. fields. reflexivity.
Qed.

(** The [switch] of [RCC_PLL_Config] on a division factor of the table:
    one store, which puts the code of the table into the P field. *)
Lemma PLL_P_store (M : Z) (m : machine) :
  M = 2 \/ M = 4 \/ M = 6 \/ M = 8 ->
  exists c m',
    In (M, c) PLLP_table /\ field_written RCC_PLLCFGR 16 2 c m m' /\
    forall (B : Type) (k : stmt B),
      ((if M =? 2 then
          and_assign RCC_PLLCFGR (Z.lnot (Z.shiftl 0x3 16))
        else if M =? 4 then
          v <- read RCC_PLLCFGR ;;
          write RCC_PLLCFGR
            (Z.lor (Z.land v (Z.lnot (Z.shiftl 0x3 16))) (Z.shiftl 1 16))
        else if M =? 6 then
          v <- read RCC_PLLCFGR ;;
          write RCC_PLLCFGR
            (Z.lor (Z.land v (Z.lnot (Z.shiftl 0x3 16))) (Z.shiftl 2 16))
        else if M =? 8 then
          v <- read RCC_PLLCFGR ;;
          write RCC_PLLCFGR
            (Z.lor (Z.land v (Z.lnot (Z.shiftl 0x3 16))) (Z.shiftl 3 16))
        else Return 1) ;; k) m = k m'.
Proof.
  intros [H | [H | [H | H]]]; subst M; cbn [Z.eqb Pos.eqb].
  - destruct (clear_field_written RCC_PLLCFGR 3 16 2 m) as (m' & W & K);
      [reflexivity|lia|lia|].
    exists 0, m'. split; [simpl; auto|]. split; [exact W|exact K].
  - destruct (set_field_written RCC_PLLCFGR 1 3 16 2 m) as (m' & W & K);
      [reflexivity|lia|lia|lia|change (2 ^ 2) with 4; lia|].
    exists 1, m'. split; [simpl; auto|]. split; [exact W|exact K].
  - destruct (set_field_written RCC_PLLCFGR 2 3 16 2 m) as (m' & W & K);
      [reflexivity|lia|lia|lia|change (2 ^ 2) with 4; lia|].
    exists 2, m'. split; [simpl; auto|]. split; [exact W|exact K].
  - destruct (set_field_written RCC_PLLCFGR 3 3 16 2 m) as (m' & W & K);
      [reflexivity|lia|lia|lia|change (2 ^ 2) with 4; lia|].
    exists 3, m'. split; [simpl; auto|]. split; [exact W|exact K].
Qed.

(** The [switch] on any other division factor: [return 1], nothing
    stored. *)
Lemma PLL_P_reject (M : Z) (m : machine) (B : Type) (k : stmt B) :
  M <> 2 -> M <> 4 -> M <> 6 -> M <> 8 ->
  ((if M =? 2 then
      and_assign RCC_PLLCFGR (Z.lnot (Z.shiftl 0x3 16))
    else if M =? 4 then
      v <- read RCC_PLLCFGR ;;
      write RCC_PLLCFGR
        (Z.lor (Z.land v (Z.lnot (Z.shiftl 0x3 16))) (Z.shiftl 1 16))
    else if M =? 6 then
      v <- read RCC_PLLCFGR ;;
      write RCC_PLLCFGR
        (Z.lor (Z.land v (Z.lnot (Z.shiftl 0x3 16))) (Z.shiftl 2 16))
    else if M =? 8 then
      v <- read RCC_PLLCFGR ;;
      write RCC_PLLCFGR
        (Z.lor (Z.land v (Z.lnot (Z.shiftl 0x3 16))) (Z.shiftl 3 16))
    else Return 1) ;; k) m = Some (Returned 1, m).
Proof.
  intros H2 H4 H6 H8.
  destruct (Z.eqb_spec M 2); [contradiction|].
  destruct (Z.eqb_spec M 4); [contradiction|].
  destruct (Z.eqb_spec M 6); [contradiction|].
  destruct (Z.eqb_spec M 8); [contradiction|]. reflexivity.
Qed.

(** ** PLL configuration: the runs *)

Section PLL_Config.

Variable hw : RCC_RegDef_t -> RCC_RegDef_t.

(** Every run of [RCC_PLL_Config] that returns, step by step: the PLL is
    switched off ([m1]); the hardware ticks until the lock bit reads clear
    ([m2]); then the call either refuses the source, or stores the source
    bit ([m3]) and either refuses N or M, or rewrites the M and N fields
    ([m4]) and either refuses the division factor, or stores the P code
    ([m5]), switches the PLL on ([m6]) and lets the hardware tick until
    the lock bit reads set. *)
Lemma PLL_Config_inv (fuel : nat) (N M Src : Z) (m : machine)
    (r : Z) (m' : machine) :
  RCC_PLL_Config hw fuel N M Src m = Some (r, m') ->
  exists m1 m2 n1,
    bit_written RCC_CR 24 false m m1 /\
    rcc m2 = Nat.iter n1 hw (rcc m1) /\ wlog m2 = wlog m1 /\
    Z.testbit (CR (rcc m2)) 25 = false /\
    ((Src <> HSI /\ Src <> HSE /\ r = 1 /\ m' = m2) \/
     exists m3,
       (Src = HSI \/ Src = HSE) /\
       bit_written RCC_PLLCFGR 22 (Src =? HSE) m2 m3 /\
       (((N < 50 \/ 432 < N \/ M < 2 \/ 63 < M) /\ r = 1 /\ m' = m3) \/
        exists m4,
          50 <= N <= 432 /\ 2 <= M <= 63 /\
          field (PLLCFGR (rcc m4)) 0 6 = M /\
          field (PLLCFGR (rcc m4)) 6 9 = N /\
          modifies RCC_PLLCFGR (in_field 0 15) m3 m4 /\
          ((M <> 2 /\ M <> 4 /\ M <> 6 /\ M <> 8 /\ r = 1 /\ m' = m4) \/
           exists c m5 m6 n2,
             In (M, c) PLLP_table /\
             field_written RCC_PLLCFGR 16 2 c m4 m5 /\
             bit_written RCC_CR 24 true m5 m6 /\
             rcc m' = Nat.iter n2 hw (rcc m6) /\ wlog m' = wlog m6 /\
             Z.testbit (CR (rcc m')) 25 = true /\ r = 0))).
Proof.
  intro H. unfold RCC_PLL_Config, call in H.
  destruct (and_assign_bit_then RCC_CR 24 m) as (m1 & W1 & K1); [lia|].
  rewrite K1 in H. unfold bind at 1 in H.
  destruct (while_poll hw _ fuel m1) as [[o m2]|] eqn:P1; [|discriminate H].
  apply while_poll_inv in P1. destruct P1 as (-> & Hl1 & Hc1 & n1 & _ & Hr1).
  exists m1, m2, n1. repeat (split; [assumption|]).
  split.
  { rewrite bit_test in Hc1 by lia. destruct (Z.testbit _ 25);
      [discriminate Hc1|reflexivity]. }
  assert (HS : Src = HSI \/ Src = HSE \/ (Src <> HSI /\ Src <> HSE))
    by (unfold HSI, HSE; lia).
  destruct HS as [HS | [HS | [HS1 HS2]]].
  3: { left. rewrite PLL_src_reject in H by assumption.
       inversion H. auto. }
  all: right;
    destruct (PLL_src_store Src m2) as (m3 & W3 & K3); [auto|];
    rewrite K3 in H; exists m3; split; [auto|]; split; [exact W3|];
    clear K3 K1.
  all: destruct ((N <? 50) || (432 <? N)) eqn:EN;
    destruct (range_test N 50 432) as [HNt HNf];
    [ rewrite Return_then in H; inversion H;
      left; split; [apply HNt in EN; lia|auto]
    | rewrite skip_then in H ].
  all: destruct ((M <? 2) || (63 <? M)) eqn:EM;
    destruct (range_test M 2 63) as [HMt HMf];
    [ rewrite Return_then in H; inversion H;
      left; split; [apply HMt in EM; lia|auto]
    | rewrite skip_then in H ].
  all: right; apply HNf in EN; apply HMf in EM;
    destruct (PLL_MN_stores N M m3 EN EM) as (m4 & (F1 & F2 & W4) & K4);
    rewrite K4 in H; exists m4; repeat (split; [assumption|]); clear K4.
  all: assert (HP : (M = 2 \/ M = 4 \/ M = 6 \/ M = 8) \/
                    (M <> 2 /\ M <> 4 /\ M <> 6 /\ M <> 8)) by lia;
    destruct HP as [HP | (H2 & H4 & H6 & H8)];
    [ right
    | left; rewrite PLL_P_reject in H by assumption; inversion H; auto 8 ].
  all: destruct (PLL_P_store M m4 HP) as (c & m5 & Hc & W5 & K5);
    rewrite K5 in H; clear K5;
    destruct (or_assign_bit_then RCC_CR 24 m5) as (m6 & W6 & K6); [lia|];
    rewrite K6 in H; clear K6; unfold bind at 1 in H;
    destruct (while_poll hw _ fuel m6) as [[o m7]|] eqn:P2; [|discriminate H];
    apply while_poll_inv in P2;
    destruct P2 as (-> & Hl2 & Hc2 & n2 & _ & Hr2);
    cbn [Return] in H; inversion H; subst;
    exists c, m5, m6, n2; repeat (split; [assumption|]);
    split; [|reflexivity];
    rewrite bit_test in Hc2 by lia;
    destruct (Z.testbit _ 25); [reflexivity|discriminate Hc2].
Qed.

(** On a hardware whose lock bit answers to the PLL enable bit, the call
    returns whatever its arguments, given enough fuel. *)
Lemma PLL_Config_returns (N M Src : Z) (m : machine) :
  responds hw 24 25 ->
  exists fuel r m', RCC_PLL_Config hw fuel N M Src m = Some (r, m').
Proof.
  intro Hresp.
  destruct (and_assign_bit_then RCC_CR 24 m) as (m1 & W1 & K1); [lia|].
  destruct (Hresp (rcc m1)) as (n1 & Hn1).
  destruct W1 as (Hb1 & _). cbn [get] in Hb1. rewrite Hb1 in Hn1.
  destruct (while_poll_done hw
              (fun RCC => negb (Z.land (Z.shiftr (CR RCC) 25) 1 =? 0)) n1 m1)
    as (k1 & _ & _ & Hrun1).
  { rewrite bit_test, Hn1 by lia. reflexivity. }
  set (m2 := mkMachine (Nat.iter k1 hw (rcc m1)) (wlog m1)) in Hrun1.
  assert (HS : Src = HSI \/ Src = HSE \/ (Src <> HSI /\ Src <> HSE))
    by (unfold HSI, HSE; lia).
  destruct HS as [HS | [HS | [HS1 HS2]]].
  3: { exists (S n1), 1, m2. unfold RCC_PLL_Config, call.
       rewrite K1. unfold bind at 1. rewrite Hrun1 by lia.
       rewrite PLL_src_reject by assumption. reflexivity. }
  all: destruct (PLL_src_store Src m2) as (m3 & _ & K3); [auto|].
  all: destruct ((N <? 50) || (432 <? N)) eqn:EN;
    [ exists (S n1), 1, m3; unfold RCC_PLL_Config, call;
      rewrite K1; unfold bind at 1; rewrite Hrun1 by lia;
      rewrite K3, check_reject by exact EN; reflexivity |].
  all: destruct ((M <? 2) || (63 <? M)) eqn:EM;
    [ exists (S n1), 1, m3; unfold RCC_PLL_Config, call;
      rewrite K1; unfold bind at 1; rewrite Hrun1 by lia;
      rewrite K3, check_pass by exact EN;
      rewrite check_reject by exact EM; reflexivity |].
  all: pose proof (proj1 (proj2 (range_test N 50 432)) EN) as HN;
    pose proof (proj1 (proj2 (range_test M 2 63)) EM) as HM;
    destruct (PLL_MN_stores N M m3 HN HM) as (m4 & _ & K4).
  all: assert (HP : (M = 2 \/ M = 4 \/ M = 6 \/ M = 8) \/
                    (M <> 2 /\ M <> 4 /\ M <> 6 /\ M <> 8)) by lia;
    destruct HP as [HP | (H2 & H4 & H6 & H8)];
    [| exists (S n1), 1, m4; unfold RCC_PLL_Config, call;
       rewrite K1; unfold bind at 1; rewrite Hrun1 by lia;
       rewrite K3, check_pass by exact EN;
       rewrite check_pass by exact EM;
       rewrite K4, PLL_P_reject by assumption; reflexivity ].
  all: destruct (PLL_P_store M m4 HP) as (c & m5 & _ & _ & K5);
    destruct (or_assign_bit_then RCC_CR 24 m5) as (m6 & W6 & K6); [lia|];
    destruct (Hresp (rcc m6)) as (n2 & Hn2);
    destruct W6 as (Hb6 & _); cbn [get] in Hb6; rewrite Hb6 in Hn2;
    destruct (while_poll_done hw
                (fun RCC => Z.land (Z.shiftr (CR RCC) 25) 1 =? 0) n2 m6)
      as (k2 & _ & _ & Hrun2);
    [ rewrite bit_test, Hn2 by lia; reflexivity |];
    exists (S (n1 + n2)), 0; eexists;
    unfold RCC_PLL_Config, call;
    rewrite K1; unfold bind at 1; rewrite Hrun1 by lia;
    rewrite K3, check_pass by exact EN;
    rewrite check_pass by exact EM;
    rewrite K4, K5, K6; unfold bind at 1; rewrite Hrun2 by lia;
    reflexivity.
Qed.

(** If the lock bit is set and never clears, the call returns for no
    fuel: it never gets past its first loop. *)
Lemma PLL_Config_hangs_unlocking (N M Src : Z) (m : machine) :
  Z.testbit (CR (rcc m)) 25 = true ->
  invariant hw (fun x => Z.testbit (CR x) 25 = true) ->
  forall fuel, RCC_PLL_Config hw fuel N M Src m = None.
Proof.
  intros H0 Hinv fuel. unfold RCC_PLL_Config, call.
  destruct (and_assign_bit_then RCC_CR 24 m) as (m1 & W1 & K1); [lia|].
  rewrite K1. unfold bind at 1.
  rewrite while_poll_stuck; [reflexivity|].
  intro n. rewrite bit_test by lia.
  rewrite (iter_invariant hw (fun x => Z.testbit (CR x) 25 = true));
    [reflexivity|exact Hinv|].
  destruct W1 as (_ & Hother & _). rewrite CR_get, Hother by lia. exact H0.
Qed.

(** If the lock bit is clear and never sets, a call with arguments that
    pass every test returns for no fuel: it never gets past its last
    loop. *)
Lemma PLL_Config_hangs_locking (N M Src : Z) (m : machine) :
  Src = HSI \/ Src = HSE -> 50 <= N <= 432 ->
  M = 2 \/ M = 4 \/ M = 6 \/ M = 8 ->
  Z.testbit (CR (rcc m)) 25 = false ->
  invariant hw (fun x => Z.testbit (CR x) 25 = false) ->
  forall fuel, RCC_PLL_Config hw fuel N M Src m = None.
Proof.
  intros HS HN HP H0 Hinv fuel. unfold RCC_PLL_Config, call.
  destruct (and_assign_bit_then RCC_CR 24 m) as (m1 & W1 & K1); [lia|].
  rewrite K1. unfold bind at 1.
  destruct (while_poll hw _ fuel m1) as [[o m2]|] eqn:P1; [|reflexivity].
  apply while_poll_inv in P1. destruct P1 as (-> & _ & _ & n1 & _ & Hr1).
  assert (H2 : Z.testbit (CR (rcc m2)) 25 = false).
  { rewrite Hr1.
    apply (iter_invariant hw (fun x => Z.testbit (CR x) 25 = false));
      [exact Hinv|].
    destruct W1 as (_ & Hother & _). rewrite CR_get, Hother by lia.
    exact H0. }
  destruct (PLL_src_store Src m2 HS) as (m3 & W3 & K3). rewrite K3.
  rewrite check_pass by (apply (range_test N 50 432); exact HN).
  assert (HM : 2 <= M <= 63) by lia.
  rewrite check_pass by (apply (range_test M 2 63); exact HM).
  destruct (PLL_MN_stores N M m3 HN HM) as (m4 & (_ & _ & W4) & K4).
  rewrite K4.
  destruct (PLL_P_store M m4 HP) as (c & m5 & _ & (_ & W5) & K5). rewrite K5.
  destruct (or_assign_bit_then RCC_CR 24 m5) as (m6 & W6 & K6); [lia|].
  rewrite K6. unfold bind at 1.
  rewrite while_poll_stuck; [reflexivity|].
  intro n. rewrite bit_test by lia.
  rewrite (iter_invariant hw (fun x => Z.testbit (CR x) 25 = false));
    [reflexivity|exact Hinv|].
  destruct W6 as (_ & Hother6 & _). rewrite CR_get, Hother6 by lia.
  destruct W5 as (_ & Hregs5 & _). rewrite Hregs5 by discriminate.
  destruct W4 as (_ & Hregs4 & _). rewrite Hregs4 by discriminate.
  destruct W3 as (_ & _ & Hregs3 & _). rewrite Hregs3 by discriminate.
  exact H2.
Qed.

End PLL_Config.

(** ** PLL configuration: the claims *)

(** C3.  For [Src] one of HSI and HSE, N from 50 to 432 and a division
    factor among 2, 4, 6, 8, on a hardware that keeps the PLL
    configuration register and the PLL enable bit and whose lock bit
    answers to the enable bit: [RCC_PLL_Config] returns 0 for some fuel,
    and whenever it returns it returns 0 with the M field (bits 5:0) equal
    to the division factor, the N field (bits 14:6) equal to N, the P
    field (bits 17:16) holding the code that the table gives for the
    division factor, bit 22 clear for HSI and set for HSE, and bits 24
    (PLL enable) and 25 (PLL locked) of the control register set. *)
Theorem PLL_Config_success
    (hw : RCC_RegDef_t -> RCC_RegDef_t) (N M Src : Z) (m : machine) :
  Src = HSI \/ Src = HSE -> 50 <= N <= 432 ->
  M = 2 \/ M = 4 \/ M = 6 \/ M = 8 ->
  (forall i, 0 <= i < 32 -> keeps hw RCC_PLLCFGR i) ->
  keeps hw RCC_CR 24 -> responds hw 24 25 ->
  (exists fuel m', RCC_PLL_Config hw fuel N M Src m = Some (0, m')) /\
  (forall fuel r m',
      RCC_PLL_Config hw fuel N M Src m = Some (r, m') ->
      r = 0 /\
      field (PLLCFGR (rcc m')) 0 6 = M /\
      field (PLLCFGR (rcc m')) 6 9 = N /\
      In (M, field (PLLCFGR (rcc m')) 16 2) PLLP_table /\
      Z.testbit (PLLCFGR (rcc m')) 22 = (Src =? HSE) /\
      Z.testbit (CR (rcc m')) 24 = true /\
      Z.testbit (CR (rcc m')) 25 = true).
Proof.
  intros HS HN HP Kp Ke Hresp.
  assert (Hsafe : forall fuel r m',
      RCC_PLL_Config hw fuel N M Src m = Some (r, m') ->
      r = 0 /\
      field (PLLCFGR (rcc m')) 0 6 = M /\
      field (PLLCFGR (rcc m')) 6 9 = N /\
      In (M, field (PLLCFGR (rcc m')) 16 2) PLLP_table /\
      Z.testbit (PLLCFGR (rcc m')) 22 = (Src =? HSE) /\
      Z.testbit (CR (rcc m')) 24 = true /\
      Z.testbit (CR (rcc m')) 25 = true).
  { intros fuel r m' H.
    destruct (PLL_Config_inv hw fuel N M Src m r m' H)
      as (m1 & m2 & n1 & W1 & Hr1 & Hl1 & Hc1 & Hrest).
    destruct Hrest as [(H1 & H2 & _) | (m3 & _ & W3 & Hrest)];
      [unfold HSI, HSE in *; lia|].
    destruct Hrest as [(Hbad & _) | (m4 & _ & _ & F1 & F2 & W4 & Hrest)];
      [lia|].
    destruct Hrest
      as [(H2 & H4 & H6 & H8 & _) |
          (c & m5 & m6 & n2 & Hc & (F3 & W5) & W6 & Hr2 & Hl2 & Hlock & Hr)];
      [lia|].
    (* every bit of PLLCFGR is, on return, as the P store left it *)
    assert (Hp : forall i, 0 <= i < 32 ->
              Z.testbit (PLLCFGR (rcc m')) i = Z.testbit (PLLCFGR (rcc m5)) i).
    { intros i Hi. to_get.
      rewrite (ticks_frame hw m6 m' n2) by auto.
      apply (modifies_frame RCC_CR _ m5 m6 RCC_PLLCFGR i
               (bit_written_modifies _ _ _ _ _ W6)); [exact Hi|].
      discriminate. }
    assert (Hp4 : forall i, 0 <= i < 32 -> in_field 16 2 i = false ->
              Z.testbit (PLLCFGR (rcc m5)) i = Z.testbit (PLLCFGR (rcc m4)) i).
    { intros i Hi Hout. to_get.
      apply (modifies_frame _ _ _ _ _ _ W5); auto. }
    split; [exact Hr|]. split; [|split; [|split; [|split; [|split]]]].
    - rewrite <- F1. apply field_ext; try lia. intros i Hi.
      rewrite Hp, Hp4 by (try apply in_field_false; lia). reflexivity.
    - rewrite <- F2. apply field_ext; try lia. intros i Hi.
      rewrite Hp, Hp4 by (try apply in_field_false; lia). reflexivity.
    - replace (field (PLLCFGR (rcc m')) 16 2) with c; [exact Hc|].
      rewrite <- F3. apply field_ext; try lia. intros i Hi.
      symmetry. apply Hp. lia.
    - rewrite Hp, Hp4 by (try apply in_field_false; lia). to_get.
      rewrite (modifies_frame _ _ _ _ RCC_PLLCFGR 22 W4);
        [|lia|intros _; apply in_field_false; lia].
      apply W3.
    - to_get. rewrite (ticks_frame hw m6 m' n2) by auto. apply W6.
    - exact Hlock. }
  split; [|exact Hsafe].
  destruct (PLL_Config_returns hw N M Src m Hresp) as (fuel & r & m' & H).
  exists fuel, m'. destruct (Hsafe fuel r m' H) as (-> & _). exact H.
Qed.

(** The example of the specification: N = 50, division factor 2, internal
    oscillator, from the boot state on the prompt hardware. *)
Lemma PLL_Config_success_witness :
  exists m',
    RCC_PLL_Config hw_prompt 2 50 2 HSI boot = Some (0, m') /\
    field (PLLCFGR (rcc m')) 0 6 = 2 /\
    field (PLLCFGR (rcc m')) 6 9 = 50 /\
    In (2, field (PLLCFGR (rcc m')) 16 2) PLLP_table /\
    Z.testbit (PLLCFGR (rcc m')) 22 = false /\
    Z.testbit (CR (rcc m')) 24 = true /\
    Z.testbit (CR (rcc m')) 25 = true.
Proof.
  destruct (PLL_Config_success hw_prompt 50 2 HSI boot) as [_ Hsafe].
  - left. reflexivity.
  - lia.
  - left. reflexivity.
  - intros i Hi. apply hw_prompt_keeps_other; discriminate.
  - apply hw_prompt_keeps_CR; lia.
  - apply (hw_prompt_responds PLL). auto.
  - eexists. split; [vm_compute; reflexivity|].
    match goal with
    | |- context [rcc ?X] => specialize (Hsafe 2%nat 0 X)
    end.
    destruct Hsafe as (_ & Hrest); [vm_compute; reflexivity|]. exact Hrest.
Defined.

(** C4.  For [Src] one of HSI and HSE, N from 50 to 432 and a division
    factor from 2 to 63 that is none of 2, 4, 6, 8: whenever
    [RCC_PLL_Config] returns it returns 1, and by then the M field (bits
    5:0) of the PLL configuration register holds the division factor and
    the N field (bits 14:6) holds N, while the PLL enable bit (bit 24 of
    the control register) is clear on a hardware that keeps that bit.  The
    call does return, for some fuel, on a hardware whose lock bit answers
    to the enable bit. *)
Theorem PLL_Config_partial_failure
    (hw : RCC_RegDef_t -> RCC_RegDef_t) (N M Src : Z) (m : machine) :
  Src = HSI \/ Src = HSE -> 50 <= N <= 432 -> 2 <= M <= 63 ->
  M <> 2 -> M <> 4 -> M <> 6 -> M <> 8 ->
  (forall fuel r m',
      RCC_PLL_Config hw fuel N M Src m = Some (r, m') ->
      r = 1 /\
      field (PLLCFGR (rcc m')) 0 6 = M /\
      field (PLLCFGR (rcc m')) 6 9 = N /\
      (keeps hw RCC_CR 24 -> Z.testbit (CR (rcc m')) 24 = false)) /\
  (responds hw 24 25 ->
   exists fuel m', RCC_PLL_Config hw fuel N M Src m = Some (1, m')).
Proof.
  intros HS HN HM H2 H4 H6 H8.
  assert (Hsafe : forall fuel r m',
      RCC_PLL_Config hw fuel N M Src m = Some (r, m') ->
      r = 1 /\
      field (PLLCFGR (rcc m')) 0 6 = M /\
      field (PLLCFGR (rcc m')) 6 9 = N /\
      (keeps hw RCC_CR 24 -> Z.testbit (CR (rcc m')) 24 = false)).
  { intros fuel r m' H.
    destruct (PLL_Config_inv hw fuel N M Src m r m' H)
      as (m1 & m2 & n1 & W1 & Hr1 & Hl1 & Hc1 & Hrest).
    destruct Hrest as [(Hs1 & Hs2 & _) | (m3 & _ & W3 & Hrest)];
      [unfold HSI, HSE in *; lia|].
    destruct Hrest as [(Hbad & _) | (m4 & _ & _ & F1 & F2 & W4 & Hrest)];
      [lia|].
    destruct Hrest as [(_ & _ & _ & _ & Hr & ->) | (c & _ & _ & _ & Hc & _)].
    - repeat (split; [assumption|]). intro Ke. to_get.
      rewrite (modifies_frame _ _ _ _ RCC_CR 24 W4) by (lia || discriminate).
      rewrite (modifies_frame _ _ _ _ RCC_CR 24
                 (bit_written_modifies _ _ _ _ _ W3))
        by (lia || discriminate).
      rewrite (ticks_frame hw m1 m2 n1) by auto. apply W1.
    - simpl in Hc.
      destruct Hc as [Hc | [Hc | [Hc | [Hc | []]]]]; inversion Hc; lia. }
  split; [exact Hsafe|]. intro Hresp.
  destruct (PLL_Config_returns hw N M Src m Hresp) as (fuel & r & m' & H).
  exists fuel, m'. destruct (Hsafe fuel r m' H) as (-> & _). exact H.
Qed.

(** The example of the specification: N = 50 with division factor 3, from
    the state in which the PLL runs with M = 16 and N = 192, on the prompt
    hardware.  The call fails with the fields already at 3 and 50 and the
    PLL off. *)
Lemma PLL_Config_partial_failure_witness :
  (exists m',
      RCC_PLL_Config hw_prompt 2 50 3 HSI pll_locked = Some (1, m') /\
      field (PLLCFGR (rcc m')) 0 6 = 3 /\
      field (PLLCFGR (rcc m')) 6 9 = 50 /\
      Z.testbit (CR (rcc m')) 24 = false /\
      field (PLLCFGR (rcc pll_locked)) 0 6 = 16 /\
      field (PLLCFGR (rcc pll_locked)) 6 9 = 192) /\
  (exists fuel m',
      RCC_PLL_Config hw_prompt fuel 50 3 HSI pll_locked = Some (1, m')).
Proof.
  destruct (PLL_Config_partial_failure hw_prompt 50 3 HSI pll_locked)
    as [Hsafe Hlive]; [left; reflexivity|lia|lia|lia|lia|lia|lia|].
  split.
  - eexists. split; [vm_compute; reflexivity|].
    match goal with
    | |- context [rcc ?X] => specialize (Hsafe 2%nat 1 X)
    end.
    destruct Hsafe as (_ & F1 & F2 & F3); [vm_compute; reflexivity|].
    split; [exact F1|]. split; [exact F2|].
    split; [apply F3, hw_prompt_keeps_CR; lia|].
    split; reflexivity.
  - apply Hlive. apply (hw_prompt_responds PLL). auto.
Defined.

(** C2, as the specification states it, fails.  With N = 433, on a machine
    whose PLL is running (control register 0x03000083) and whose log of
    stores is empty, the call is refused, but only after two stores: the
    PLL has been switched off in the control register (0x02000083 stored,
    the lock bit then dropped by the hardware), and the source bit 22 of
    the PLL configuration register has been set for HSE (0x24003010
    became 0x24403010). *)
Lemma PLL_Config_bad_multiplier_counterexample :
  RCC_PLL_Config hw_prompt 2 433 2 HSE
    (mkMachine (regs_with 0x3000083 0x24003010) [])
  = Some (1, mkMachine (regs_with 0x83 0x24403010)
                       [mkWrite RCC_PLLCFGR 0x24003010 0x24403010;
                        mkWrite RCC_CR 0x3000083 0x2000083]).
Proof. vm_compute. reflexivity. Qed.

(** C2, amended.  For N outside 50..432, whatever the division factor and
    the source: whenever [RCC_PLL_Config] returns it returns 1; its
    stores are the one that clears the PLL enable bit (bit 24 of the
    control register), made before the wait for the lock bit, and, for
    [Src] one of HSI and HSE, the one that writes the source bit 22 of the
    PLL configuration register; so every other bit of that register that
    the hardware keeps, the M, N and P fields among them, holds what it
    held.  The call does return, for some fuel, on a hardware whose lock
    bit answers to the enable bit. *)
Theorem PLL_Config_bad_multiplier
    (hw : RCC_RegDef_t -> RCC_RegDef_t) (N M Src : Z) (m : machine) :
  N < 50 \/ 432 < N ->
  (forall fuel r m',
      RCC_PLL_Config hw fuel N M Src m = Some (r, m') ->
      r = 1 /\
      (exists m1 m2 n1,
          bit_written RCC_CR 24 false m m1 /\
          rcc m2 = Nat.iter n1 hw (rcc m1) /\ wlog m2 = wlog m1 /\
          ((Src <> HSI /\ Src <> HSE /\ m' = m2) \/
           ((Src = HSI \/ Src = HSE) /\
            bit_written RCC_PLLCFGR 22 (Src =? HSE) m2 m'))) /\
      (forall i, 0 <= i < 32 -> i <> 22 -> keeps hw RCC_PLLCFGR i ->
         Z.testbit (PLLCFGR (rcc m')) i = Z.testbit (PLLCFGR (rcc m)) i)) /\
  (responds hw 24 25 ->
   exists fuel m', RCC_PLL_Config hw fuel N M Src m = Some (1, m')).
Proof.
  intro HN.
  assert (Hsafe : forall fuel r m',
      RCC_PLL_Config hw fuel N M Src m = Some (r, m') ->
      r = 1 /\
      (exists m1 m2 n1,
          bit_written RCC_CR 24 false m m1 /\
          rcc m2 = Nat.iter n1 hw (rcc m1) /\ wlog m2 = wlog m1 /\
          ((Src <> HSI /\ Src <> HSE /\ m' = m2) \/
           ((Src = HSI \/ Src = HSE) /\
            bit_written RCC_PLLCFGR 22 (Src =? HSE) m2 m'))) /\
      (forall i, 0 <= i < 32 -> i <> 22 -> keeps hw RCC_PLLCFGR i ->
         Z.testbit (PLLCFGR (rcc m')) i = Z.testbit (PLLCFGR (rcc m)) i)).
  { intros fuel r m' H.
    destruct (PLL_Config_inv hw fuel N M Src m r m' H)
      as (m1 & m2 & n1 & W1 & Hr1 & Hl1 & Hc1 & Hrest).
    assert (H12 : forall i, 0 <= i < 32 -> keeps hw RCC_PLLCFGR i ->
              Z.testbit (PLLCFGR (rcc m2)) i = Z.testbit (PLLCFGR (rcc m)) i).
    { intros i Hi K. to_get. rewrite (ticks_frame hw m1 m2 n1) by auto.
      apply (modifies_frame _ _ _ _ _ _ (bit_written_modifies _ _ _ _ _ W1));
        [exact Hi|discriminate]. }
    destruct Hrest as [(Hs1 & Hs2 & -> & ->) | (m3 & HS & W3 & Hrest)].
    - split; [reflexivity|]. split.
      + exists m1, m2, n1. auto 8.
      + intros i Hi _ K. apply H12; assumption.
    - destruct Hrest as [(_ & -> & ->) | (m4 & HN' & _)]; [|lia].
      split; [reflexivity|]. split.
      + exists m1, m2, n1. auto 8.
      + intros i Hi H22 K. rewrite <- H12 by assumption. to_get.
        apply (modifies_frame _ _ _ _ _ _
                 (bit_written_modifies _ _ _ _ _ W3)); [exact Hi|].
        intros _. apply Z.eqb_neq. exact H22. }
  split; [exact Hsafe|]. intro Hresp.
  destruct (PLL_Config_returns hw N M Src m Hresp) as (fuel & r & m' & H).
  exists fuel, m'. destruct (Hsafe fuel r m' H) as (-> & _). exact H.
Qed.

(** The example of the specification, N = 433, from the boot state on the
    prompt hardware: refused, with bit 4 (in the M field) as it was; and
    refused, for some fuel, whatever the source. *)
Lemma PLL_Config_bad_multiplier_witness :
  (exists m',
      RCC_PLL_Config hw_prompt 2 433 2 HSI boot = Some (1, m') /\
      Z.testbit (PLLCFGR (rcc m')) 4 = Z.testbit (PLLCFGR (rcc boot)) 4) /\
  (exists fuel m', RCC_PLL_Config hw_prompt fuel 433 2 PLL boot = Some (1, m')).
Proof.
  split.
  - destruct (PLL_Config_bad_multiplier hw_prompt 433 2 HSI boot)
      as [Hsafe _]; [lia|].
    eexists. split; [vm_compute; reflexivity|].
    match goal with
    | |- context [rcc ?X] => specialize (Hsafe 2%nat 1 X)
    end.
    destruct Hsafe as (_ & _ & F); [vm_compute; reflexivity|].
    apply F; [lia|lia|]. apply hw_prompt_keeps_other; discriminate.
  - destruct (PLL_Config_bad_multiplier hw_prompt 433 2 PLL boot)
      as [_ Hlive]; [lia|].
    apply Hlive. apply (hw_prompt_responds PLL). auto.
Defined.

(** C10.  A call of [RCC_PLL_Config] that returns 0 has stored to the
    control register and to the PLL configuration register only, and each
    of its stores left every bit outside the footprint as it found it:
    outside bit 24 in the control register, outside the fields 5:0, 14:6,
    17:16 and bit 22 in the PLL configuration register.  So every bit of
    every register that is outside the footprint, and that the hardware
    keeps, holds on return what it held at the call. *)
Theorem PLL_Config_footprint
    (hw : RCC_RegDef_t -> RCC_RegDef_t) (fuel : nat) (N M Src : Z)
    (m m' : machine) :
  RCC_PLL_Config hw fuel N M Src m = Some (0, m') ->
  (exists ws, stores_since m m' ws /\ Forall (within PLL_footprint) ws) /\
  (forall r i, 0 <= i < 32 -> keeps hw r i -> PLL_footprint r i = false ->
               Z.testbit (get r (rcc m')) i = Z.testbit (get r (rcc m)) i).
Proof.
  intro H.
  destruct (PLL_Config_inv hw fuel N M Src m 0 m' H)
    as (m1 & m2 & n1 & W1 & Hr1 & Hl1 & Hc1 & Hrest).
  destruct Hrest as [(_ & _ & Hr & _) | (m3 & HS & W3 & Hrest)];
    [discriminate Hr|].
  destruct Hrest as [(_ & Hr & _) | (m4 & HN & HM & F1 & F2 & W4 & Hrest)];
    [discriminate Hr|].
  destruct Hrest
    as [(_ & _ & _ & _ & Hr & _) |
        (c & m5 & m6 & n2 & Hc & (F3 & W5) & W6 & Hr2 & Hl2 & Hlock & _)];
    [discriminate Hr|].
  pose proof (bit_written_modifies _ _ _ _ _ W1) as V1.
  pose proof (bit_written_modifies _ _ _ _ _ W3) as V3.
  pose proof (bit_written_modifies _ _ _ _ _ W6) as V6.
  split.
  - destruct V1 as (_ & _ & ws1 & S1 & T1).
    destruct V3 as (_ & _ & ws3 & S3 & T3).
    destruct W4 as (_ & _ & ws4 & S4 & T4).
    destruct W5 as (_ & _ & ws5 & S5 & T5).
    destruct V6 as (_ & _ & ws6 & S6 & T6).
    exists (ws6 ++ ws5 ++ ws4 ++ ws3 ++ ws1). split.
    + unfold stores_since in *.
      rewrite Hl2, S6, S5, S4, S3, Hl1, S1. rewrite <- !app_assoc.
      reflexivity.
    + repeat rewrite Forall_app. repeat split.
      * apply (touches_within PLL_footprint _ _ _ (or_introl eq_refl)) in T6;
          [exact T6|]. intros i Hi Hf. exact Hf.
      * apply (touches_within PLL_footprint _ _ _ (or_intror eq_refl)) in T5;
          [exact T5|]. cbn [PLL_footprint]. unfold in_field.
        intros i Hi Hf. lia.
      * apply (touches_within PLL_footprint _ _ _ (or_intror eq_refl)) in T4;
          [exact T4|]. cbn [PLL_footprint]. unfold in_field.
        intros i Hi Hf. lia.
      * apply (touches_within PLL_footprint _ _ _ (or_intror eq_refl)) in T3;
          [exact T3|]. cbn [PLL_footprint]. unfold in_field.
        intros i Hi Hf. lia.
      * apply (touches_within PLL_footprint _ _ _ (or_introl eq_refl)) in T1;
          [exact T1|]. intros i Hi Hf. exact Hf.
  - intros r i Hi K Hf.
    rewrite (ticks_frame hw m6 m' n2) by assumption.
    rewrite (modifies_frame _ _ _ _ r i V6)
      by (try assumption; intros ->; exact Hf).
    rewrite (modifies_frame _ _ _ _ r i W5)
      by (try assumption; intros ->; cbn [PLL_footprint] in Hf;
          unfold in_field in *; lia).
    rewrite (modifies_frame _ _ _ _ r i W4)
      by (try assumption; intros ->; cbn [PLL_footprint] in Hf;
          unfold in_field in *; lia).
    rewrite (modifies_frame _ _ _ _ r i V3)
      by (try assumption; intros ->; cbn [PLL_footprint] in Hf;
          unfold in_field in *; lia).
    rewrite (ticks_frame hw m1 m2 n1) by assumption.
    apply (modifies_frame _ _ _ _ r i V1); [assumption|].
    intros ->. exact Hf.
Qed.

(** A successful call from the boot state on the prompt hardware: the
    stores stay within the footprint, and bit 29 of the PLL configuration
    register (part of the untouched upper fields) is as it was. *)
Lemma PLL_Config_footprint_witness :
  exists m',
    RCC_PLL_Config hw_prompt 2 50 2 HSI boot = Some (0, m') /\
    (exists ws, stores_since boot m' ws /\ Forall (within PLL_footprint) ws) /\
    Z.testbit (get RCC_PLLCFGR (rcc m')) 29
    = Z.testbit (get RCC_PLLCFGR (rcc boot)) 29.
Proof.
  eexists. split; [vm_compute; reflexivity|].
  match goal with
  | |- context [stores_since boot ?X] =>
      destruct (PLL_Config_footprint hw_prompt 2 50 2 HSI boot X)
        as [Hlog Hbits]
  end.
  - vm_compute. reflexivity.
  - split; [exact Hlog|].
    apply Hbits; [lia| |reflexivity].
    apply hw_prompt_keeps_other; discriminate.
Defined.

(** ** No wait is bounded *)

(** C7.  Each of the four loops of the driver is left only through its
    test, whatever the fuel.  [RCC_SetClkStatus] returns, always 0, only
    with the ready bit at [Clk_Type + 1] set, and never if that bit is
    clear and the hardware never sets it.  [RCC_PLL_Config] returns 0 or
    1, returns 0 only with the lock bit 25 set, never returns if the lock
    bit is set and never clears, and with arguments that pass every test
    never returns if the lock bit is clear and never sets.
    [RCC_SetSysClk], for a request from 0 to 3, returns, always 0, only
    with the confirmation field equal to the request, and never if the
    confirmation field differs from the request and the hardware never
    makes them equal.  In none of these cases is there a fuel for which
    the call returns an error instead. *)
Theorem polling_never_times_out (hw : RCC_RegDef_t -> RCC_RegDef_t) :
  (forall k st m, 0 <= k <= 30 ->
     (forall fuel r m',
         RCC_SetClkStatus hw fuel k st m = Some (r, m') ->
         r = 0 /\ Z.testbit (CR (rcc m')) (k + 1) = true) /\
     (Z.testbit (CR (rcc m)) (k + 1) = false ->
      invariant hw (fun x => Z.testbit (CR x) (k + 1) = false) ->
      forall fuel, RCC_SetClkStatus hw fuel k st m = None)) /\
  (forall N M Src m,
     (forall fuel r m',
         RCC_PLL_Config hw fuel N M Src m = Some (r, m') ->
         (r = 0 \/ r = 1) /\
         (r = 0 -> Z.testbit (CR (rcc m')) 25 = true)) /\
     (Z.testbit (CR (rcc m)) 25 = true ->
      invariant hw (fun x => Z.testbit (CR x) 25 = true) ->
      forall fuel, RCC_PLL_Config hw fuel N M Src m = None) /\
     (Src = HSI \/ Src = HSE -> 50 <= N <= 432 ->
      M = 2 \/ M = 4 \/ M = 6 \/ M = 8 ->
      Z.testbit (CR (rcc m)) 25 = false ->
      invariant hw (fun x => Z.testbit (CR x) 25 = false) ->
      forall fuel, RCC_PLL_Config hw fuel N M Src m = None)) /\
  (forall v m, 0 <= v <= 3 ->
     (forall fuel r m',
         RCC_SetSysClk hw fuel v m = Some (r, m') ->
         r = 0 /\ field (CFGR (rcc m')) 2 2 = v) /\
     (field (CFGR (rcc m)) 2 2 <> v ->
      invariant hw (fun x => field (CFGR x) 2 2 <> v) ->
      forall fuel, RCC_SetSysClk hw fuel v m = None)).
Proof.
  split; [|split].
  - intros k st m Hk. split.
    + intros fuel r m' H.
      destruct (SetClkStatus_inv hw fuel k st m r m' Hk H) as (Hr & Hb & _).
      split; assumption.
    + apply SetClkStatus_hangs. exact Hk.
  - intros N M Src m. split; [|split].
    + intros fuel r m' H.
      destruct (PLL_Config_inv hw fuel N M Src m r m' H)
        as (m1 & m2 & n1 & _ & _ & _ & _ & Hrest).
      destruct Hrest as [(_ & _ & -> & _) | (m3 & _ & _ & Hrest)].
      { split; [right; reflexivity|discriminate]. }
      destruct Hrest as [(_ & -> & _) | (m4 & _ & _ & _ & _ & _ & Hrest)].
      { split; [right; reflexivity|discriminate]. }
      destruct Hrest
        as [(_ & _ & _ & _ & -> & _) |
            (c & m5 & m6 & n2 & _ & _ & _ & _ & _ & Hlock & ->)].
      { split; [right; reflexivity|discriminate]. }
      split; [left; reflexivity|intros _; exact Hlock].
    + apply PLL_Config_hangs_unlocking.
    + apply PLL_Config_hangs_locking.
  - intros v m Hv. split.
    + intros fuel r m' H.
      destruct (SetSysClk_inv hw fuel v m r m' Hv H) as (Hr & Hf & _).
      split; assumption.
    + apply SetSysClk_hangs. exact Hv.
Qed.

(** On the dead hardware, with fuel for a thousand polls: switching the
    external oscillator on, reconfiguring a running PLL, configuring a
    stopped PLL and selecting the external oscillator as system clock all
    fail to return. *)
Lemma polling_never_times_out_witness :
  RCC_SetClkStatus hw_dead 1000 HSE ON boot = None /\
  RCC_PLL_Config hw_dead 1000 50 2 HSI pll_locked = None /\
  RCC_PLL_Config hw_dead 1000 50 2 HSI boot = None /\
  RCC_SetSysClk hw_dead 1000 1 boot = None.
Proof.
  destruct (polling_never_times_out hw_dead) as (H1 & H2 & H3).
  destruct (H1 HSE ON boot) as (_ & Hclk); [unfold HSE; lia|].
  destruct (H2 50 2 HSI pll_locked) as (_ & Hunlock & _).
  destruct (H2 50 2 HSI boot) as (_ & _ & Hlock).
  destruct (H3 1 boot) as (_ & Hsw); [lia|].
  split; [|split; [|split]].
  - apply Hclk; [reflexivity|apply hw_dead_invariant].
  - apply Hunlock; [reflexivity|apply hw_dead_invariant].
  - apply Hlock;
      [left; reflexivity|lia|left; reflexivity|reflexivity|
       apply hw_dead_invariant].
  - apply Hsw; [vm_compute; discriminate|apply hw_dead_invariant].
Defined.

(** ** Idempotence of enabling *)

(** C9.  Enabling is idempotent.  For a clock source whose enable bit is
    set in a 32-bit control register, [RCC_SetClkStatus] with ON stores
    the word that was there, so that whenever the call returns it returns
    0 and the register block is what the hardware made of the one at the
    call; if the ready bit is set too the call returns 0 at the first
    poll with the register block unchanged, and if the hardware sets the
    ready bit after some ticks the call returns 0 for some fuel.  For a
    peripheral position 0 to 31 whose bit is set in a 32-bit enable
    register, the enable function of each bus domain returns 0 with the
    register block unchanged.  And running an enable a second time, after
    a first run that returned 0, returns 0 and leaves the register block
    as the first run left it (for the clock sources, on a hardware that
    keeps the enable bit and the width of the control register). *)
Theorem enabling_is_idempotent :
  (forall hw k m,
      0 <= k <= 30 -> 0 <= CR (rcc m) < 2 ^ 32 ->
      Z.testbit (CR (rcc m)) k = true ->
      (forall fuel r m',
          RCC_SetClkStatus hw fuel k ON m = Some (r, m') ->
          r = 0 /\
          wlog m' = mkWrite RCC_CR (CR (rcc m)) (CR (rcc m)) :: wlog m /\
          exists n, rcc m' = Nat.iter n hw (rcc m)) /\
      (Z.testbit (CR (rcc m)) (k + 1) = true ->
       forall fuel, exists m',
         RCC_SetClkStatus hw (S fuel) k ON m = Some (0, m') /\
         rcc m' = rcc m) /\
      (forall n, Z.testbit (CR (Nat.iter n hw (rcc m))) (k + 1) = true ->
       exists fuel m', RCC_SetClkStatus hw fuel k ON m = Some (0, m'))) /\
  (forall b p m,
      0 <= p <= 31 -> 0 <= get (ENR b) (rcc m) < 2 ^ 32 ->
      Z.testbit (get (ENR b) (rcc m)) p = true ->
      exists m', RCC_EnableClk b p m = Some (0, m') /\ rcc m' = rcc m) /\
  (forall b p m m1,
      0 <= p <= 31 -> RCC_EnableClk b p m = Some (0, m1) ->
      exists m2, RCC_EnableClk b p m1 = Some (0, m2) /\ rcc m2 = rcc m1) /\
  (forall hw k fuel m m1,
      0 <= k <= 30 -> keeps hw RCC_CR k ->
      invariant hw (fun x => 0 <= CR x < 2 ^ 32) ->
      RCC_SetClkStatus hw fuel k ON m = Some (0, m1) ->
      forall fuel', exists m2,
        RCC_SetClkStatus hw (S fuel') k ON m1 = Some (0, m2) /\
        rcc m2 = rcc m1).
Proof.
  split; [exact SetClkStatus_ON_again|].
  split; [exact RCC_EnableClk_again|]. split.
  - intros b p m m1 Hp H. rewrite RCC_EnableClk_result in H by exact Hp.
    inversion H as [Hm1]. clear H.
    apply RCC_EnableClk_again; [exact Hp| |]; cbn [rcc];
      rewrite get_set_same.
    + apply uint32_range.
    + rewrite set_bit_spec, Z.eqb_refl by lia. reflexivity.
  - intros hw k fuel m m1 Hk Kk Kr H fuel'.
    rewrite (SetClkStatus_after_store hw fuel k ON m _ eq_refl) in H.
    destruct (while_poll _ _ fuel _) as [[o m2]|] eqn:P; [|discriminate H].
    apply while_poll_inv in P. destruct P as (_ & _ & Hc & n & _ & Hr).
    inversion H; subst m2. clear H. cbn [rcc] in Hr.
    rewrite bit_test in Hc by lia. apply negb_false_iff in Hc.
    assert (Hv1 : 0 <= CR (rcc m1) < 2 ^ 32).
    { rewrite Hr.
      apply (iter_invariant hw (fun x => 0 <= CR x < 2 ^ 32)); [exact Kr|].
      rewrite CR_get, get_set_same. apply uint32_range. }
    assert (Hb1 : Z.testbit (CR (rcc m1)) k = true).
    { rewrite Hr, CR_get, iter_keeps, get_set_same by exact Kk.
      rewrite set_bit_spec, Z.eqb_refl by lia. reflexivity. }
    destruct (SetClkStatus_ON_again hw k m1 Hk Hv1 Hb1) as (_ & Hnow & _).
    apply Hnow. exact Hc.
Qed.

(** From the boot state, where the internal oscillator is on and ready:
    switching it on again returns 0 at the first poll with no register
    changed, also a second time; and GPIOA, once enabled on AHB1, is
    enabled a second time with no register changed. *)
Lemma enabling_is_idempotent_witness :
  (exists m', RCC_SetClkStatus hw_prompt 1 HSI ON boot = Some (0, m') /\
              rcc m' = rcc boot) /\
  (exists m1, RCC_EnableClk AHB1 0 boot = Some (0, m1) /\
     exists m2, RCC_EnableClk AHB1 0 m1 = Some (0, m2) /\ rcc m2 = rcc m1) /\
  (exists m1, RCC_SetClkStatus hw_dead 1 HSI ON boot = Some (0, m1) /\
     exists m2, RCC_SetClkStatus hw_dead 1 HSI ON m1 = Some (0, m2) /\
                rcc m2 = rcc m1).
Proof.
  destruct enabling_is_idempotent as (H1 & _ & H3 & H4).
  split; [|split].
  - destruct (H1 hw_prompt HSI boot) as (_ & Hnow & _).
    + unfold HSI. lia.
    + cbv. split; [discriminate|reflexivity].
    + reflexivity.
    + apply (Hnow eq_refl 0%nat).
  - eexists. split; [vm_compute; reflexivity|].
    match goal with
    | |- exists m2, RCC_EnableClk AHB1 0 ?X = _ /\ _ =>
        apply (H3 AHB1 0 boot X)
    end.
    + lia.
    + vm_compute. reflexivity.
  - eexists. split; [vm_compute; reflexivity|].
    match goal with
    | |- exists m2, RCC_SetClkStatus hw_dead 1 HSI ON ?X = _ /\ _ =>
        apply (H4 hw_dead HSI 1%nat boot X)
    end.
    + unfold HSI. lia.
    + intro x. reflexivity.
    + apply hw_dead_invariant.
    + vm_compute. reflexivity.
Defined.


(** * Further properties of the driver *)

(** ** Gating: round trips, idempotence, commutation *)

(** Two register blocks are equal if they agree outside one register and
    that register holds, in both, the same 32 bits. *)
Lemma regs_eq_by_bits (r0 : reg) (a b : RCC_RegDef_t) :
  (forall r, r <> r0 -> get r a = get r b) ->
  0 <= get r0 a < 2 ^ 32 -> 0 <= get r0 b < 2 ^ 32 ->
  (forall i, 0 <= i < 32 ->
             Z.testbit (get r0 a) i = Z.testbit (get r0 b) i) ->
  a = b.
Proof.
  intros Hregs Ha Hb Hbits. apply regs_ext. intro r.
  destruct (reg_eqb r r0) eqn:E.
  - apply reg_eqb_eq in E. subst r. apply bits32_inj; assumption.
  - apply Hregs. intro Heq. subst r. rewrite reg_eqb_refl in E.
    discriminate E.
Qed.

(** A gating call with a position from 0 to 31 returns 0; the enable
    register of its bus domain then holds a 32-bit word whose bit [p] is
    the flag and whose other bits are as before; no other register is
    changed. *)
Lemma RCC_GateClk_run (on : bool) (b : bus) (p : Z) (m : machine) :
  0 <= p <= 31 ->
  exists m',
    RCC_GateClk on b p m = Some (0, m') /\
    0 <= get (ENR b) (rcc m') < 2 ^ 32 /\
    (forall i, 0 <= i < 32 ->
       Z.testbit (get (ENR b) (rcc m')) i
       = if i =? p then on else Z.testbit (get (ENR b) (rcc m)) i) /\
    (forall r, r <> ENR b -> get r (rcc m') = get r (rcc m)).
Proof.
  intro Hp. destruct on; cbn [RCC_GateClk].
  - rewrite RCC_EnableClk_unfold. unfold call.
    rewrite check_pass by (apply Z.ltb_ge; lia).
    eexists. split; [reflexivity|]. cbn [rcc]. rewrite get_set_same.
    split; [apply uint32_range|]. split.
    + intros i Hi. rewrite set_bit_spec by lia.
      destruct (i =? p); reflexivity.
    + intros r Hr. apply get_set_other. exact Hr.
  - rewrite RCC_DisableClk_unfold. unfold call.
    rewrite check_pass by (apply Z.ltb_ge; lia).
    eexists. split; [reflexivity|]. cbn [rcc]. rewrite get_set_same.
    split; [apply uint32_range|]. split.
    + intros i Hi. rewrite clear_bit_spec by lia.
      destruct (i =? p); reflexivity.
    + intros r Hr. apply get_set_other. exact Hr.
Qed.

(** X1.  Gating one way and then the other, at a position from 0 to 31:
    both calls return 0, the bit ends as the second call asked, the other
    31 bits of the enable register and all other registers are as they
    were before the first call; and if the bit was, in a 32-bit register,
    already as the second call asked, the whole register block is back to
    what it was.  So enabling a peripheral that was off and disabling it
    again restores the block, and so does disabling one that was on and
    enabling it again. *)
Theorem gate_round_trip (on : bool) (b : bus) (p : Z) (m : machine) :
  0 <= p <= 31 ->
  exists m1 m2,
    RCC_GateClk on b p m = Some (0, m1) /\
    RCC_GateClk (negb on) b p m1 = Some (0, m2) /\
    Z.testbit (get (ENR b) (rcc m2)) p = negb on /\
    (forall i, 0 <= i < 32 -> i <> p ->
       Z.testbit (get (ENR b) (rcc m2)) i
       = Z.testbit (get (ENR b) (rcc m)) i) /\
    (forall r, r <> ENR b -> get r (rcc m2) = get r (rcc m)) /\
    (0 <= get (ENR b) (rcc m) < 2 ^ 32 ->
     Z.testbit (get (ENR b) (rcc m)) p = negb on ->
     rcc m2 = rcc m).
Proof.
  intro Hp.
  destruct (RCC_GateClk_run on b p m Hp) as (m1 & E1 & _ & B1 & R1).
  destruct (RCC_GateClk_run (negb on) b p m1 Hp) as (m2 & E2 & V2 & B2 & R2).
  exists m1, m2. split; [exact E1|]. split; [exact E2|].
  assert (Hbits : forall i, 0 <= i < 32 ->
            Z.testbit (get (ENR b) (rcc m2)) i
            = if i =? p then negb on else Z.testbit (get (ENR b) (rcc m)) i).
  { intros i Hi. rewrite B2, B1 by exact Hi. destruct (i =? p); reflexivity. }
  split; [|split; [|split]].
  - rewrite Hbits, Z.eqb_refl by lia. reflexivity.
  - intros i Hi Hne. rewrite Hbits by exact Hi.
    destruct (Z.eqb_spec i p); [contradiction|reflexivity].
  - intros r Hr. rewrite R2, R1 by exact Hr. reflexivity.
  - intros Hv Hb. apply (regs_eq_by_bits (ENR b)); try assumption.
    + intros r Hr. rewrite R2, R1 by exact Hr. reflexivity.
    + intros i Hi. rewrite Hbits by exact Hi.
      destruct (Z.eqb_spec i p) as [->|_]; [symmetry; exact Hb|reflexivity].
Qed.

(** Bit 0 of the APB1 enable register, clear at boot: set and cleared
    again, the register block is the one of the boot state. *)
Lemma gate_round_trip_witness :
  exists m1 m2,
    RCC_GateClk true APB1 0 boot = Some (0, m1) /\
    RCC_GateClk false APB1 0 m1 = Some (0, m2) /\
    Z.testbit (get (ENR APB1) (rcc m1)) 0 = true /\
    rcc m2 = rcc boot.
Proof.
  destruct (gate_round_trip true APB1 0 boot) as (m1 & m2 & E1 & E2 & _ & _ & _ & Hback);
    [lia|].
  exists m1, m2. split; [exact E1|]. split; [exact E2|]. split.
  - vm_compute in E1. inversion E1. reflexivity.
  - apply Hback; [cbv; split; [discriminate|reflexivity]|reflexivity].
Defined.

(** X2.  Gating calls commute.  Two gating calls with positions from 0 to
    31 that concern different bus domains, or different positions, or
    that ask the same thing, leave the same register block in either
    order, and return 0 in either order. *)
Theorem gating_commutes (on1 on2 : bool) (b1 b2 : bus) (p q : Z) (m : machine) :
  0 <= p <= 31 -> 0 <= q <= 31 ->
  b1 <> b2 \/ p <> q \/ on1 = on2 ->
  exists m1 m12 m2 m21,
    RCC_GateClk on1 b1 p m = Some (0, m1) /\
    RCC_GateClk on2 b2 q m1 = Some (0, m12) /\
    RCC_GateClk on2 b2 q m = Some (0, m2) /\
    RCC_GateClk on1 b1 p m2 = Some (0, m21) /\
    rcc m12 = rcc m21.
Proof.
  intros Hp Hq Hdiff.
  destruct (RCC_GateClk_run on1 b1 p m Hp) as (m1 & E1 & V1 & B1 & R1).
  destruct (RCC_GateClk_run on2 b2 q m1 Hq) as (m12 & E12 & V12 & B12 & R12).
  destruct (RCC_GateClk_run on2 b2 q m Hq) as (m2 & E2 & V2 & B2 & R2).
  destruct (RCC_GateClk_run on1 b1 p m2 Hp) as (m21 & E21 & V21 & B21 & R21).
  exists m1, m12, m2, m21. repeat (split; [assumption|]).
  destruct (reg_eqb (ENR b1) (ENR b2)) eqn:E.
  - (* one enable register *)
    apply reg_eqb_eq in E.
    assert (Hb : b1 = b2) by (destruct b1, b2; try reflexivity; discriminate E).
    subst b2. clear E.
    apply (regs_eq_by_bits (ENR b1)); try assumption.
    + intros r Hr. rewrite R12, R1, R21, R2 by exact Hr. reflexivity.
    + intros i Hi. rewrite B12, B1, B21, B2 by exact Hi.
      destruct (Z.eqb_spec i q) as [Hiq|_], (Z.eqb_spec i p) as [Hip|_];
        try reflexivity.
      destruct Hdiff as [H | [H | H]]; [contradiction|lia|symmetry; exact H].
  - (* two enable registers *)
    assert (Hne : ENR b1 <> ENR b2).
    { intro Heq. rewrite Heq, reg_eqb_refl in E. discriminate E. }
    apply regs_ext. intro r.
    destruct (reg_eqb r (ENR b1)) eqn:E1r.
    + apply reg_eqb_eq in E1r. subst r.
      rewrite R12 by exact Hne.
      apply bits32_inj; [exact V1|exact V21|].
      intros i Hi. rewrite B1, B21, R2 by assumption. reflexivity.
    + assert (Hr1 : r <> ENR b1).
      { intro Heq. subst r. rewrite reg_eqb_refl in E1r. discriminate E1r. }
      rewrite R21 by exact Hr1.
      destruct (reg_eqb r (ENR b2)) eqn:E2r.
      * apply reg_eqb_eq in E2r. subst r.
        apply bits32_inj; [exact V12|exact V2|].
        intros i Hi. rewrite B12, B2, R1 by assumption. reflexivity.
      * assert (Hr2 : r <> ENR b2).
        { intro Heq. subst r. rewrite reg_eqb_refl in E2r. discriminate E2r. }
        rewrite R12, R1, R2 by assumption. reflexivity.
Qed.

(** Enabling position 0 on AHB1 and disabling position 4 on APB2, from
    the boot state, in either order. *)
Lemma gating_commutes_witness :
  exists m1 m12 m2 m21,
    RCC_GateClk true AHB1 0 boot = Some (0, m1) /\
    RCC_GateClk false APB2 4 m1 = Some (0, m12) /\
    RCC_GateClk false APB2 4 boot = Some (0, m2) /\
    RCC_GateClk true AHB1 0 m2 = Some (0, m21) /\
    rcc m12 = rcc m21.
Proof.
  apply (gating_commutes true false AHB1 APB2 0 4 boot); [lia|lia|].
  left. discriminate.
Defined.

(** X3.  Disabling is idempotent.  For a position from 0 to 31 whose bit
    is clear in a 32-bit enable register, the disable function of each bus
    domain returns 0 with the register block unchanged; and a second
    disable, after a first that returned 0, returns 0 and leaves the
    register block as the first left it. *)
Theorem disabling_is_idempotent (b : bus) (p : Z) (m : machine) :
  0 <= p <= 31 ->
  (0 <= get (ENR b) (rcc m) < 2 ^ 32 ->
   Z.testbit (get (ENR b) (rcc m)) p = false ->
   exists m', RCC_DisableClk b p m = Some (0, m') /\ rcc m' = rcc m) /\
  (forall m1, RCC_DisableClk b p m = Some (0, m1) ->
   exists m2, RCC_DisableClk b p m1 = Some (0, m2) /\ rcc m2 = rcc m1).
Proof.
  intro Hp.
  assert (Hnoop : forall m0,
            0 <= get (ENR b) (rcc m0) < 2 ^ 32 ->
            Z.testbit (get (ENR b) (rcc m0)) p = false ->
            exists m', RCC_DisableClk b p m0 = Some (0, m') /\ rcc m' = rcc m0).
  { intros m0 Hv Hb.
    destruct (RCC_GateClk_run false b p m0 Hp) as (m' & E & V & B & R).
    exists m'. split; [exact E|].
    apply (regs_eq_by_bits (ENR b)); try assumption.
    intros i Hi. rewrite B by exact Hi.
    destruct (Z.eqb_spec i p) as [->|_]; [symmetry; exact Hb|reflexivity]. }
  split; [apply Hnoop|].
  intros m1 H1.
  destruct (RCC_GateClk_run false b p m Hp) as (m1' & E & V & B & _).
  cbn [RCC_GateClk] in E. rewrite E in H1. inversion H1; subst m1'.
  apply Hnoop; [exact V|]. rewrite B, Z.eqb_refl by lia. reflexivity.
Qed.

(** Bit 0 of the APB1 enable register is clear at boot: disabling it
    changes no register, a second time neither. *)
Lemma disabling_is_idempotent_witness :
  exists m1,
    RCC_DisableClk APB1 0 boot = Some (0, m1) /\ rcc m1 = rcc boot /\
    exists m2, RCC_DisableClk APB1 0 m1 = Some (0, m2) /\ rcc m2 = rcc m1.
Proof.
  destruct (disabling_is_idempotent APB1 0 boot) as [H1 H2]; [lia|].
  destruct H1 as (m1 & E1 & R1);
    [cbv; split; [discriminate|reflexivity]|reflexivity|].
  exists m1. split; [exact E1|]. split; [exact R1|].
  apply H2. exact E1.
Defined.

(** ** Clock sources: what a request does *)

(** X4.  Whatever the request, a call of [RCC_SetClkStatus] that returns
    returns 0 and has made exactly one store, to the control register,
    which left every bit but the enable bit [Clk_Type] as it found it; so
    on return every bit of every register that the hardware keeps, the
    enable bit apart, holds what it held, and the enable bit holds what
    was requested if the hardware keeps it. *)
Theorem SetClkStatus_stores_one_bit
    (hw : RCC_RegDef_t -> RCC_RegDef_t) (fuel : nat) (Clk_Type : Z)
    (Status : STATUS_t) (m : machine) (r : Z) (m' : machine) :
  0 <= Clk_Type <= 30 ->
  RCC_SetClkStatus hw fuel Clk_Type Status m = Some (r, m') ->
  r = 0 /\
  (exists w, stores_since m m' [w] /\
             touches_only RCC_CR (fun i => i =? Clk_Type) w) /\
  (forall r0 i, 0 <= i < 32 -> keeps hw r0 i ->
                (r0 = RCC_CR -> i <> Clk_Type) ->
                Z.testbit (get r0 (rcc m')) i = Z.testbit (get r0 (rcc m)) i) /\
  (keeps hw RCC_CR Clk_Type ->
   Z.testbit (CR (rcc m')) Clk_Type = enable_value Status).
Proof.
  intros Hk H.
  destruct (SetClkStatus_inv hw fuel Clk_Type Status m r m' Hk H)
    as (Hr & _ & m1 & n & W & Hregs & Hlog).
  pose proof (bit_written_modifies _ _ _ _ _ W) as V.
  destruct W as (Hb & _ & _ & w & Hs & Hw).
  split; [exact Hr|]. split; [|split].
  - exists w. split; [|exact Hw].
    unfold stores_since in *. rewrite Hlog. exact Hs.
  - intros r0 i Hi K Hne.
    rewrite (ticks_frame hw m1 m' n) by assumption.
    apply (modifies_frame _ _ _ _ r0 i V); [exact Hi|].
    intro Heq. apply Z.eqb_neq. apply Hne. exact Heq.
  - intro K. to_get. rewrite (ticks_frame hw m1 m' n) by assumption.
    exact Hb.
Qed.

(** Switching the external oscillator on from the boot state, on the
    prompt hardware: one store, and bit 7 of the control register, which
    was set, is still set. *)
Lemma SetClkStatus_stores_one_bit_witness :
  exists m',
    RCC_SetClkStatus hw_prompt 2 HSE ON boot = Some (0, m') /\
    Z.testbit (get RCC_CR (rcc m')) 7 = Z.testbit (get RCC_CR (rcc boot)) 7 /\
    Z.testbit (CR (rcc m')) HSE = true.
Proof.
  eexists. split; [vm_compute; reflexivity|].
  match goal with
  | |- context [rcc ?X] =>
      destruct (SetClkStatus_stores_one_bit hw_prompt 2 HSE ON boot 0 X)
        as (_ & _ & Hframe & Hen)
  end.
  - unfold HSE. lia.
  - vm_compute. reflexivity.
  - split.
    + apply Hframe; [lia| |discriminate].
      apply hw_prompt_keeps_CR; lia.
    + apply Hen. apply hw_prompt_keeps_CR; unfold HSE; lia.
Defined.

(** X5.  An ON request does what it says on a hardware that keeps the
    enable bit and whose ready bit answers to it: [RCC_SetClkStatus]
    returns 0 for some fuel, and whenever it returns it returns 0 with the
    enable bit [Clk_Type] and the ready bit [Clk_Type + 1] both set. *)
Theorem SetClkStatus_ON_enables
    (hw : RCC_RegDef_t -> RCC_RegDef_t) (Clk_Type : Z) (m : machine) :
  0 <= Clk_Type <= 30 ->
  keeps hw RCC_CR Clk_Type -> responds hw Clk_Type (Clk_Type + 1) ->
  (exists fuel m', RCC_SetClkStatus hw fuel Clk_Type ON m = Some (0, m')) /\
  (forall fuel r m',
      RCC_SetClkStatus hw fuel Clk_Type ON m = Some (r, m') ->
      r = 0 /\
      Z.testbit (CR (rcc m')) Clk_Type = true /\
      Z.testbit (CR (rcc m')) (Clk_Type + 1) = true).
Proof.
  intros Hk K Hresp. split.
  - destruct (SetClkStatus_store Clk_Type ON m Hk) as (m1 & E1 & W1).
    destruct (Hresp (rcc m1)) as (n & Hn).
    destruct W1 as (Hb & _). cbn [get enable_value] in Hb. rewrite Hb in Hn.
    destruct (SetClkStatus_returns hw Clk_Type ON m m1 n Hk E1 Hn)
      as (j & _ & Hrun).
    exists (S n). eexists. apply Hrun. lia.
  - intros fuel r m' H.
    destruct (SetClkStatus_inv hw fuel Clk_Type ON m r m' Hk H)
      as (Hr & Hrdy & m1 & n & W & Hregs & _).
    split; [exact Hr|]. split; [|exact Hrdy].
    to_get. rewrite (ticks_frame hw m1 m' n) by assumption.
    apply W.
Qed.

(** The external oscillator, off at boot, is switched on on the prompt
    hardware. *)
Lemma SetClkStatus_ON_enables_witness :
  (exists fuel m', RCC_SetClkStatus hw_prompt fuel HSE ON boot = Some (0, m')) /\
  Z.testbit (CR (rcc boot)) HSE = false.
Proof.
  split; [|reflexivity].
  apply (SetClkStatus_ON_enables hw_prompt HSE boot).
  - unfold HSE. lia.
  - apply hw_prompt_keeps_CR; unfold HSE; lia.
  - apply (hw_prompt_responds HSE). auto.
Defined.

(** On the prompt hardware each of the three ready bits tracks its enable
    bit. *)
Lemma hw_prompt_tracks (en : Z) :
  en = HSI \/ en = HSE \/ en = PLL -> tracks hw_prompt en.
Proof.
  intros H x. rewrite hw_prompt_CR.
  unfold HSI, HSE, PLL in H. destruct H as [H | [H | H]]; subst en;
    rewrite !follow_spec by lia; cbn [Z.add Z.eqb Pos.add Pos.eqb Pos.succ];
    try reflexivity.
Qed.

(** X6.  When an OFF request returns.  If the ready bit is set when
    [RCC_SetClkStatus] is called with OFF, the call clears the enable bit
    and returns 0 at its first poll, the ready bit still set.  If the
    ready bit is clear, then on a hardware that keeps the enable bit and
    whose ready bit tracks it, the call returns for no fuel: the source is
    off, which is what was asked, and the loop waits for it to be
    ready. *)
Theorem SetClkStatus_OFF_returns_iff_ready
    (hw : RCC_RegDef_t -> RCC_RegDef_t) (Clk_Type : Z) (m : machine) :
  0 <= Clk_Type <= 30 ->
  (Z.testbit (CR (rcc m)) (Clk_Type + 1) = true ->
   forall fuel, exists m',
     RCC_SetClkStatus hw (S fuel) Clk_Type OFF m = Some (0, m') /\
     bit_written RCC_CR Clk_Type false m m') /\
  (Z.testbit (CR (rcc m)) (Clk_Type + 1) = false ->
   keeps hw RCC_CR Clk_Type -> tracks hw Clk_Type ->
   forall fuel, RCC_SetClkStatus hw fuel Clk_Type OFF m = None).
Proof.
  intro Hk.
  destruct (SetClkStatus_store Clk_Type OFF m Hk) as (m1 & E1 & W1).
  assert (Hrdy1 : Z.testbit (CR (rcc m1)) (Clk_Type + 1)
                  = Z.testbit (CR (rcc m)) (Clk_Type + 1)).
  { destruct W1 as (_ & Hother & _). to_get. apply Hother; lia. }
  split.
  - intros Hset fuel. exists m1. split; [|exact W1].
    rewrite (SetClkStatus_after_store hw (S fuel) Clk_Type OFF m m1 E1).
    cbn [while_poll]. rewrite bit_test, Hrdy1, Hset by lia. reflexivity.
  - intros Hclear K T fuel.
    rewrite (SetClkStatus_after_store hw fuel Clk_Type OFF m m1 E1).
    rewrite while_poll_stuck; [reflexivity|].
    intro n. rewrite bit_test by lia.
    assert (Hinv : invariant hw
              (fun x => Z.testbit (CR x) Clk_Type = false /\
                        Z.testbit (CR x) (Clk_Type + 1) = false)).
    { intros x (Hen & _). split.
      - rewrite CR_get, K. exact Hen.
      - rewrite T. exact Hen. }
    destruct (iter_invariant hw _ n (rcc m1) Hinv) as (_ & Hoff).
    + split; [apply W1|]. rewrite Hrdy1. exact Hclear.
    + rewrite Hoff. reflexivity.
Qed.

(** On the prompt hardware: switching the internal oscillator off at boot,
    where it is ready, returns at once; switching it off when all is off
    does not return within a thousand polls. *)
Lemma SetClkStatus_OFF_returns_iff_ready_witness :
  (exists m', RCC_SetClkStatus hw_prompt 1 HSI OFF boot = Some (0, m') /\
              bit_written RCC_CR HSI false boot m') /\
  RCC_SetClkStatus hw_prompt 1000 HSI OFF all_off = None.
Proof.
  destruct (SetClkStatus_OFF_returns_iff_ready hw_prompt HSI boot)
    as [Hret _]; [unfold HSI; lia|].
  destruct (SetClkStatus_OFF_returns_iff_ready hw_prompt HSI all_off)
    as [_ Hhang]; [unfold HSI; lia|].
  split.
  - apply (Hret eq_refl 0%nat).
  - apply Hhang; [reflexivity| |].
    + apply hw_prompt_keeps_CR; unfold HSI; lia.
    + apply (hw_prompt_tracks HSI). auto.
Defined.

(** ** Bypass mode: the last call wins *)

(** A call of [RCC_HSE_Mode] with one of the two modes returns 0; the
    control register then holds a 32-bit word whose bit 18 says whether
    the mode was [BYPASSED] and whose other bits are as before; no other
    register is changed. *)
Lemma RCC_HSE_Mode_run (BYPASSED NOT_BYPASSED a : Z) (m : machine) :
  BYPASSED <> NOT_BYPASSED -> a = BYPASSED \/ a = NOT_BYPASSED ->
  exists m',
    RCC_HSE_Mode BYPASSED NOT_BYPASSED a m = Some (0, m') /\
    0 <= get RCC_CR (rcc m') < 2 ^ 32 /\
    (forall i, 0 <= i < 32 ->
       Z.testbit (get RCC_CR (rcc m')) i
       = if i =? 18 then a =? BYPASSED else Z.testbit (get RCC_CR (rcc m)) i) /\
    (forall r, r <> RCC_CR -> get r (rcc m') = get r (rcc m)).
Proof.
  intros Hd Ha. unfold RCC_HSE_Mode, call.
  destruct (Z.eqb_spec a BYPASSED) as [E|E].
  - eexists. split; [reflexivity|]. cbn [rcc]. rewrite get_set_same.
    split; [apply uint32_range|]. split.
    + intros i Hi. rewrite set_bit_spec by lia.
      destruct (i =? 18); reflexivity.
    + intros r Hr. apply get_set_other. exact Hr.
  - destruct (Z.eqb_spec a NOT_BYPASSED) as [E'|E'];
      [|destruct Ha; contradiction].
    eexists. split; [reflexivity|]. cbn [rcc]. rewrite get_set_same.
    split; [apply uint32_range|]. split.
    + intros i Hi. rewrite clear_bit_spec by lia.
      destruct (i =? 18); reflexivity.
    + intros r Hr. apply get_set_other. exact Hr.
Qed.

(** X7.  Of two calls of [RCC_HSE_Mode] with recognized modes, made one
    after the other, the second decides: both return 0, bit 18 of the
    control register ends set if the second mode is [BYPASSED] and clear
    if it is [NOT_BYPASSED], whatever the first was; the other 31 bits and
    all other registers are as before the first call; and if the two
    modes are the same, the second call leaves the register block as the
    first left it. *)
Theorem HSE_mode_last_call_wins
    (BYPASSED NOT_BYPASSED a b : Z) (m : machine) :
  BYPASSED <> NOT_BYPASSED ->
  a = BYPASSED \/ a = NOT_BYPASSED -> b = BYPASSED \/ b = NOT_BYPASSED ->
  exists m1 m2,
    RCC_HSE_Mode BYPASSED NOT_BYPASSED a m = Some (0, m1) /\
    RCC_HSE_Mode BYPASSED NOT_BYPASSED b m1 = Some (0, m2) /\
    Z.testbit (CR (rcc m2)) 18 = (b =? BYPASSED) /\
    (forall i, 0 <= i < 32 -> i <> 18 ->
       Z.testbit (CR (rcc m2)) i = Z.testbit (CR (rcc m)) i) /\
    (forall r, r <> RCC_CR -> get r (rcc m2) = get r (rcc m)) /\
    (a = b -> rcc m2 = rcc m1).
Proof.
  intros Hd Ha Hb.
  destruct (RCC_HSE_Mode_run BYPASSED NOT_BYPASSED a m Hd Ha)
    as (m1 & E1 & V1 & B1 & R1).
  destruct (RCC_HSE_Mode_run BYPASSED NOT_BYPASSED b m1 Hd Hb)
    as (m2 & E2 & V2 & B2 & R2).
  exists m1, m2. split; [exact E1|]. split; [exact E2|].
  split; [|split; [|split]].
  - to_get. rewrite B2 by lia. reflexivity.
  - intros i Hi Hne. to_get. rewrite B2, B1 by exact Hi.
    destruct (Z.eqb_spec i 18); [contradiction|reflexivity].
  - intros r Hr. rewrite R2, R1 by exact Hr. reflexivity.
  - intros ->. apply (regs_eq_by_bits RCC_CR); try assumption.
    intros i Hi. rewrite B2, B1 by exact Hi.
    destruct (i =? 18); reflexivity.
Qed.

(** With the enumerators numbered 0 and 1: bypass switched on and then
    off, from the boot state, leaves bit 18 clear. *)
Lemma HSE_mode_last_call_wins_witness :
  exists m1 m2,
    RCC_HSE_Mode 0 1 0 boot = Some (0, m1) /\
    RCC_HSE_Mode 0 1 1 m1 = Some (0, m2) /\
    Z.testbit (CR (rcc m1)) 18 = true /\
    Z.testbit (CR (rcc m2)) 18 = false.
Proof.
  destruct (HSE_mode_last_call_wins 0 1 0 1 boot)
    as (m1 & m2 & E1 & E2 & H18 & _); [lia|left; reflexivity|right; reflexivity|].
  exists m1, m2. split; [exact E1|]. split; [exact E2|]. split.
  - vm_compute in E1. inversion E1. reflexivity.
  - exact H18.
Defined.

(** ** System clock: the selector on its way *)

(** X8.  A call of [RCC_SetSysClk] with a request [v] from 0 to 3 that
    returns has made exactly two stores, both to the configuration
    register: the first, on the word found at the call, leaves 0 in the
    selector field (bits 1:0), whatever the field held and whatever [v]
    is; the second, on the word the first stored, leaves [v] there.  So
    the selector passes through 0 on its way to [v]. *)
Theorem SetSysClk_selector_passes_through_zero
    (hw : RCC_RegDef_t -> RCC_RegDef_t) (fuel : nat) (v : Z)
    (m : machine) (r : Z) (m' : machine) :
  0 <= v <= 3 ->
  RCC_SetSysClk hw fuel v m = Some (r, m') ->
  exists w1 w2,
    stores_since m m' [w2; w1] /\
    w_reg w1 = RCC_CFGR /\ w_reg w2 = RCC_CFGR /\
    w_old w1 = CFGR (rcc m) /\ field (w_new w1) 0 2 = 0 /\
    w_old w2 = w_new w1 /\ field (w_new w2) 0 2 = v.
Proof.
  intros Hv H.
  rewrite (SetSysClk_accept hw fuel v m _ Hv eq_refl) in H.
  destruct (while_poll _ _ fuel _) as [[o m2]|] eqn:P; [|discriminate H].
  apply while_poll_inv in P. destruct P as (_ & Hl & _).
  inversion H; subst m2. clear H. cbn [rcc wlog] in Hl.
  eexists. eexists. split; [unfold stores_since; rewrite Hl; reflexivity|].
  cbn [w_reg w_old w_new]. rewrite get_set_same.
  split; [reflexivity|]. split; [reflexivity|]. split; [reflexivity|].
  split; [|split; [reflexivity|]].
  - apply field_eq; try lia. intros i Hi.
    rewrite (clear_mask_spec _ 3 0 2) by (reflexivity || lia).
    fields. rewrite Z.bits_0. reflexivity.
  - apply field_eq; [lia|lia|change (2 ^ 2) with 4; lia|]. intros i Hi.
    change 3 with (Z.ones 2).
    rewrite rewrite_field_spec by (try (change (2 ^ 2) with 4); lia).
    fields. f_equal. lia.
Qed.

(** Selecting option 2 from the boot state on the prompt hardware: the
    first of the two stores has the selector at 0, the second at 2. *)
Lemma SetSysClk_selector_passes_through_zero_witness :
  exists m' w1 w2,
    RCC_SetSysClk hw_prompt 2 2 boot = Some (0, m') /\
    stores_since boot m' [w2; w1] /\
    field (w_new w1) 0 2 = 0 /\ field (w_new w2) 0 2 = 2.
Proof.
  eexists.
  match goal with
  | |- exists w1 w2, ?run = Some (0, ?X) /\ _ =>
      assert (E : run = Some (0, X)) by (vm_compute; reflexivity);
      destruct (SetSysClk_selector_passes_through_zero
                  hw_prompt 2 2 boot 0 _ ltac:(lia) E)
        as (w1 & w2 & Hs & _ & _ & _ & F1 & _ & F2)
  end.
  exists w1, w2. split; [exact E|]. split; [exact Hs|]. split; assumption.
Defined.

(** X9.  Selecting the source that is selected and confirmed already: when
    the configuration register is a 32-bit word whose selector field (bits
    1:0) and confirmation field (bits 3:2) both hold [v], from 0 to 3,
    [RCC_SetSysClk] returns 0 at its first poll and leaves the register
    block as it found it. *)
Theorem SetSysClk_current_source
    (hw : RCC_RegDef_t -> RCC_RegDef_t) (v : Z) (m : machine) :
  0 <= v <= 3 ->
  0 <= CFGR (rcc m) < 2 ^ 32 ->
  field (CFGR (rcc m)) 0 2 = v -> field (CFGR (rcc m)) 2 2 = v ->
  forall fuel, exists m',
    RCC_SetSysClk hw (S fuel) v m = Some (0, m') /\ rcc m' = rcc m.
Proof.
  intros Hv Hc Hsw Hsws fuel.
  rewrite (SetSysClk_accept hw (S fuel) v m _ Hv eq_refl).
  cbn [while_poll rcc].
  match goal with
  | |- context [set RCC_CFGR ?c2 (set RCC_CFGR ?c1 (rcc m))] =>
      assert (Hback : set RCC_CFGR c2 (set RCC_CFGR c1 (rcc m)) = rcc m)
  end.
  { apply (regs_eq_by_bits RCC_CFGR).
    - intros r0 Hr. rewrite !get_set_other by exact Hr. reflexivity.
    - rewrite get_set_same. apply uint32_range.
    - exact Hc.
    - intros i Hi. rewrite !get_set_same. change 3 with (Z.ones 2).
      rewrite rewrite_field_spec by (try (change (2 ^ 2) with 4); lia).
      destruct (in_field 0 2 i) eqn:F; [|reflexivity].
      apply in_field_true in F. rewrite <- Hsw, field_spec by lia.
      replace (i - 0 + 0) with i by lia.
      destruct (Z.ltb_spec (i - 0) 2); [|lia]. rewrite andb_true_r.
      reflexivity. }
  rewrite Hback.
  change (Z.land (Z.shiftr (CFGR (rcc m)) 2) 3) with (field (CFGR (rcc m)) 2 2).
  rewrite Hsws, Z.eqb_refl. cbn [negb].
  eexists. split; reflexivity.
Qed.

(** At boot the configuration register is 0: option 0 is selected and
    confirmed, and selecting it changes no register. *)
Lemma SetSysClk_current_source_witness :
  exists m', RCC_SetSysClk hw_dead 1 0 boot = Some (0, m') /\ rcc m' = rcc boot.
Proof.
  apply (SetSysClk_current_source hw_dead 0 boot); try reflexivity.
  - lia.
  - cbv. split; [discriminate|reflexivity].
Defined.

(** ** PLL configuration: what success requires, what failure leaves *)

(** A bit inside a field is a bit of the field. *)
Lemma field_bit (v lo w i : Z) :
  0 <= lo -> 0 <= w -> lo <= i < lo + w ->
  Z.testbit v i = Z.testbit (field v lo w) (i - lo).
Proof.
  intros Hlo Hw Hi. rewrite field_spec by lia.
  replace (i - lo + lo) with i by lia.
  destruct (Z.ltb_spec (i - lo) w); [|lia]. rewrite andb_true_r. reflexivity.
Qed.

(** The table gives each of its four division factors one code, half the
    factor less one. *)
Lemma PLLP_table_spec (M c : Z) :
  In (M, c) PLLP_table ->
  (M = 2 \/ M = 4 \/ M = 6 \/ M = 8) /\ M = 2 * (c + 1).
Proof.
  simpl. intros [H | [H | [H | [H | []]]]]; inversion H; subst;
    (split; [auto 6|reflexivity]).
Qed.

Section PLL_Config_more.

Variable hw : RCC_RegDef_t -> RCC_RegDef_t.

(** A run that returns 0 went all the way: its arguments passed every
    test, and its six steps are those of [PLL_Config_inv]. *)
Lemma PLL_Config_zero_inv (fuel : nat) (N M Src : Z) (m m' : machine) :
  RCC_PLL_Config hw fuel N M Src m = Some (0, m') ->
  (Src = HSI \/ Src = HSE) /\ 50 <= N <= 432 /\
  exists m1 m2 n1 m3 m4 c m5 m6 n2,
    bit_written RCC_CR 24 false m m1 /\
    rcc m2 = Nat.iter n1 hw (rcc m1) /\
    bit_written RCC_PLLCFGR 22 (Src =? HSE) m2 m3 /\
    field (PLLCFGR (rcc m4)) 0 6 = M /\
    field (PLLCFGR (rcc m4)) 6 9 = N /\
    modifies RCC_PLLCFGR (in_field 0 15) m3 m4 /\
    In (M, c) PLLP_table /\
    field_written RCC_PLLCFGR 16 2 c m4 m5 /\
    bit_written RCC_CR 24 true m5 m6 /\
    rcc m' = Nat.iter n2 hw (rcc m6).
Proof.
  intro H.
  destruct (PLL_Config_inv hw fuel N M Src m 0 m' H)
    as (m1 & m2 & n1 & W1 & Hr1 & _ & _ & Hrest).
  destruct Hrest as [(_ & _ & Hr & _) | (m3 & HS & W3 & Hrest)];
    [discriminate Hr|].
  destruct Hrest as [(_ & Hr & _) | (m4 & HN & HM & F1 & F2 & W4 & Hrest)];
    [discriminate Hr|].
  destruct Hrest
    as [(_ & _ & _ & _ & Hr & _) |
        (c & m5 & m6 & n2 & Hc & W5 & W6 & Hr2 & _)];
    [discriminate Hr|].
  split; [exact HS|]. split; [exact HN|].
  exists m1, m2, n1, m3, m4, c, m5, m6, n2. auto 12.
Qed.

(** On a hardware that keeps the PLL configuration register, a run that
    returns 0 leaves in it: the division factor in the M field, N in the
    N field, the code of the table in the P field, the source in bit 22,
    and outside the footprint what was there at the call. *)
Lemma PLL_Config_zero_word (fuel : nat) (N M Src : Z) (m m' : machine) :
  (forall i, 0 <= i < 32 -> keeps hw RCC_PLLCFGR i) ->
  RCC_PLL_Config hw fuel N M Src m = Some (0, m') ->
  field (PLLCFGR (rcc m')) 0 6 = M /\
  field (PLLCFGR (rcc m')) 6 9 = N /\
  In (M, field (PLLCFGR (rcc m')) 16 2) PLLP_table /\
  Z.testbit (PLLCFGR (rcc m')) 22 = (Src =? HSE) /\
  (forall i, 0 <= i < 32 -> PLL_footprint RCC_PLLCFGR i = false ->
     Z.testbit (PLLCFGR (rcc m')) i = Z.testbit (PLLCFGR (rcc m)) i).
Proof.
  intros Kp H.
  destruct (PLL_Config_zero_inv fuel N M Src m m' H)
    as (_ & _ & m1 & m2 & n1 & m3 & m4 & c & m5 & m6 & n2 &
        W1 & Hr1 & W3 & F1 & F2 & W4 & Hc & (F3 & W5) & W6 & Hr2).
  pose proof (bit_written_modifies _ _ _ _ _ W1) as V1.
  pose proof (bit_written_modifies _ _ _ _ _ W3) as V3.
  pose proof (bit_written_modifies _ _ _ _ _ W6) as V6.
  assert (Hp : forall i, 0 <= i < 32 ->
            Z.testbit (PLLCFGR (rcc m')) i = Z.testbit (PLLCFGR (rcc m5)) i).
  { intros i Hi. to_get. rewrite (ticks_frame hw m6 m' n2) by auto.
    apply (modifies_frame _ _ _ _ RCC_PLLCFGR i V6); [exact Hi|discriminate]. }
  assert (Hp4 : forall i, 0 <= i < 32 -> in_field 16 2 i = false ->
            Z.testbit (PLLCFGR (rcc m5)) i = Z.testbit (PLLCFGR (rcc m4)) i).
  { intros i Hi Hout. to_get. apply (modifies_frame _ _ _ _ _ _ W5); auto. }
  assert (Hp3 : forall i, 0 <= i < 32 -> in_field 0 15 i = false ->
            Z.testbit (PLLCFGR (rcc m4)) i = Z.testbit (PLLCFGR (rcc m3)) i).
  { intros i Hi Hout. to_get. apply (modifies_frame _ _ _ _ _ _ W4); auto. }
  split; [|split; [|split; [|split]]].
  - rewrite <- F1. apply field_ext; try lia. intros i Hi.
    rewrite Hp, Hp4 by (try apply in_field_false; lia). reflexivity.
  - rewrite <- F2. apply field_ext; try lia. intros i Hi.
    rewrite Hp, Hp4 by (try apply in_field_false; lia). reflexivity.
  - replace (field (PLLCFGR (rcc m')) 16 2) with c; [exact Hc|].
    rewrite <- F3. apply field_ext; try lia. intros i Hi.
    symmetry. apply Hp. lia.
  - rewrite Hp, Hp4, Hp3 by (try apply in_field_false; lia). apply W3.
  - intros i Hi Hf. cbn [PLL_footprint] in Hf.
    apply orb_false_elim in Hf. destruct Hf as (Hf & H22).
    apply orb_false_elim in Hf. destruct Hf as (Hf & HP).
    apply orb_false_elim in Hf. destruct Hf as (HfM & HfN).
    apply in_field_false in HfM, HfN, HP. apply Z.eqb_neq in H22.
    rewrite Hp, Hp4, Hp3 by (try apply in_field_false; lia). to_get.
    rewrite (modifies_frame _ _ _ _ RCC_PLLCFGR i V3)
      by (try lia; intros _; apply Z.eqb_neq; exact H22).
    rewrite (ticks_frame hw m1 m2 n1) by auto.
    apply (modifies_frame _ _ _ _ RCC_PLLCFGR i V1); [exact Hi|discriminate].
Qed.

End PLL_Config_more.

(** X10.  [RCC_PLL_Config] succeeds with four division factors only.  A
    call that returns 0 had [Src] one of HSI and HSE, N from 50 to 432 and
    a division factor among 2, 4, 6, 8: the factors 3, 5, 7 and 9 to 63
    pass the range test but are never configured.  And on a hardware that
    keeps the PLL configuration register the M field then equals twice
    the P code plus two: the output divider that the P code stands for is
    always the input divider M. *)
Theorem PLL_Config_succeeds_on_table_only
    (hw : RCC_RegDef_t -> RCC_RegDef_t) (fuel : nat) (N M Src : Z)
    (m m' : machine) :
  RCC_PLL_Config hw fuel N M Src m = Some (0, m') ->
  (Src = HSI \/ Src = HSE) /\ 50 <= N <= 432 /\
  (M = 2 \/ M = 4 \/ M = 6 \/ M = 8) /\
  ((forall i, 0 <= i < 32 -> keeps hw RCC_PLLCFGR i) ->
   field (PLLCFGR (rcc m')) 0 6 = 2 * (field (PLLCFGR (rcc m')) 16 2 + 1)).
Proof.
  intro H.
  destruct (PLL_Config_zero_inv hw fuel N M Src m m' H)
    as (HS & HN & m1 & m2 & n1 & m3 & m4 & c & m5 & m6 & n2 &
        _ & _ & _ & _ & _ & _ & Hc & _).
  split; [exact HS|]. split; [exact HN|]. split.
  - apply (PLLP_table_spec M c Hc).
  - intro Kp.
    destruct (PLL_Config_zero_word hw fuel N M Src m m' Kp H)
      as (F1 & _ & Hcode & _).
    rewrite F1. apply (PLLP_table_spec _ _ Hcode).
Qed.

(** A successful call from the boot state on the prompt hardware, with
    division factor 6: the M field is 6, the P code 2. *)
Lemma PLL_Config_succeeds_on_table_only_witness :
  exists m',
    RCC_PLL_Config hw_prompt 2 100 6 HSE boot = Some (0, m') /\
    field (PLLCFGR (rcc m')) 0 6 = 2 * (field (PLLCFGR (rcc m')) 16 2 + 1) /\
    field (PLLCFGR (rcc m')) 16 2 = 2.
Proof.
  eexists. split; [vm_compute; reflexivity|].
  match goal with
  | |- context [rcc ?X] =>
      destruct (PLL_Config_succeeds_on_table_only
                  hw_prompt 2 100 6 HSE boot X) as (_ & _ & _ & Hcouple)
  end.
  - vm_compute. reflexivity.
  - split; [|reflexivity].
    apply Hcouple. intros i Hi. apply hw_prompt_keeps_other; discriminate.
Defined.

(** X11.  A call of [RCC_PLL_Config] that returns 1, for whatever reason,
    leaves the PLL switched off: bit 24 of the control register is clear
    on a hardware that keeps it, even if the PLL was running at the call.
    And it has left alone the upper half of the PLL configuration
    register: every bit from 15 to 31 other than the source bit 22, the P
    field among them, holds what it held if the hardware keeps it. *)
Theorem PLL_Config_failure_leaves_PLL_off
    (hw : RCC_RegDef_t -> RCC_RegDef_t) (fuel : nat) (N M Src : Z)
    (m m' : machine) :
  RCC_PLL_Config hw fuel N M Src m = Some (1, m') ->
  (keeps hw RCC_CR 24 -> Z.testbit (CR (rcc m')) 24 = false) /\
  (forall i, 15 <= i < 32 -> i <> 22 -> keeps hw RCC_PLLCFGR i ->
     Z.testbit (PLLCFGR (rcc m')) i = Z.testbit (PLLCFGR (rcc m)) i).
Proof.
  intro H.
  destruct (PLL_Config_inv hw fuel N M Src m 1 m' H)
    as (m1 & m2 & n1 & W1 & Hr1 & _ & _ & Hrest).
  pose proof (bit_written_modifies _ _ _ _ _ W1) as V1.
  assert (C2 : keeps hw RCC_CR 24 -> Z.testbit (CR (rcc m2)) 24 = false).
  { intro K. to_get. rewrite (ticks_frame hw m1 m2 n1) by assumption.
    apply W1. }
  assert (P2 : forall i, 0 <= i < 32 -> keeps hw RCC_PLLCFGR i ->
            Z.testbit (PLLCFGR (rcc m2)) i = Z.testbit (PLLCFGR (rcc m)) i).
  { intros i Hi K. to_get. rewrite (ticks_frame hw m1 m2 n1) by assumption.
    apply (modifies_frame _ _ _ _ RCC_PLLCFGR i V1); [exact Hi|discriminate]. }
  destruct Hrest as [(_ & _ & _ & ->) | (m3 & _ & W3 & Hrest)].
  { split; [exact C2|]. intros i Hi _ K. apply P2; [lia|exact K]. }
  pose proof (bit_written_modifies _ _ _ _ _ W3) as V3.
  assert (C3 : Z.testbit (CR (rcc m3)) 24 = Z.testbit (CR (rcc m2)) 24).
  { to_get. apply (modifies_frame _ _ _ _ RCC_CR 24 V3); [lia|discriminate]. }
  assert (P3 : forall i, 0 <= i < 32 -> i <> 22 ->
            Z.testbit (PLLCFGR (rcc m3)) i = Z.testbit (PLLCFGR (rcc m2)) i).
  { intros i Hi H22. to_get.
    apply (modifies_frame _ _ _ _ RCC_PLLCFGR i V3); [exact Hi|].
    intros _. apply Z.eqb_neq. exact H22. }
  destruct Hrest as [(_ & _ & ->) | (m4 & _ & _ & _ & _ & W4 & Hrest)].
  { split.
    - intro K. rewrite C3. apply C2. exact K.
    - intros i Hi H22 K. rewrite P3, P2 by (assumption || lia). reflexivity. }
  destruct Hrest as [(_ & _ & _ & _ & _ & ->) | (c & _ & _ & _ & _ & _ & _ & _ & _ & _ & Hr)];
    [|discriminate Hr].
  split.
  - intro K. to_get.
    rewrite (modifies_frame _ _ _ _ RCC_CR 24 W4) by (lia || discriminate).
    rewrite <- !CR_get, C3. apply C2. exact K.
  - intros i Hi H22 K. to_get.
    rewrite (modifies_frame _ _ _ _ RCC_PLLCFGR i W4)
      by (try lia; intros _; apply in_field_false; lia).
    rewrite <- !PLLCFGR_get, P3, P2 by (assumption || lia). reflexivity.
Qed.

(** A running PLL and a division factor that is not in the table: the
    call fails, the PLL is off, the P field (bit 16 here) is as it was. *)
Lemma PLL_Config_failure_leaves_PLL_off_witness :
  exists m',
    RCC_PLL_Config hw_prompt 2 50 3 HSI pll_locked = Some (1, m') /\
    Z.testbit (CR (rcc pll_locked)) 24 = true /\
    Z.testbit (CR (rcc m')) 24 = false /\
    Z.testbit (PLLCFGR (rcc m')) 16 = Z.testbit (PLLCFGR (rcc pll_locked)) 16.
Proof.
  eexists. split; [vm_compute; reflexivity|].
  match goal with
  | |- _ /\ Z.testbit (CR (rcc ?X)) 24 = false /\ _ =>
      destruct (PLL_Config_failure_leaves_PLL_off
                  hw_prompt 2 50 3 HSI pll_locked X) as (Hoff & Hup)
  end.
  - vm_compute. reflexivity.
  - split; [reflexivity|]. split.
    + apply Hoff. apply hw_prompt_keeps_CR; lia.
    + apply Hup; [lia|lia|]. apply hw_prompt_keeps_other; discriminate.
Defined.

(** X12.  A source that is neither HSI nor HSE: whenever
    [RCC_PLL_Config] returns it returns 1, having made exactly one store,
    the one that clears the PLL enable bit in the control register; every
    bit of the PLL configuration register that the hardware keeps holds
    what it held.  The call does return, for some fuel, on a hardware
    whose lock bit answers to the enable bit. *)
Theorem PLL_Config_bad_source
    (hw : RCC_RegDef_t -> RCC_RegDef_t) (N M Src : Z) (m : machine) :
  Src <> HSI -> Src <> HSE ->
  (forall fuel r m',
      RCC_PLL_Config hw fuel N M Src m = Some (r, m') ->
      r = 1 /\
      (exists w, stores_since m m' [w] /\
                 touches_only RCC_CR (fun i => i =? 24) w) /\
      (forall i, 0 <= i < 32 -> keeps hw RCC_PLLCFGR i ->
         Z.testbit (PLLCFGR (rcc m')) i = Z.testbit (PLLCFGR (rcc m)) i)) /\
  (responds hw 24 25 ->
   exists fuel m', RCC_PLL_Config hw fuel N M Src m = Some (1, m')).
Proof.
  intros H1 H2.
  assert (Hsafe : forall fuel r m',
      RCC_PLL_Config hw fuel N M Src m = Some (r, m') ->
      r = 1 /\
      (exists w, stores_since m m' [w] /\
                 touches_only RCC_CR (fun i => i =? 24) w) /\
      (forall i, 0 <= i < 32 -> keeps hw RCC_PLLCFGR i ->
         Z.testbit (PLLCFGR (rcc m')) i = Z.testbit (PLLCFGR (rcc m)) i)).
  { intros fuel r m' H.
    destruct (PLL_Config_inv hw fuel N M Src m r m' H)
      as (m1 & m2 & n1 & W1 & Hr1 & Hl1 & _ & Hrest).
    destruct Hrest as [(_ & _ & -> & ->) | (m3 & HS & _)];
      [|destruct HS; contradiction].
    pose proof (bit_written_modifies _ _ _ _ _ W1) as V1.
    destruct W1 as (_ & _ & _ & w & Hs & Hw).
    split; [reflexivity|]. split.
    - exists w. split; [|exact Hw]. unfold stores_since in *.
      rewrite Hl1. exact Hs.
    - intros i Hi K. to_get. rewrite (ticks_frame hw m1 m2 n1) by assumption.
      apply (modifies_frame _ _ _ _ RCC_PLLCFGR i V1);
        [exact Hi|discriminate]. }
  split; [exact Hsafe|]. intro Hresp.
  destruct (PLL_Config_returns hw N M Src m Hresp) as (fuel & r & m' & H).
  exists fuel, m'. destruct (Hsafe fuel r m' H) as (-> & _). exact H.
Qed.

(** The PLL itself given as the source of the PLL, from the state in which
    it runs: refused, the PLL configuration register as it was. *)
Lemma PLL_Config_bad_source_witness :
  (exists m',
      RCC_PLL_Config hw_prompt 2 50 2 PLL pll_locked = Some (1, m') /\
      PLLCFGR (rcc m') = PLLCFGR (rcc pll_locked)) /\
  (exists fuel m',
      RCC_PLL_Config hw_prompt fuel 50 2 PLL pll_locked = Some (1, m')).
Proof.
  destruct (PLL_Config_bad_source hw_prompt 50 2 PLL pll_locked)
    as [_ Hlive]; [discriminate|discriminate|].
  split.
  - eexists. split; [vm_compute; reflexivity|]. reflexivity.
  - apply Hlive. apply (hw_prompt_responds PLL). auto.
Defined.

(** X13.  A division factor below 2 or above 63, with [Src] one of HSI and
    HSE and N from 50 to 432: whenever [RCC_PLL_Config] returns it returns
    1, with the source bit 22 of the PLL configuration register already
    written (clear for HSI, set for HSE) and every other bit of that
    register that the hardware keeps, the M, N and P fields among them,
    as it was.  The call does return, for some fuel, on a hardware whose
    lock bit answers to the enable bit. *)
Theorem PLL_Config_bad_division
    (hw : RCC_RegDef_t -> RCC_RegDef_t) (N M Src : Z) (m : machine) :
  Src = HSI \/ Src = HSE -> 50 <= N <= 432 -> M < 2 \/ 63 < M ->
  (forall fuel r m',
      RCC_PLL_Config hw fuel N M Src m = Some (r, m') ->
      r = 1 /\
      Z.testbit (PLLCFGR (rcc m')) 22 = (Src =? HSE) /\
      (forall i, 0 <= i < 32 -> i <> 22 -> keeps hw RCC_PLLCFGR i ->
         Z.testbit (PLLCFGR (rcc m')) i = Z.testbit (PLLCFGR (rcc m)) i)) /\
  (responds hw 24 25 ->
   exists fuel m', RCC_PLL_Config hw fuel N M Src m = Some (1, m')).
Proof.
  intros HS HN HM.
  assert (Hsafe : forall fuel r m',
      RCC_PLL_Config hw fuel N M Src m = Some (r, m') ->
      r = 1 /\
      Z.testbit (PLLCFGR (rcc m')) 22 = (Src =? HSE) /\
      (forall i, 0 <= i < 32 -> i <> 22 -> keeps hw RCC_PLLCFGR i ->
         Z.testbit (PLLCFGR (rcc m')) i = Z.testbit (PLLCFGR (rcc m)) i)).
  { intros fuel r m' H.
    destruct (PLL_Config_inv hw fuel N M Src m r m' H)
      as (m1 & m2 & n1 & W1 & Hr1 & _ & _ & Hrest).
    destruct Hrest as [(Hs1 & Hs2 & _) | (m3 & _ & W3 & Hrest)];
      [destruct HS; contradiction|].
    destruct Hrest as [(_ & -> & ->) | (m4 & _ & HM' & _)]; [|lia].
    pose proof (bit_written_modifies _ _ _ _ _ W1) as V1.
    pose proof (bit_written_modifies _ _ _ _ _ W3) as V3.
    split; [reflexivity|]. split; [apply W3|].
    intros i Hi H22 K. to_get.
    rewrite (modifies_frame _ _ _ _ RCC_PLLCFGR i V3)
      by (try assumption; intros _; apply Z.eqb_neq; exact H22).
    rewrite (ticks_frame hw m1 m2 n1) by assumption.
    apply (modifies_frame _ _ _ _ RCC_PLLCFGR i V1); [exact Hi|discriminate]. }
  split; [exact Hsafe|]. intro Hresp.
  destruct (PLL_Config_returns hw N M Src m Hresp) as (fuel & r & m' & H).
  exists fuel, m'. destruct (Hsafe fuel r m' H) as (-> & _). exact H.
Qed.

(** Division factor 1 with the external oscillator, from the boot state:
    refused, the source bit set, the M field still 16. *)
Lemma PLL_Config_bad_division_witness :
  (exists m',
      RCC_PLL_Config hw_prompt 2 50 1 HSE boot = Some (1, m') /\
      Z.testbit (PLLCFGR (rcc m')) 22 = true /\
      Z.testbit (PLLCFGR (rcc m')) 4 = Z.testbit (PLLCFGR (rcc boot)) 4) /\
  (exists fuel m', RCC_PLL_Config hw_prompt fuel 50 1 HSE boot = Some (1, m')).
Proof.
  destruct (PLL_Config_bad_division hw_prompt 50 1 HSE boot)
    as [Hsafe Hlive]; [right; reflexivity|lia|lia|].
  split.
  - eexists. split; [vm_compute; reflexivity|].
    match goal with
    | |- context [rcc ?X] => specialize (Hsafe 2%nat 1 X)
    end.
    destruct Hsafe as (_ & H22 & Hother); [vm_compute; reflexivity|].
    split; [exact H22|].
    apply Hother; [lia|lia|]. apply hw_prompt_keeps_other; discriminate.
  - apply Hlive. apply (hw_prompt_responds PLL). auto.
Defined.

(** ** PLL configuration: running it again *)

(** With arguments that pass every test, a run that returns returns 0. *)
Lemma PLL_Config_valid_zero (hw : RCC_RegDef_t -> RCC_RegDef_t)
    (fuel : nat) (N M Src : Z) (m : machine) (r : Z) (m' : machine) :
  Src = HSI \/ Src = HSE -> 50 <= N <= 432 ->
  M = 2 \/ M = 4 \/ M = 6 \/ M = 8 ->
  RCC_PLL_Config hw fuel N M Src m = Some (r, m') -> r = 0.
Proof.
  intros HS HN HP H.
  destruct (PLL_Config_inv hw fuel N M Src m r m' H)
    as (m1 & m2 & n1 & _ & _ & _ & _ & Hrest).
  destruct Hrest as [(H1 & H2 & _) | (m3 & _ & _ & Hrest)];
    [destruct HS; contradiction|].
  destruct Hrest as [(Hbad & _) | (m4 & _ & _ & _ & _ & _ & Hrest)]; [lia|].
  destruct Hrest
    as [(H2 & H4 & H6 & H8 & _) | (c & _ & _ & _ & _ & _ & _ & _ & _ & _ & Hr)];
    [lia|exact Hr].
Qed.

(** X14.  Configuring the PLL a second time with the same arguments, after
    a first call that returned 0, changes nothing in the PLL configuration
    register: on a hardware that keeps that register, whenever the second
    call returns it returns 0 and each of the 32 bits of the register is
    as the first call left it. *)
Theorem PLL_Config_twice
    (hw : RCC_RegDef_t -> RCC_RegDef_t) (fuel1 fuel2 : nat) (N M Src : Z)
    (m m1 : machine) (r2 : Z) (m2 : machine) :
  (forall i, 0 <= i < 32 -> keeps hw RCC_PLLCFGR i) ->
  RCC_PLL_Config hw fuel1 N M Src m = Some (0, m1) ->
  RCC_PLL_Config hw fuel2 N M Src m1 = Some (r2, m2) ->
  r2 = 0 /\
  forall i, 0 <= i < 32 ->
    Z.testbit (PLLCFGR (rcc m2)) i = Z.testbit (PLLCFGR (rcc m1)) i.
Proof.
  intros Kp H1 H2.
  destruct (PLL_Config_zero_inv hw fuel1 N M Src m m1 H1)
    as (HS & HN & _ & _ & _ & _ & _ & c & _ & _ & _ &
        _ & _ & _ & _ & _ & _ & Hc & _).
  pose proof (proj1 (PLLP_table_spec M c Hc)) as HP.
  assert (Hr2 : r2 = 0)
    by exact (PLL_Config_valid_zero hw fuel2 N M Src m1 r2 m2 HS HN HP H2).
  subst r2. split; [reflexivity|].
  destruct (PLL_Config_zero_word hw fuel1 N M Src m m1 Kp H1)
    as (M1 & N1 & C1 & S1 & _).
  destruct (PLL_Config_zero_word hw fuel2 N M Src m1 m2 Kp H2)
    as (M2 & N2 & C2 & S2 & Hframe).
  apply PLLP_table_spec in C1, C2.
  assert (HC : field (PLLCFGR (rcc m2)) 16 2 = field (PLLCFGR (rcc m1)) 16 2)
    by lia.
  intros i Hi.
  destruct (PLL_footprint RCC_PLLCFGR i) eqn:F; [|apply Hframe; assumption].
  cbn [PLL_footprint] in F.
  apply orb_true_iff in F. destruct F as [F | F].
  - apply orb_true_iff in F. destruct F as [F | F].
    + apply orb_true_iff in F. destruct F as [F | F];
        apply in_field_true in F.
      * rewrite (field_bit (PLLCFGR (rcc m2)) 0 6),
                (field_bit (PLLCFGR (rcc m1)) 0 6) by lia.
        rewrite M2, M1. reflexivity.
      * rewrite (field_bit (PLLCFGR (rcc m2)) 6 9),
                (field_bit (PLLCFGR (rcc m1)) 6 9) by lia.
        rewrite N2, N1. reflexivity.
    + apply in_field_true in F.
      rewrite (field_bit (PLLCFGR (rcc m2)) 16 2),
              (field_bit (PLLCFGR (rcc m1)) 16 2) by lia.
      rewrite HC. reflexivity.
  - apply Z.eqb_eq in F. subst i. rewrite S2, S1. reflexivity.
Qed.

(** From the boot state on the prompt hardware, N = 336, division factor
    8, external oscillator, twice: the second call returns 0 with the PLL
    configuration register as the first left it. *)
Lemma PLL_Config_twice_witness :
  exists m1 m2,
    RCC_PLL_Config hw_prompt 2 336 8 HSE boot = Some (0, m1) /\
    RCC_PLL_Config hw_prompt 2 336 8 HSE m1 = Some (0, m2) /\
    Z.testbit (PLLCFGR (rcc m2)) 9 = Z.testbit (PLLCFGR (rcc m1)) 9 /\
    PLLCFGR (rcc m1) <> PLLCFGR (rcc boot).
Proof.
  eexists. eexists.
  split; [vm_compute; reflexivity|].
  split; [vm_compute; reflexivity|].
  match goal with
  | |- Z.testbit (PLLCFGR (rcc ?X2)) 9 = Z.testbit (PLLCFGR (rcc ?X1)) 9 /\ _ =>
      destruct (PLL_Config_twice hw_prompt 2 2 336 8 HSE boot X1 0 X2)
        as (_ & Hsame)
  end.
  - intros i Hi. apply hw_prompt_keeps_other; discriminate.
  - vm_compute. reflexivity.
  - vm_compute. reflexivity.
  - split; [apply Hsame; lia|]. vm_compute. discriminate.
Defined.
